(** * bilge: session tracking, classification cache and nudge rules

    A shallow embedding of the Python sources [run.py], [ai.py],
    [rules_engine.py], [data_manager.py] and [notifier.py], and of the
    parts of [monitor.py] and [macos.py] that decide what the main loop
    sees.

    Conventions of the embedding.
    - Python objects become records; a method takes the object and returns
      the updated object (explicit state passing).
    - A call that may raise returns an [outcome]; the object returned next
      to it carries the mutations done before the exception.
    - Everything the program reads from outside (the clock, the files, the
      language model, the window monitor, a Ctrl-C) is an input of the
      function that performs the read.
    - Everything the program does to the outside is recorded as a list of
      [event]s returned by the function.  Of the prints, those that only
      report progress of a query to the model are left out.
    - Python floats holding seconds are modelled as exact rationals [Q];
      they are only stored and compared, never tested for [=] after
      arithmetic. *)

From Stdlib Require Import ZArith QArith Qround String Ascii List Bool Lia.
From stdpp Require Import base option list gmap strings pretty.
Import ListNotations.

Local Open Scope string_scope.

(** ** Python preliminaries *)

(** Exceptions that reach the main loop. [KeyboardInterrupt] is a
    [BaseException]; the others are subclasses of [Exception]. *)
Inductive exn : Type :=
  | KeyboardInterrupt
  | OSError
  | KeyError
  | TypeError
  | UnicodeDecodeError
  | MonitorError.

Definition is_Exception (e : exn) : bool :=
  match e with
  | KeyboardInterrupt => false
  | _ => true
  end.

Inductive outcome (A : Type) : Type :=
  | Ret (a : A)
  | Raise (e : exn).
Arguments Ret {A} a.
Arguments Raise {A} e.

(** How far a rewrite of a file has got when it raises.  The program
    rewrites a file with [open(path, "w")] followed by [json.dump] inside
    a [with] block.  [Untouched]: [open] itself raises and the file is as
    it was.  [Truncated]: the file has been opened, which empties it, and
    the dump is cut short, so the file holds no complete JSON document.
    [Complete]: the document is written whole before the exception
    arrives (a Ctrl-C between the dump and the end of the block). *)
Inductive progress : Type :=
  | Untouched
  | Truncated
  | Complete.

(** What a rewrite of a file does: it returns, or it raises [e] having
    got as far as [p]. *)
Inductive write : Type :=
  | Written
  | Fails (e : exn) (p : progress).

(** What the caller of the rewrite sees of it. *)
Definition raised (disk : write) : outcome unit :=
  match disk with
  | Written => Ret tt
  | Fails e _ => Raise e
  end.

(** [int(x)] on a float truncates toward zero. *)
Definition py_int (x : Q) : Z := Z.quot (Qnum x) (Zpos (Qden x)).

(** [a >= b] and [a > b] on numbers. *)
Definition py_ge (a b : Q) : bool := Qle_bool b a.
Definition py_gt (a b : Q) : bool := negb (Qle_bool a b).

(** What the program prints or sends out. *)
Inductive message : Type :=
  | RulesFileModified
  | RulesFileNotFound
  | RulesFileInvalidJSON
  | SessionEnded (app_name : string) (category : option string)
  | SessionStarted (app_name : string) (category : string)
  | TriggeredRule (rule_name category : string) (duration : Z)
  | Exiting
  | AnErrorOccurred (e : exn)
  | CategorizeFailed
  | NudgeFailed
  | NotificationFailed (title text : string).

(** What the program does to the outside, in the order it does it. *)
Inductive event : Type :=
  | Print (m : message)
  | ReadConfig
  | QueryLLM (prompt : string)
  | WriteCacheFile
  | WriteLogFile
  | Notify (title text : string)
  | Sleep (seconds : Z).

(** ** rules_engine.py *)

Module RulesEngine.

(** A rule is the tuple [(category, duration_seconds, action_name)]. *)
Definition rule : Type := string * Q * string.

Definition DEFAULT_RULES : list rule :=
  [ ("Work", 30%Q, "short_work_session");
    ("Gaming", 20%Q, "short_gaming_session");
    ("Browsing", 15%Q, "short_browsing_session");
    ("Media", 10%Q, "short_media_session");
    ("Communication", 10%Q, "short_communication_session") ].

(** What opening and reading the configuration file does, once its
    modification time has been read.
    - [Removed]: [open] raises [FileNotFoundError] (the file has gone
      since its time was read).
    - [InvalidJSON]: the file is text that [json.load] cannot parse; it
      raises [json.JSONDecodeError].
    - [Raises e]: any other exception, none of which [load_rules]
      catches: [UnicodeDecodeError] for bytes that are not text in the
      encoding of the locale, [TypeError] or [KeyError] from the
      comprehension for JSON that is not an object with a key ["rules"]
      holding objects with the three keys of a rule, [OSError] for a file
      that cannot be opened or read.
    - [RulesJSON rules]: the comprehension returns [rules].
    Rules whose fields have other JSON types than a string, a number and
    a string are outside this input type. *)
Inductive file_content : Type :=
  | Removed
  | InvalidJSON
  | Raises (e : exn)
  | RulesJSON (rules : list rule).

(** The configuration file as one call of [load_rules] finds it:
    [Missing] when [os.path.getmtime] raises [FileNotFoundError]. *)
Inductive config_file : Type :=
  | Missing
  | Present (mtime : Q) (content : file_content).

Record t : Type := mk {
  last_nudged_time : gmap string Q;
  last_modified_time : Q;
  rules : list rule
}.

(** [load_rules]: the modification time is compared and remembered, a
    message is printed, and then the file is opened and parsed whatever
    the comparison said. *)
Definition load_rules (self : t) (f : config_file)
  : outcome (list rule) * t * list event :=
  match f with
  | Missing =>
      (Ret DEFAULT_RULES, self, [ReadConfig; Print RulesFileNotFound])
  | Present current_modified_time content =>
      let '(self1, ev1) :=
        if py_gt current_modified_time (last_modified_time self)
        then (mk (last_nudged_time self) current_modified_time (rules self),
              [Print RulesFileModified])
        else (self, []) in
      match content with
      | RulesJSON config => (Ret config, self1, ReadConfig :: ev1)
      | Removed =>
          (Ret DEFAULT_RULES, self1,
           ReadConfig :: ev1 ++ [Print RulesFileNotFound])
      | InvalidJSON =>
          (Ret DEFAULT_RULES, self1,
           ReadConfig :: ev1 ++ [Print RulesFileInvalidJSON])
      | Raises e => (Raise e, self1, ReadConfig :: ev1)
      end
  end.

(** [__init__]: an [outcome] because [load_rules] may raise. *)
Definition init (f : config_file) : outcome t * list event :=
  let self0 :=
    mk ∅ (match f with Present m _ => m | Missing => 0%Q end) [] in
  match load_rules self0 f with
  | (Ret rs, self1, ev) =>
      (Ret (mk (last_nudged_time self1) (last_modified_time self1) rs), ev)
  | (Raise e, _, ev) => (Raise e, ev)
  end.

(** The [for] loop of [evaluate_current_session].  [time_time n] is what
    the [n]-th call of [time.time()] within this evaluation returns; the
    loop threads the number of calls made so far.  The debounce test reads
    the clock only when the action has fired before ([or] short-circuits),
    and firing reads it once more. *)
Fixpoint scan (time_time : nat -> Q) (reads : nat) (category : string)
    (duration : Q) (last : gmap string Q) (rs : list rule)
  : option (string * string * Z) * gmap string Q :=
  match rs with
  | [] => (None, last)
  | (rule_category, rule_duration, action) :: rs' =>
      if bool_decide (rule_category = category)
         && py_ge duration rule_duration
      then
        match last !! action with
        | None =>
            (Some (action, category, py_int duration),
             <[action := time_time reads]> last)
        | Some fired =>
            if py_gt (time_time reads - fired)%Q rule_duration
            then (Some (action, category, py_int duration),
                  <[action := time_time (S reads)]> last)
            else scan time_time (S reads) category duration last rs'
        end
      else scan time_time reads category duration last rs'
  end.

Definition evaluate_current_session (self : t) (f : config_file)
    (time_time : nat -> Q) (category : string) (duration : Q)
  : outcome (option (string * string * Z)) * t * list event :=
  match load_rules self f with
  | (Raise e, self1, ev) => (Raise e, self1, ev)
  | (Ret rs, self1, ev) =>
      let '(r, last) :=
        scan time_time 0 category duration (last_nudged_time self1) rs in
      (Ret r, mk last (last_modified_time self1) rs, ev)
  end.

Definition reset_rules (self : t) : t :=
  mk ∅ (last_modified_time self) (rules self).

End RulesEngine.

(** ** datetime (the part of Python's [datetime] the program uses) *)

Module datetime.

(** A naive [datetime] object: its seven fields. *)
Record t : Type := mk {
  year : Z; month : Z; day : Z;
  hour : Z; minute : Z; second : Z; microsecond : Z
}.

Definition _is_leap (y : Z) : bool :=
  (y mod 4 =? 0)%Z && (negb (y mod 100 =? 0)%Z || (y mod 400 =? 0)%Z).

Definition _days_before_year (y : Z) : Z :=
  let y1 := (y - 1)%Z in
  (y1 * 365 + y1 / 4 - y1 / 100 + y1 / 400)%Z.

Definition _days_in_month (y m : Z) : Z :=
  if (m =? 2)%Z then (if _is_leap y then 29 else 28)%Z
  else if ((m =? 4) || (m =? 6) || (m =? 9) || (m =? 11))%Z then 30%Z
  else 31%Z.

(** Days of the year before the first day of month [m]. *)
Definition _days_before_month (y m : Z) : Z :=
  fold_right Z.add 0%Z
    (map (fun k => _days_in_month y (Z.of_nat k)) (seq 1 (Z.to_nat m - 1))).

Definition toordinal (d : t) : Z :=
  (_days_before_year (year d) + _days_before_month (year d) (month d)
   + day d)%Z.

(** The fields are in the ranges the constructor of [datetime] enforces. *)
Definition valid (d : t) : Prop :=
  (1 <= year d <= 9999 /\ 1 <= month d <= 12
   /\ 1 <= day d <= _days_in_month (year d) (month d)
   /\ 0 <= hour d < 24 /\ 0 <= minute d < 60 /\ 0 <= second d < 60
   /\ 0 <= microsecond d < 1000000)%Z.

(** A [timedelta] in its normal form: [0 <= seconds < 86400] and
    [0 <= microseconds < 1000000]. *)
Record timedelta : Type := mk_timedelta {
  days : Z; seconds : Z; microseconds : Z
}.

(** The constructor [timedelta(days, seconds, microseconds)] carries the
    overflow of each field into the next. *)
Definition new_timedelta (d s us : Z) : timedelta :=
  let s1 := (s + us / 1000000)%Z in
  mk_timedelta (d + s1 / 86400)%Z (s1 mod 86400)%Z (us mod 1000000)%Z.

(** [a - b] on two naive datetimes. *)
Definition sub (a b : t) : timedelta :=
  let secs1 := (second a + minute a * 60 + hour a * 3600)%Z in
  let secs2 := (second b + minute b * 60 + hour b * 3600)%Z in
  new_timedelta (toordinal a - toordinal b) (secs1 - secs2)
                (microsecond a - microsecond b).

Definition total_seconds (d : timedelta) : Q :=
  Qmake ((days d * 86400 + seconds d) * 1000000 + microseconds d) 1000000.

(** Microseconds since the start of day 0 of the proleptic calendar. *)
Definition to_microseconds (d : t) : Z :=
  ((toordinal d * 86400 + hour d * 3600 + minute d * 60 + second d)
   * 1000000 + microsecond d)%Z.

Definition digit (z : Z) : ascii :=
  ascii_of_nat (48 + Z.to_nat (z mod 10)).

(** ["%0{width}d" % z] for [0 <= z < 10 ^ width]. *)
Fixpoint zfill (width : nat) (z : Z) : string :=
  match width with
  | O => EmptyString
  | S w => zfill w (z / 10) ++ String (digit z) EmptyString
  end.

(** [isoformat()]: the fraction is left out when [microsecond] is 0. *)
Definition isoformat (d : t) : string :=
  zfill 4 (year d) ++ "-" ++ zfill 2 (month d) ++ "-" ++ zfill 2 (day d)
  ++ "T" ++ zfill 2 (hour d) ++ ":" ++ zfill 2 (minute d) ++ ":"
  ++ zfill 2 (second d)
  ++ (if (microsecond d =? 0)%Z then EmptyString
      else "." ++ zfill 6 (microsecond d)).

End datetime.

(** ** data_manager.py *)

Module DataManager.

(** One record of the session log.  [category] is [None] when the caller
    passes Python's [None]. *)
Record entry : Type := mk_entry {
  start_time : string;
  end_time : string;
  app_name : string;
  category : option string;
  duration_seconds : Q
}.

(** [data] is the list held in memory; [file] is the log the day's file
    holds, as [_load_data] reads it: the list written there, and the empty
    list when the file is missing, empty or cut short ([json.load] raises
    [JSONDecodeError], and [_load_data] returns [[]]). *)
Record t : Type := mk {
  data : list entry;
  file : list entry
}.

(** [_save_data] rewrites the whole file from [data].  [disk] is what the
    rewrite does.  When it raises, the file is as it was if it was never
    opened, reads as the empty log if it was opened and the dump cut
    short, and holds [data] if the dump was complete. *)
Definition _save_data (self : t) (disk : write)
  : outcome unit * t * list event :=
  match disk with
  | Written => (Ret tt, mk (data self) (data self), [WriteLogFile])
  | Fails e Untouched => (Raise e, self, [WriteLogFile])
  | Fails e Truncated => (Raise e, mk (data self) [], [WriteLogFile])
  | Fails e Complete =>
      (Raise e, mk (data self) (data self), [WriteLogFile])
  end.

Definition save_session (self : t) (disk : write)
    (app_name : string) (category : option string)
    (start_time end_time : datetime.t)
  : outcome unit * t * list event :=
  let entry :=
    mk_entry (datetime.isoformat start_time) (datetime.isoformat end_time)
             app_name category
             (datetime.total_seconds (datetime.sub end_time start_time)) in
  _save_data (mk (data self ++ [entry]) (file self)) disk.

(** [__init__] with the day's log file as [_load_data] finds it: [None]
    when the file is missing or [json.load] raises [JSONDecodeError] (an
    empty file, a file cut short), and the log starts empty.  A file of
    bytes that cannot be decoded makes [__init__] raise before the loop
    starts and is outside this input type. *)
Definition init (on_disk : option (list entry)) : t :=
  match on_disk with
  | Some l => mk l l
  | None => mk [] []
  end.

(** [get_latest_sessions]: the log is walked from its end and the first
    record met for a category is kept.  The records are those
    [save_session] writes, in which every key is present, so [entry.get]
    never falls back on its default.  A value of the result stands for the
    dictionary with the keys ["duration_seconds"] and ["start_time"]. *)
Definition get_latest_sessions (self : t)
  : gmap (option string) (Q * string) :=
  fold_left
    (fun latest_sessions entry =>
       match latest_sessions !! category entry with
       | Some _ => latest_sessions
       | None =>
           <[category entry := (duration_seconds entry, start_time entry)]>
             latest_sessions
       end)
    (rev (data self)) ∅.

End DataManager.

(** ** What the window monitor returns *)

(** [Monitor.get_active_window] returns a process name or, for Chrome on
    macOS, the dictionary built by [get_chrome_activity]: its three keys
    are always present, [window_name] and [active_tab_title] are strings
    and [active_tab_url] is [None] when the script's output has no
    separator. *)
Inductive app_data : Type :=
  | Str (name : string)
  | Dict (window_name active_tab_title : string)
         (active_tab_url : option string).

#[global] Instance app_data_eq_dec : EqDecision app_data.
Proof. solve_decision. Defined.

(** How an f-string renders a value that is a string or [None]. *)
Definition fmt (v : option string) : string :=
  match v with
  | Some s => s
  | None => "None"
  end.

(** Truth value of a string ([if s:]). *)
Definition str_truthy (s : string) : bool :=
  negb (bool_decide (s = EmptyString)).

(** Truth value of what the monitor returned ([if current_app_data:]):
    [None] and the empty string are false, a dictionary with keys is
    true. *)
Definition truthy (v : option app_data) : bool :=
  match v with
  | None => false
  | Some (Str s) => str_truthy s
  | Some (Dict _ _ _) => true
  end.

(** ** ai.py *)

Module AIAgent.

(** [category_cache] is the dictionary in memory; [file] is the
    dictionary [cache/app_categories.json] holds, as [_load_cache] reads
    it: the empty dictionary when the file is missing, empty or cut
    short.  The values are whatever strings the file held when it was
    loaded. *)
Record t : Type := mk {
  category_cache : gmap string string;
  file : gmap string string
}.

(** [__init__] with the cache file as [_load_cache] finds it: [None] when
    it is missing or [json.load] raises [JSONDecodeError] (an empty file,
    a file cut short).  A file of bytes that cannot be decoded makes
    [__init__] raise and is outside this input type. *)
Definition init (on_disk : option (gmap string string)) : t :=
  match on_disk with
  | Some m => mk m m
  | None => mk ∅ ∅
  end.

Definition valid_categories : list string :=
  ["Work"; "Gaming"; "Browsing"; "Communication"; "Media"; "Other"].

(** [_save_cache] rewrites the whole file from [category_cache]; what is
    left of the file when the rewrite raises is as for the session log. *)
Definition _save_cache (self : t) (disk : write)
  : outcome unit * t * list event :=
  match disk with
  | Written =>
      (Ret tt, mk (category_cache self) (category_cache self),
       [WriteCacheFile])
  | Fails e Untouched => (Raise e, self, [WriteCacheFile])
  | Fails e Truncated =>
      (Raise e, mk (category_cache self) ∅, [WriteCacheFile])
  | Fails e Complete =>
      (Raise e, mk (category_cache self) (category_cache self),
       [WriteCacheFile])
  end.

Definition cache_key (d : app_data) : string :=
  match d with
  | Str s => s
  | Dict _ title url => "chrome|" ++ title ++ "|" ++ fmt url
  end.

Definition categorize_prompt (d : app_data) : string :=
  match d with
  | Dict _ title url =>
      "Categorize this web page with title '" ++ title
      ++ "' and URL '" ++ fmt url ++ "' into one of the following "
      ++ "categories: Work, Gaming, Browsing, Communication, Media, or Other. "
      ++ "Respond with only the category name."
  | Str s =>
      "Categorize the application '" ++ s ++ "' into one of the following "
      ++ "categories: Work, Gaming, Browsing, Communication, Media, or Other. "
      ++ "Respond with only the category name."
  end.

(** [categorize_app].  [llm] is what [_query_llm] does if it is called:
    it returns the [category] field of the parsed reply or raises; [disk]
    is what the write of the cache file does if it is attempted.
    [except Exception] catches every exception but [KeyboardInterrupt]. *)
Definition categorize_app (self : t) (llm : outcome string)
    (disk : write) (d : app_data)
  : outcome string * t * list event :=
  let key := cache_key d in
  match category_cache self !! key with
  | Some v => (Ret v, self, [])
  | None =>
      let ask := QueryLLM (categorize_prompt d) in
      let answered :=
        match llm with
        | Ret c => Ret (c, [ask])
        | Raise e =>
            if is_Exception e
            then Ret ("Other", [ask; Print CategorizeFailed])
            else Raise e
        end in
      match answered with
      | Raise e => (Raise e, self, [ask])
      | Ret (category, ev) =>
          let category :=
            if bool_decide (category ∈ valid_categories)
            then category else "Other" in
          let self1 := mk (<[key := category]> (category_cache self))
                          (file self) in
          match _save_cache self1 disk with
          | (Ret _, self2, ev2) => (Ret category, self2, (ev ++ ev2)%list)
          | (Raise e, self2, ev2) => (Raise e, self2, (ev ++ ev2)%list)
          end
      end
  end.

Definition nudge_prompt (category : string) (duration : Z) : string :=
  "The user has been in the '" ++ category ++ "' category for "
  ++ pretty duration ++ " seconds. "
  ++ "Write a short, friendly, and encouraging message that includes the category and duration. "
  ++ "Suggest one of the following healthy break activities: taking a walk, stretching, light exercise, resting eyes, drinking water, or getting some fresh air. "
  ++ "Keep it light and non-judgmental. Choose only one activity to suggest.".

Definition nudge_fallback : string :=
  "Consider taking a break from your screen.".

(** [generate_nudge]: nothing is cached. *)
Definition generate_nudge (llm : outcome string) (category : string)
    (duration : Z) : outcome string * list event :=
  let ask := QueryLLM (nudge_prompt category duration) in
  match llm with
  | Ret text => (Ret text, [ask])
  | Raise e =>
      if is_Exception e
      then (Ret nudge_fallback, [ask; Print NudgeFailed])
      else (Raise e, [ask])
  end.

End AIAgent.

(** ** notifier.py *)

Module Notifier.

(** [send_notification]: [plyer] is what [notification.notify] does. *)
Definition send_notification (plyer : outcome unit) (title text : string)
  : outcome unit * list event :=
  match plyer with
  | Ret _ => (Ret tt, [Notify title text])
  | Raise e =>
      if is_Exception e
      then (Ret tt, [Print (NotificationFailed title text)])
      else (Raise e, [])
  end.

End Notifier.

(** ** macos.py and monitor.py *)

Module MacOSMonitor.

(** [s.split(sep)] for a separator that is not empty: the string is read
    from the left; where the separator starts, the part read so far is
    closed and the characters of the separator are skipped.  [skip] counts
    the characters of a separator still to pass, [cur] is the part being
    read. *)
Fixpoint split_go (sep : string) (skip : nat) (cur s : string)
  : list string :=
  match s with
  | EmptyString => [cur]
  | String c s' =>
      match skip with
      | S k => split_go sep k cur s'
      | O =>
          if String.prefix sep s
          then cur :: split_go sep (String.length sep - 1) EmptyString s'
          else split_go sep 0 (cur ++ String c EmptyString) s'
      end
  end.

Definition split (sep s : string) : list string :=
  split_go sep 0 EmptyString s.

(** [get_chrome_activity] from the line that splits the output of the
    script: [raw_output] is [result.stdout.strip()].  [split] never
    returns an empty list, so [parts[0]] is always there and the second
    branch is never taken. *)
Definition get_chrome_activity (raw_output : string) : app_data :=
  match split "|||" raw_output with
  | tab_title :: rest => Dict "Google Chrome" tab_title (head rest)
  | [] => Dict "Google Chrome" "None" None
  end.

End MacOSMonitor.

Module Monitor.

(** [platform.system()]: ["Darwin"], ["Windows"] or anything else. *)
Inductive platform : Type :=
  | Darwin
  | Windows
  | Other.

(** [Monitor.get_active_window].  On macOS [active_app] is what
    [MacOSMonitor.get_active_window] returned (a process name or [None])
    and [chrome_output] what the Chrome script prints if it is run; the
    monitors of the other platforms return a constant. *)
Definition get_active_window (p : platform) (active_app : option string)
    (chrome_output : string) : option app_data :=
  match p with
  | Darwin =>
      match active_app with
      | Some name =>
          if bool_decide (name = "Google Chrome")
          then Some (MacOSMonitor.get_chrome_activity chrome_output)
          else Some (Str name)
      | None => None
      end
  | Windows => Some (Str "Windows App")
  | Other => Some (Str "Generic App")
  end.

End Monitor.

(** ** run.py *)

Module BilgeApp.

Record t : Type := mk {
  data_manager : DataManager.t;
  rules_engine : RulesEngine.t;
  ai_agent : AIAgent.t;
  current_session_start_time : datetime.t;
  current_session_category : option string;
  current_session_app_name : option string;
  last_app_data : option app_data;
  nudged_for_session : bool
}.

(** What one iteration of the loop finds outside the program: the answer
    of every call it may make, each used only if the call is made. *)
Record world : Type := mk_world {
  get_active_window : outcome (option app_data);
  query_llm_category : outcome string;
  save_cache : write;
  now_end : datetime.t;
  save_data : write;
  now_start : datetime.t;
  now_duration : datetime.t;
  rules_config : RulesEngine.config_file;
  time_time : nat -> Q;
  query_llm_nudge : outcome string;
  plyer_notify : outcome unit;
  sleep_1 : outcome unit;
  sleep_5 : outcome unit;
  now_exit : datetime.t;
  save_data_exit : write
}.

Definition with_data_manager (self : t) (dm : DataManager.t) : t :=
  mk dm (rules_engine self) (ai_agent self)
     (current_session_start_time self) (current_session_category self)
     (current_session_app_name self) (last_app_data self)
     (nudged_for_session self).

Definition with_rules_engine (self : t) (re : RulesEngine.t) : t :=
  mk (data_manager self) re (ai_agent self)
     (current_session_start_time self) (current_session_category self)
     (current_session_app_name self) (last_app_data self)
     (nudged_for_session self).

Definition with_ai_agent (self : t) (ai : AIAgent.t) : t :=
  mk (data_manager self) (rules_engine self) ai
     (current_session_start_time self) (current_session_category self)
     (current_session_app_name self) (last_app_data self)
     (nudged_for_session self).

Definition with_nudged (self : t) (b : bool) : t :=
  mk (data_manager self) (rules_engine self) (ai_agent self)
     (current_session_start_time self) (current_session_category self)
     (current_session_app_name self) (last_app_data self) b.

(** [__init__], given the objects it builds and the clock. *)
Definition init (dm : DataManager.t) (re : RulesEngine.t) (ai : AIAgent.t)
    (now : datetime.t) : t :=
  mk dm re ai now None None None false.

Definition _get_app_info (d : app_data) : string * string :=
  match d with
  | Dict window_name title url =>
      (title ++ " | " ++ fmt url, window_name ++ " | " ++ title)
  | Str s => (s, s)
  end.

(** [if self.current_session_app_name:] *)
Definition session_open (self : t) : bool :=
  match current_session_app_name self with
  | Some name => str_truthy name
  | None => false
  end.

(** The condition of the [if] of step 2. *)
Definition boundary (self : t) (current_app_data : app_data)
    (current_category : string) : bool :=
  bool_decide (Some current_app_data <> last_app_data self)
  || bool_decide (Some current_category <> current_session_category self).

(** Closing the session that is open: the inner [if] of step 2, and the
    [if] of the [KeyboardInterrupt] handler (which prints nothing). *)
Definition end_session (self : t) (end_time : datetime.t)
    (disk : write) (announce : bool)
  : outcome unit * t * list event :=
  match current_session_app_name self with
  | Some name =>
      if str_truthy name then
        let '(r, dm, ev) :=
          DataManager.save_session (data_manager self) disk name
            (current_session_category self)
            (current_session_start_time self) end_time in
        (r, with_data_manager self dm,
         (if announce
          then Print (SessionEnded name (current_session_category self)) :: ev
          else ev))
      else (Ret tt, self, [])
  | None => (Ret tt, self, [])
  end.

(** Step 2: end the previous session and start a new one. *)
Definition switch (self : t) (w : world) (current_app_data : app_data)
    (current_category app_name_for_log : string)
  : outcome unit * t * list event :=
  if boundary self current_app_data current_category then
    match end_session self (now_end w) (save_data w) true with
    | (Raise e, self1, ev) => (Raise e, self1, ev)
    | (Ret _, self1, ev) =>
        (Ret tt,
         mk (data_manager self1) (rules_engine self1) (ai_agent self1)
            (now_start w) (Some current_category) (Some app_name_for_log)
            (Some current_app_data) false,
         (ev ++ [Print (SessionStarted app_name_for_log current_category)])%list)
    end
  else (Ret tt, self, []).

(** The call of the rule engine with [self.current_session_category],
    which is [None] until a session has started: no rule's category
    equals [None], so the rules are loaded and none fires. *)
Definition evaluate (re : RulesEngine.t) (f : RulesEngine.config_file)
    (time_time : nat -> Q) (category : option string) (duration : Q)
  : outcome (option (string * string * Z)) * RulesEngine.t * list event :=
  match category with
  | Some c => RulesEngine.evaluate_current_session re f time_time c duration
  | None =>
      match RulesEngine.load_rules re f with
      | (Raise e, re1, ev) => (Raise e, re1, ev)
      | (Ret rs, re1, ev) =>
          (Ret None,
           RulesEngine.mk (RulesEngine.last_nudged_time re1)
                          (RulesEngine.last_modified_time re1) rs, ev)
      end
  end.

(** Step 3: rule evaluation for the current session. *)
Definition nudge (self : t) (w : world) : outcome unit * t * list event :=
  let current_session_duration :=
    datetime.total_seconds
      (datetime.sub (now_duration w) (current_session_start_time self)) in
  if negb (nudged_for_session self) then
    match evaluate (rules_engine self) (rules_config w) (time_time w)
            (current_session_category self) current_session_duration with
    | (Raise e, re, ev) => (Raise e, with_rules_engine self re, ev)
    | (Ret None, re, ev) => (Ret tt, with_rules_engine self re, ev)
    | (Ret (Some (rule_name, category, duration)), re, ev) =>
        let self1 := with_rules_engine self re in
        let ev1 := (ev ++ [Print (TriggeredRule rule_name category duration)])%list in
        match AIAgent.generate_nudge (query_llm_nudge w) category duration with
        | (Raise e, ev2) => (Raise e, self1, (ev1 ++ ev2)%list)
        | (Ret text, ev2) =>
            match Notifier.send_notification (plyer_notify w) "bilge" text with
            | (Raise e, ev3) => (Raise e, self1, (ev1 ++ ev2 ++ ev3)%list)
            | (Ret _, ev3) =>
                (Ret tt, with_nudged self1 true, (ev1 ++ ev2 ++ ev3)%list)
            end
        end
    end
  else (Ret tt, self, []).

(** [time.sleep(seconds)]: returns, or is interrupted. *)
Definition sleep (seconds : Z) (o : outcome unit) : outcome unit * list event :=
  (o, [Sleep seconds]).

(** The part of the body that runs when the monitor returned something
    true: steps 1 to 3. *)
Definition track (self : t) (w : world) (current_app_data : app_data)
  : outcome unit * t * list event :=
  let '(categorization_string, app_name_for_log) :=
    _get_app_info current_app_data in
  match AIAgent.categorize_app (ai_agent self) (query_llm_category w)
          (save_cache w) (Str categorization_string) with
  | (Raise e, ai, ev) => (Raise e, with_ai_agent self ai, ev)
  | (Ret current_category, ai, ev) =>
      match switch (with_ai_agent self ai) w current_app_data
              current_category app_name_for_log with
      | (Raise e, self1, ev1) => (Raise e, self1, (ev ++ ev1)%list)
      | (Ret _, self1, ev1) =>
          let '(r, self2, ev2) := nudge self1 w in
          (r, self2, (ev ++ ev1 ++ ev2)%list)
      end
  end.

(** The body of the [try]. *)
Definition body (self : t) (w : world) : outcome unit * t * list event :=
  match get_active_window w with
  | Raise e => (Raise e, self, [])
  | Ret current_app_data =>
      let '(r, self1, ev) :=
        match current_app_data with
        | Some d =>
            if truthy current_app_data then track self w d
            else (Ret tt, self, [])
        | None => (Ret tt, self, [])
        end in
      match r with
      | Raise e => (Raise e, self1, ev)
      | Ret _ =>
          let '(r1, ev1) := sleep 1 (sleep_1 w) in
          (r1, self1, (ev ++ ev1)%list)
      end
  end.

(** How one iteration of [while True] ends. *)
Inductive status : Type :=
  | Continue
  | Break
  | Uncaught (e : exn).

(** One iteration: the [try] with its two handlers.  An exception raised
    inside a handler is not handled by the other one. *)
Definition iteration (self : t) (w : world) : status * t * list event :=
  match body self w with
  | (Ret _, self1, ev) => (Continue, self1, ev)
  | (Raise KeyboardInterrupt, self1, ev) =>
      match end_session self1 (now_exit w) (save_data_exit w) false with
      | (Ret _, self2, ev1) => (Break, self2, (ev ++ Print Exiting :: ev1)%list)
      | (Raise e, self2, ev1) =>
          (Uncaught e, self2, (ev ++ Print Exiting :: ev1)%list)
      end
  | (Raise e, self1, ev) =>
      match sleep 5 (sleep_5 w) with
      | (Ret _, ev1) =>
          (Continue, self1, (ev ++ Print (AnErrorOccurred e) :: ev1)%list)
      | (Raise e', ev1) =>
          (Uncaught e', self1, (ev ++ Print (AnErrorOccurred e) :: ev1)%list)
      end
  end.

(** How the process stands after the iterations given: the loop is still
    going, [run] has returned (the script ends with status 0), or an
    exception has left [run] (traceback, non-zero status). *)
Inductive exit : Type :=
  | Running
  | ExitSuccess
  | ExitFailure (e : exn).

Fixpoint run (self : t) (ws : list world) : exit * t * list event :=
  match ws with
  | [] => (Running, self, [])
  | w :: ws' =>
      match iteration self w with
      | (Continue, self1, ev) =>
          let '(x, self2, ev1) := run self1 ws' in
          (x, self2, (ev ++ ev1)%list)
      | (Break, self1, ev) => (ExitSuccess, self1, ev)
      | (Uncaught e, self1, ev) => (ExitFailure e, self1, ev)
      end
  end.

End BilgeApp.

(** ** Properties in the words of the specification *)

Module Spec.

Import RulesEngine.

(** A rule matches the session: same category, threshold reached. *)
Definition matches (category : string) (duration : Q) (r : rule) : Prop :=
  r.1.1 = category /\ (r.1.2 <= duration)%Q.

Definition matchesb (category : string) (duration : Q) (r : rule) : bool :=
  bool_decide (r.1.1 = category) && py_ge duration r.1.2.

(** The debounce test at time [now]: the action has never fired, or it
    fired more than the rule's own threshold ago. *)
Definition allowed (now : Q) (last : gmap string Q) (r : rule) : Prop :=
  last !! r.2 = None \/ exists t, last !! r.2 = Some t /\ (r.1.2 < now - t)%Q.

(** Clock reads made by the scan over a prefix [p] none of whose rules
    fired: one for each matching rule. *)
Definition reads_before (category : string) (duration : Q) (p : list rule)
  : nat :=
  length (List.filter (matchesb category duration) p).

(** No rule of [rs] fires when the scan reaches it. *)
Definition none_fires (time_time : nat -> Q) (reads : nat)
    (category : string) (duration : Q) (last : gmap string Q)
    (rs : list rule) : Prop :=
  forall p r q, rs = (p ++ r :: q)%list ->
    matches category duration r ->
    ~ allowed (time_time (reads + reads_before category duration p)%nat)
        last r.

(** The members of the closed set of categories. *)
Definition closed_category (c : string) : Prop :=
  c = "Work" \/ c = "Gaming" \/ c = "Browsing" \/ c = "Communication"
  \/ c = "Media" \/ c = "Other".

(** Within one session (between two [SessionStarted]) the rule engine is
    not consulted after a rule has triggered, at most one rule triggers
    and at most one notification is sent.  The state is (triggered,
    notified); [None] is a violation. *)
Fixpoint one_nudge_per_session (st : bool * bool) (evs : list event)
  : option (bool * bool) :=
  match evs with
  | [] => Some st
  | ev :: evs' =>
      match ev with
      | Print (SessionStarted _ _) =>
          one_nudge_per_session (false, false) evs'
      | ReadConfig =>
          if st.1 then None else one_nudge_per_session st evs'
      | Print (TriggeredRule _ _ _) =>
          if st.1 then None else one_nudge_per_session (true, st.2) evs'
      | Notify _ _ =>
          if st.2 then None else one_nudge_per_session (st.1, true) evs'
      | _ => one_nudge_per_session st evs'
      end
  end.

(** The agent after further calls of [categorize_app], each with its own
    answers from the model and the disk. *)
Definition after_calls (self : AIAgent.t)
    (calls : list (outcome string * write * app_data)) : AIAgent.t :=
  fold_left
    (fun a call => (AIAgent.categorize_app a call.1.1 call.1.2 call.2).1.2)
    calls self.

(** The events of the session tracker. *)
Definition is_session_event (ev : event) : bool :=
  match ev with
  | Print (SessionStarted _ _) | Print (SessionEnded _ _) => true
  | _ => false
  end.

Definition session_events (evs : list event) : list event :=
  List.filter is_session_event evs.

(** The events [one_nudge_per_session] looks at. *)
Definition is_nudge_event (ev : event) : bool :=
  match ev with
  | Print (SessionStarted _ _) | Print (TriggeredRule _ _ _)
  | ReadConfig | Notify _ _ => true
  | _ => false
  end.

Definition is_digit (c : ascii) : bool :=
  (48 <=? nat_of_ascii c)%nat && (nat_of_ascii c <=? 57)%nat.

(** The number a string of decimal digits stands for. *)
Fixpoint read_digits (acc : Z) (s : string) : Z :=
  match s with
  | EmptyString => acc
  | String c s' => read_digits (10 * acc + Z.of_nat (nat_of_ascii c) - 48) s'
  end.

(** [s] has the shape of [pattern], in which ["d"] stands for a decimal
    digit and every other character for itself. *)
Fixpoint has_shape (pattern s : string) : bool :=
  match pattern, s with
  | EmptyString, EmptyString => true
  | String p pattern', String c s' =>
      (if Ascii.eqb p "d" then is_digit c else Ascii.eqb p c)
      && has_shape pattern' s'
  | _, _ => false
  end.

(** The two ISO-8601 forms of a date and time of day: with and without
    a fraction of six digits. *)
Definition iso8601 (s : string) : bool :=
  has_shape "dddd-dd-ddTdd:dd:dd" s
  || has_shape "dddd-dd-ddTdd:dd:dd.dddddd" s.

(** Reading such a string back: each field is the number written at its
    place in [YYYY-MM-DDThh:mm:ss.ffffff].  A string without a fraction
    has no characters at the place of the microseconds, which read as
    0. *)
Definition read_field (start length : nat) (s : string) : Z :=
  read_digits 0 (substring start length s).

Definition read_iso8601 (s : string) : datetime.t :=
  datetime.mk (read_field 0 4 s) (read_field 5 2 s) (read_field 8 2 s)
    (read_field 11 2 s) (read_field 14 2 s) (read_field 17 2 s)
    (read_field 20 6 s).

(** The Gregorian calendar, by counting.  Every fourth year is a leap
    year, except the years of a full century, of which every fourth is
    one. *)
Definition leap_year (y : Z) : bool :=
  if (y mod 400 =? 0)%Z then true
  else if (y mod 100 =? 0)%Z then false
  else (y mod 4 =? 0)%Z.

Definition year_length (y : Z) : Z :=
  if leap_year y then 366%Z else 365%Z.

(** The days of the years 1 to [n], one year after the other. *)
Fixpoint days_in_years (n : nat) : Z :=
  match n with
  | O => 0%Z
  | S k => (days_in_years k + year_length (Z.of_nat (S k)))%Z
  end.

(** The days of a common year before the first day of each month. *)
Definition common_year_days_before : list Z :=
  [0; 31; 59; 90; 120; 151; 181; 212; 243; 273; 304; 334]%Z.

(** The number of a day, 1 January of the year 1 being day 1. *)
Definition day_number (d : datetime.t) : Z :=
  (days_in_years (Z.to_nat (datetime.year d - 1))
   + nth (Z.to_nat (datetime.month d - 1)) common_year_days_before 0
   + (if leap_year (datetime.year d) && (2 <? datetime.month d)
      then 1 else 0)
   + datetime.day d)%Z.

(** The microseconds from the start of day 0 to an instant, and the
    seconds from one instant to another. *)
Definition instant (d : datetime.t) : Z :=
  ((((day_number d * 24 + datetime.hour d) * 60 + datetime.minute d) * 60
    + datetime.second d) * 1000000 + datetime.microsecond d)%Z.

Definition elapsed_seconds (start_time end_time : datetime.t) : Q :=
  Qmake (instant end_time - instant start_time) 1000000.

(** The record that closes the open session at time [end_time], and what
    is printed about it: nothing when no session is open. *)
Definition closing_entries (self : BilgeApp.t) (end_time : datetime.t)
  : list DataManager.entry :=
  match BilgeApp.current_session_app_name self with
  | Some name =>
      if str_truthy name then
        [DataManager.mk_entry
           (datetime.isoformat (BilgeApp.current_session_start_time self))
           (datetime.isoformat end_time) name
           (BilgeApp.current_session_category self)
           (datetime.total_seconds
              (datetime.sub end_time
                 (BilgeApp.current_session_start_time self)))]
      else []
  | None => []
  end.

Definition closing_events (self : BilgeApp.t) : list event :=
  match BilgeApp.current_session_app_name self with
  | Some name =>
      if str_truthy name
      then [Print (SessionEnded name (BilgeApp.current_session_category self))]
      else []
  | None => []
  end.

(** Events of one kind only: neither of the session tracker nor of the
    nudge bookkeeping. *)
Definition quiet (evs : list event) : Prop :=
  Forall (fun ev => is_session_event ev = false
                    /\ is_nudge_event ev = false) evs.

(** [ev] takes the bookkeeping from [st] to [st'] without violation. *)
Definition steps (st : bool * bool) (ev : list event) (st' : bool * bool)
  : Prop :=
  forall rest,
    one_nudge_per_session st (ev ++ rest) = one_nudge_per_session st' rest.

(** The bookkeeping agrees with the flag of the application. *)
Definition agrees (st : bool * bool) (self : BilgeApp.t) : Prop :=
  st.1 = BilgeApp.nudged_for_session self /\ (st.2 = true -> st.1 = true).

(** Every ["|"] of [s] is followed by a character that is not ["|"]: the
    separator ["|||"] cannot start inside [s], nor on its last character
    when a separator follows. *)
Fixpoint separable (s : string) : bool :=
  match s with
  | EmptyString => true
  | String c s' =>
      (if Ascii.eqb c "|"
       then match s' with
            | EmptyString => false
            | String c' _ => negb (Ascii.eqb c' "|")
            end
       else true)
      && separable s'
  end.

(** What the tracker knows between two ticks.  Before the first session
    there is no session name; afterwards the identity last seen is an
    activity, a session is open, it has a category, and the cache holds
    that category for the subject of the identity. *)
Definition tracking (self : BilgeApp.t) : Prop :=
  match BilgeApp.last_app_data self with
  | None => BilgeApp.current_session_app_name self = None
  | Some d =>
      truthy (Some d) = true
      /\ BilgeApp.session_open self = true
      /\ exists c,
           BilgeApp.current_session_category self = Some c
           /\ AIAgent.category_cache (BilgeApp.ai_agent self)
                !! (BilgeApp._get_app_info d).1 = Some c
  end.

Definition is_log_write (ev : event) : bool :=
  match ev with
  | WriteLogFile => true
  | _ => false
  end.

(** How often the log file was written (or the write attempted). *)
Definition log_writes (evs : list event) : nat :=
  length (List.filter is_log_write evs).

Definition is_session_started (ev : event) : bool :=
  match ev with
  | Print (SessionStarted _ _) => true
  | _ => false
  end.

Definition sessions_started (evs : list event) : nat :=
  length (List.filter is_session_started evs).

Definition interrupted {A} (o : outcome A) : bool :=
  match o with
  | Raise KeyboardInterrupt => true
  | _ => false
  end.

(** What the read of the rules file raises, if it raises. *)
Definition rules_read (f : RulesEngine.config_file) : outcome unit :=
  match f with
  | RulesEngine.Present _ (RulesEngine.Raises e) => Raise e
  | _ => Ret tt
  end.

(** No call of the tick is interrupted, and the sleep of the back-off
    returns. *)
Definition uninterrupted (w : BilgeApp.world) : Prop :=
  interrupted (BilgeApp.get_active_window w) = false
  /\ interrupted (BilgeApp.query_llm_category w) = false
  /\ interrupted (raised (BilgeApp.save_cache w)) = false
  /\ interrupted (raised (BilgeApp.save_data w)) = false
  /\ interrupted (rules_read (BilgeApp.rules_config w)) = false
  /\ interrupted (BilgeApp.query_llm_nudge w) = false
  /\ interrupted (BilgeApp.plyer_notify w) = false
  /\ interrupted (BilgeApp.sleep_1 w) = false
  /\ BilgeApp.sleep_5 w = Ret tt.

(** [sep] occurs in [s]. *)
Fixpoint occurs (sep s : string) : bool :=
  String.prefix sep s
  || match s with
     | EmptyString => false
     | String _ s' => occurs sep s'
     end.

(** What a part of the loop does to the log: records are appended, one
    for each write of the log file. *)
Definition log_grows (self self' : BilgeApp.t) (ev : list event) : Prop :=
  exists added,
    DataManager.data (BilgeApp.data_manager self')
    = (DataManager.data (BilgeApp.data_manager self) ++ added)%list
    /\ length added = log_writes ev.

(** Sessions that may still be started while one identity is all the
    monitor ever returns: one before it has been seen, none after. *)
Definition pending (self : BilgeApp.t) : nat :=
  match BilgeApp.last_app_data self with
  | None => 1
  | Some _ => 0
  end.

(** The monitor returns [d] whenever it returns an activity. *)
Definition sees_only (d : app_data) (w : BilgeApp.world) : Prop :=
  match BilgeApp.get_active_window w with
  | Ret (Some d') => truthy (Some d') = true -> d' = d
  | _ => True
  end.

(** The rules the file yields have no rule for category [c]. *)
Definition no_rule_for (c : string) (f : RulesEngine.config_file) : Prop :=
  match f with
  | RulesEngine.Present _ (RulesEngine.RulesJSON rs) =>
      Forall (fun r : RulesEngine.rule => r.1.1 <> c) rs
  | _ => True
  end.

(** A tick in which the model does not answer the classification and
    the rules have nothing for ["Other"]. *)
Definition model_down (w : BilgeApp.world) : Prop :=
  (exists e, BilgeApp.query_llm_category w = Raise e)
  /\ no_rule_for "Other" (BilgeApp.rules_config w).

Definition is_nudge (ev : event) : bool :=
  match ev with
  | Print (TriggeredRule _ _ _) | Notify _ _ => true
  | _ => false
  end.

(** Rules triggered and notifications sent. *)
Definition nudges (evs : list event) : nat :=
  length (List.filter is_nudge evs).

(** Everything known is ["Other"]: the cache and the current session. *)
Definition all_other (self : BilgeApp.t) : Prop :=
  (forall k v,
     AIAgent.category_cache (BilgeApp.ai_agent self) !! k = Some v ->
     v = "Other")
  /\ (BilgeApp.current_session_category self = None
      \/ BilgeApp.current_session_category self = Some "Other").

End Spec.

(** ** Concrete runs *)

Module Examples.

Import BilgeApp.

Definition at_10h (minute second : Z) : datetime.t :=
  datetime.mk 2025 8 20 10 minute second 0.

(** A tick in which everything outside works: the monitor returns [d],
    the model answers [category] and a nudge text, the files are written,
    the rules file is missing, and every clock shows [second] seconds
    past 10:00. *)
Definition calm (d : app_data) (category : string) (second : Z) : world :=
  mk_world (Ret (Some d)) (Ret category) Written
    (at_10h 0 second) Written (at_10h 0 second) (at_10h 0 second)
    RulesEngine.Missing (fun _ => inject_Z second)
    (Ret "Time to stretch.") (Ret tt) (Ret tt) (Ret tt)
    (at_10h 0 second) Written.

(** The same tick with a rules file that is valid JSON without the key
    ["rules"]. *)
Definition broken_rules (d : app_data) (category : string) (second : Z)
  : world :=
  mk_world (Ret (Some d)) (Ret category) Written
    (at_10h 0 second) Written (at_10h 0 second) (at_10h 0 second)
    (RulesEngine.Present 1 (RulesEngine.Raises KeyError))
    (fun _ => inject_Z second)
    (Ret "Time to stretch.") (Ret tt) (Ret tt) (Raise KeyboardInterrupt)
    (at_10h 0 second) Written.

(** The application as [__init__] leaves it, with empty stores. *)
Definition fresh : t :=
  init (DataManager.mk [] []) (RulesEngine.mk ∅ 0 RulesEngine.DEFAULT_RULES)
    (AIAgent.init None) (at_10h 0 0).

(** The application after a first tick that saw ["Code"]. *)
Definition coding : t := (body fresh (calm (Str "Code") "Work" 0)).1.2.

Definition github : app_data :=
  Dict "Google Chrome" "GitHub" (Some "https://github.com").

(** A calm tick at the end of which Ctrl-C is pressed, during
    [time.sleep(1)]. *)
Definition ctrl_c_asleep (d : app_data) (category : string) (second : Z)
  : world :=
  mk_world (Ret (Some d)) (Ret category) Written
    (at_10h 0 second) Written (at_10h 0 second) (at_10h 0 second)
    RulesEngine.Missing (fun _ => inject_Z second)
    (Ret "Time to stretch.") (Ret tt) (Raise KeyboardInterrupt) (Ret tt)
    (at_10h 0 second) Written.

(** A calm tick in which the write of the session log fails once the
    file has been opened: there is no room left for the dump. *)
Definition disk_full (d : app_data) (category : string) (second : Z)
  : world :=
  mk_world (Ret (Some d)) (Ret category) Written
    (at_10h 0 second) (Fails OSError Truncated)
    (at_10h 0 second) (at_10h 0 second)
    RulesEngine.Missing (fun _ => inject_Z second)
    (Ret "Time to stretch.") (Ret tt) (Ret tt) (Ret tt)
    (at_10h 0 second) Written.

End Examples.

(** * Theorems *)

(** ** Python preliminaries *)

Lemma py_ge_spec a b : py_ge a b = true <-> (b <= a)%Q.
Proof. unfold py_ge. apply Qle_bool_iff. Qed.

Lemma py_gt_spec a b : py_gt a b = true <-> (b < a)%Q.
Proof.
  unfold py_gt. rewrite negb_true_iff. split.
  - intros H. apply Qnot_le_lt. intros Hle.
    apply Qle_bool_iff in Hle. congruence.
  - intros H. destruct (Qle_bool a b) eqn:E; [|reflexivity].
    apply Qle_bool_iff in E. exfalso. exact (Qlt_not_le _ _ H E).
Qed.

Lemma py_gt_false a b : py_gt a b = false <-> ~ (b < a)%Q.
Proof.
  rewrite <- py_gt_spec. destruct (py_gt a b); split; congruence.
Qed.

(** [int] agrees with the floor on non-negative numbers. *)
Lemma py_int_floor (x : Q) : (0 <= x)%Q -> py_int x = Qfloor x.
Proof.
  destruct x as [n d]. unfold py_int, Qfloor, Qle. simpl.
  intros H. apply Z.quot_div_nonneg; lia.
Qed.

(** ** The rule engine *)

Section Scan.

Import RulesEngine Spec.

Variable time_time : nat -> Q.
Variable category : string.
Variable duration : Q.

Lemma matchesb_spec r :
  matchesb category duration r = true <-> matches category duration r.
Proof.
  unfold matchesb, matches. rewrite andb_true_iff, bool_decide_eq_true.
  rewrite py_ge_spec. reflexivity.
Qed.

Lemma none_fires_nil reads last :
  none_fires time_time reads category duration last [].
Proof. intros p r q H. destruct p; discriminate. Qed.

Lemma none_fires_skip reads last r rs :
  ~ matches category duration r ->
  none_fires time_time reads category duration last rs ->
  none_fires time_time reads category duration last (r :: rs).
Proof.
  intros Hr H p r' q E Hm.
  destruct p as [|r0 p]; simpl in E; injection E as -> ->.
  - contradiction.
  - unfold reads_before. simpl.
    destruct (matchesb category duration r0) eqn:Eb.
    + apply matchesb_spec in Eb. contradiction.
    + apply (H p r' q eq_refl Hm).
Qed.

Lemma none_fires_debounced reads last r rs :
  matches category duration r ->
  ~ allowed (time_time reads) last r ->
  none_fires time_time (S reads) category duration last rs ->
  none_fires time_time reads category duration last (r :: rs).
Proof.
  intros Hr Hna H p r' q E Hm.
  destruct p as [|r0 p]; simpl in E; injection E as -> ->.
  - unfold reads_before. simpl. rewrite Nat.add_0_r. exact Hna.
  - unfold reads_before. simpl.
    apply matchesb_spec in Hr. rewrite Hr. simpl.
    rewrite Nat.add_succ_r. apply (H p r' q eq_refl Hm).
Qed.

(** What the loop returns, rule by rule. *)
Lemma scan_spec rs : forall reads last,
  match scan time_time reads category duration last rs with
  | (Some (a, c, n), last') =>
      exists p thr q,
        rs = (p ++ (category, thr, a) :: q)%list
        /\ c = category /\ n = py_int duration /\ (thr <= duration)%Q
        /\ none_fires time_time reads category duration last p
        /\ let k := (reads + reads_before category duration p)%nat in
           (last !! a = None /\ last' = <[a := time_time k]> last)
           \/ (exists t, last !! a = Some t
                 /\ (thr < time_time k - t)%Q
                 /\ last' = <[a := time_time (S k)]> last)
  | (None, last') =>
      last' = last
      /\ none_fires time_time reads category duration last rs
  end.
Proof.
  induction rs as [|[[rc rd] a] rs IH]; intros reads last.
  - simpl. split; [reflexivity | apply none_fires_nil].
  - simpl.
    destruct (bool_decide (rc = category) && py_ge duration rd) eqn:Em.
    + assert (Hm : matches category duration (rc, rd, a))
        by (apply matchesb_spec; exact Em).
      destruct Hm as [Hc Hd]. simpl in Hc, Hd. subst rc.
      destruct (last !! a) as [fired|] eqn:El.
      * destruct (py_gt (time_time reads - fired) rd) eqn:Eg.
        -- exists [], rd, rs. simpl. rewrite Nat.add_0_r.
           repeat split; try assumption; [apply none_fires_nil|].
           right. exists fired. apply py_gt_spec in Eg. auto.
        -- specialize (IH (S reads) last).
           assert (Hna : ~ allowed (time_time reads) last (category, rd, a)).
           { intros [Hn | (t & Ht & Hlt)]; simpl in *.
             - congruence.
             - assert (t = fired) by congruence. subst t.
               apply py_gt_false in Eg. contradiction. }
           assert (Hm : matches category duration (category, rd, a))
             by (split; simpl; auto).
           destruct (scan time_time (S reads) category duration last rs)
             as [[[[a' c'] n']|] last'].
           ++ destruct IH as (p & thr & q & -> & -> & -> & Hthr & Hnf & Hk).
              exists ((category, rd, a) :: p), thr, q.
              repeat split; try assumption.
              ** apply none_fires_debounced; assumption.
              ** unfold reads_before in *. simpl.
                 apply matchesb_spec in Hm. rewrite Hm. simpl.
                 rewrite Nat.add_succ_r. exact Hk.
           ++ destruct IH as [-> Hnf]. split; [reflexivity|].
              apply none_fires_debounced; assumption.
      * exists [], rd, rs. simpl. rewrite Nat.add_0_r.
        repeat split; try assumption; [apply none_fires_nil|].
        left. auto.
    + assert (Hnm : ~ matches category duration (rc, rd, a)).
      { intros H. apply matchesb_spec in H. unfold matchesb in H.
        simpl in H. congruence. }
      specialize (IH reads last).
      destruct (scan time_time reads category duration last rs)
        as [[[[a' c'] n']|] last'].
      * destruct IH as (p & thr & q & -> & -> & -> & Hthr & Hnf & Hk).
        exists ((rc, rd, a) :: p), thr, q.
        repeat split; try assumption.
        -- apply none_fires_skip; assumption.
        -- unfold reads_before in *. simpl.
           destruct (matchesb category duration (rc, rd, a)) eqn:Eb.
           ++ apply matchesb_spec in Eb. contradiction.
           ++ exact Hk.
      * destruct IH as [-> Hnf]. split; [reflexivity|].
        apply none_fires_skip; assumption.
Qed.

End Scan.

Section RulesEngineFacts.

Import RulesEngine Spec.

(** [load_rules] leaves the debounce state and the rule list of the
    object alone. *)
Lemma load_rules_state self f r self1 ev :
  load_rules self f = (r, self1, ev) ->
  last_nudged_time self1 = last_nudged_time self
  /\ rules self1 = rules self.
Proof.
  destruct f as [|m c]; simpl.
  - intros [= <- <- <-]. auto.
  - destruct (py_gt m (last_modified_time self));
      destruct c; intros [= <- <- <-]; auto.
Qed.

(** Every call of [load_rules] reads the file. *)
Lemma load_rules_reads self f :
  In ReadConfig (load_rules self f).2.
Proof.
  destruct f as [|m c]; simpl; [auto|].
  destruct (py_gt m (last_modified_time self)); destruct c; simpl; auto.
Qed.

(** What [load_rules] returns depends on the content of the file only. *)
Lemma load_rules_result self f :
  (load_rules self f).1.1 =
  match f with
  | Present _ (RulesJSON rs) => Ret rs
  | Present _ (Raises e) => Raise e
  | Present _ InvalidJSON | Present _ Removed | Missing => Ret DEFAULT_RULES
  end.
Proof.
  destruct f as [|m c]; simpl; [reflexivity|].
  destruct (py_gt m (last_modified_time self)); destruct c; reflexivity.
Qed.

(** The reload message is printed exactly when the file is there and its
    modification time is later than the one remembered. *)
Lemma load_rules_modified self f :
  In (Print RulesFileModified) (load_rules self f).2 <->
  exists m c, f = Present m c /\ (last_modified_time self < m)%Q.
Proof.
  destruct f as [|m c]; simpl.
  - split.
    + intros [H|[H|[]]]; discriminate.
    + intros (m & c & H & _). discriminate.
  - destruct (py_gt m (last_modified_time self)) eqn:Eg.
    + apply py_gt_spec in Eg. split; [intros _; eauto|].
      intros _. destruct c; simpl; auto.
    + apply py_gt_false in Eg. split.
      * destruct c; simpl; intros H;
          repeat (destruct H as [H|H]; try discriminate); destruct H.
      * intros (m' & c' & [= <- <-] & Hlt). contradiction.
Qed.

Lemma evaluate_unfold self f time_time category duration rs self1 ev :
  load_rules self f = (Ret rs, self1, ev) ->
  evaluate_current_session self f time_time category duration =
  (Ret (scan time_time 0 category duration (last_nudged_time self) rs).1,
   mk (scan time_time 0 category duration (last_nudged_time self) rs).2
      (last_modified_time self1) rs,
   ev).
Proof.
  intros H. unfold evaluate_current_session. rewrite H.
  destruct (load_rules_state _ _ _ _ _ H) as [-> _].
  destruct (scan time_time 0 category duration (last_nudged_time self) rs).
  reflexivity.
Qed.

(** C4 (counterexample).  A rule with a negative threshold fires on a
    negative duration, and the third component returned is 0, the
    duration truncated toward zero, not its floor, which is -1. *)
Lemma C4_truncates_negative_duration :
  (evaluate_current_session (mk ∅ 0 [])
     (Present 1 (RulesJSON [("Work", (-1)%Q, "a")]))
     (fun _ => 100%Q) "Work" (-1 # 2)).1.1
  = Ret (Some ("a", "Work", 0%Z))
  /\ Qfloor (-1 # 2) = (-1)%Z.
Proof. split; reflexivity. Qed.

(** C4 (amended).  When the rules load as [rs], [evaluate_current_session]
    scans [rs] in list order.  It returns [(action, category, n)] exactly
    for the first rule whose category is the given one, whose threshold
    the duration has reached, and whose action has never fired or fired
    more than the rule's own threshold before the clock reading taken for
    the test; [n] is the duration truncated toward zero, which is its
    floor when the duration is not negative; the time of the next clock
    reading is recorded for the action and the rules after it are not
    looked at.  It returns [None], with the debounce state unchanged,
    when no rule fires. *)
Theorem C4_evaluate_current_session
    self f time_time category duration rs self1 ev :
  load_rules self f = (Ret rs, self1, ev) ->
  exists r last',
    evaluate_current_session self f time_time category duration
    = (Ret r, mk last' (last_modified_time self1) rs, ev)
    /\ match r with
       | Some (a, c, n) =>
           exists p thr q,
             rs = (p ++ (category, thr, a) :: q)%list
             /\ c = category
             /\ n = py_int duration
             /\ ((0 <= duration)%Q -> n = Qfloor duration)
             /\ (thr <= duration)%Q
             /\ none_fires time_time 0 category duration
                  (last_nudged_time self) p
             /\ let k := reads_before category duration p in
                (last_nudged_time self !! a = None
                 /\ last' = <[a := time_time k]> (last_nudged_time self))
                \/ (exists t, last_nudged_time self !! a = Some t
                      /\ (thr < time_time k - t)%Q
                      /\ last' = <[a := time_time (S k)]>
                                   (last_nudged_time self))
       | None =>
           last' = last_nudged_time self
           /\ none_fires time_time 0 category duration
                (last_nudged_time self) rs
       end.
Proof.
  intros H. rewrite (evaluate_unfold _ _ time_time category duration _ _ _ H).
  pose proof (scan_spec time_time category duration rs 0
                (last_nudged_time self)) as S.
  destruct (scan time_time 0 category duration (last_nudged_time self) rs)
    as [[[[a c] n]|] last'] eqn:E; simpl.
  - exists (Some (a, c, n)), last'. split; [reflexivity|].
    destruct S as (p & thr & q & Hrs & Hc & Hn & Hthr & Hnf & Hk).
    exists p, thr, q. repeat split; try assumption.
    intros Hpos. rewrite Hn. apply py_int_floor. exact Hpos.
  - exists None, last'. split; [reflexivity | exact S].
Qed.

(** C4 at 31 seconds of Work under the default rules. *)
Lemma C4_evaluate_current_session_witness :
  exists r last',
    evaluate_current_session (mk ∅ 0 []) Missing (fun _ => 100%Q) "Work" 31
    = (Ret r, mk last' 0 DEFAULT_RULES, [ReadConfig; Print RulesFileNotFound])
    /\ match r with
       | Some (a, c, n) =>
           exists p thr q,
             DEFAULT_RULES = (p ++ ("Work", thr, a) :: q)%list
             /\ c = "Work"
             /\ n = py_int 31
             /\ ((0 <= 31)%Q -> n = Qfloor 31)
             /\ (thr <= 31)%Q
             /\ none_fires (fun _ => 100%Q) 0 "Work" 31 ∅ p
             /\ let k := reads_before "Work" 31 p in
                ((∅ : gmap string Q) !! a = None
                 /\ last' = <[a := 100%Q]> ∅)
                \/ (exists t, (∅ : gmap string Q) !! a = Some t
                      /\ (thr < 100 - t)%Q
                      /\ last' = <[a := 100%Q]> ∅)
       | None =>
           last' = ∅ /\ none_fires (fun _ => 100%Q) 0 "Work" 31 ∅ DEFAULT_RULES
       end.
Proof.
  apply (C4_evaluate_current_session (mk ∅ 0 []) Missing (fun _ => 100%Q)
           "Work" 31 DEFAULT_RULES (mk ∅ 0 [])
           [ReadConfig; Print RulesFileNotFound]).
  reflexivity.
Defined.

End RulesEngineFacts.

Section Reload.

Import RulesEngine Spec.

(** C6 (counterexample).  An engine starts from a file holding one rule
    ("Work", 5 s); the file then disappears.  The next evaluation does not
    use the rule that was loaded: it uses the built-in defaults, under
    which 10 s of Work fire nothing, while the loaded rule would have
    fired. *)
Lemma C6_missing_file_forgets_loaded_rules :
  (init (Present 1 (RulesJSON [("Work", 5%Q, "stand_up")]))).1
  = Ret (mk ∅ 1 [("Work", 5%Q, "stand_up")])
  /\ evaluate_current_session (mk ∅ 1 [("Work", 5%Q, "stand_up")]) Missing
       (fun _ => 100%Q) "Work" 10
     = (Ret None, mk ∅ 1 DEFAULT_RULES, [ReadConfig; Print RulesFileNotFound])
  /\ (scan (fun _ => 100%Q) 0 "Work" 10 ∅ [("Work", 5%Q, "stand_up")]).1
     = Some ("stand_up", "Work", 10%Z).
Proof. repeat split; reflexivity. Qed.

(** C6 (amended).  When the configuration file is missing (at the read
    of its time or when it is opened) or its text does not parse as JSON
    ([json.load] raises [JSONDecodeError]), [evaluate_current_session]
    does not raise: it prints the warning of the [except] clause that
    caught the failure and evaluates the built-in default rules, whatever
    rule set the engine had loaded before, and the defaults become the
    engine's rule set. *)
Theorem C6_load_failure_uses_defaults self f time_time category duration :
  f = Missing \/ (exists m, f = Present m Removed)
  \/ (exists m, f = Present m InvalidJSON) ->
  exists self' ev,
    evaluate_current_session self f time_time category duration
    = (Ret (scan time_time 0 category duration (last_nudged_time self)
              DEFAULT_RULES).1,
       self', ev)
    /\ rules self' = DEFAULT_RULES
    /\ last_nudged_time self'
       = (scan time_time 0 category duration (last_nudged_time self)
            DEFAULT_RULES).2
    /\ match f with
       | Present _ InvalidJSON => In (Print RulesFileInvalidJSON) ev
       | _ => In (Print RulesFileNotFound) ev
       end.
Proof.
  intros Hf.
  destruct (load_rules self f) as [[r self1] ev] eqn:E.
  assert (Hr : r = Ret DEFAULT_RULES).
  { pose proof (load_rules_result self f) as R. rewrite E in R. simpl in R.
    destruct Hf as [-> | [[m ->] | [m ->]]]; exact R. }
  subst r.
  rewrite (evaluate_unfold _ _ time_time category duration _ _ _ E).
  eexists _, ev. repeat split.
  assert (Hev : ev = (load_rules self f).2) by (rewrite E; reflexivity).
  destruct Hf as [-> | [[m ->] | [m ->]]]; simpl in Hev; subst ev.
  - simpl. auto.
  - destruct (py_gt m (last_modified_time self)); simpl; auto.
  - destruct (py_gt m (last_modified_time self)); simpl; auto.
Qed.

(** C6 at a file that stopped being valid JSON after a rule was loaded. *)
Lemma C6_load_failure_uses_defaults_witness :
  exists self' ev,
    evaluate_current_session (mk ∅ 1 [("Work", 5%Q, "stand_up")])
      (Present 2 InvalidJSON) (fun _ => 100%Q) "Work" 31
    = (Ret (scan (fun _ => 100%Q) 0 "Work" 31 ∅ DEFAULT_RULES).1, self', ev)
    /\ rules self' = DEFAULT_RULES
    /\ last_nudged_time self'
       = (scan (fun _ => 100%Q) 0 "Work" 31 ∅ DEFAULT_RULES).2
    /\ In (Print RulesFileInvalidJSON) ev.
Proof.
  apply (C6_load_failure_uses_defaults (mk ∅ 1 [("Work", 5%Q, "stand_up")])
           (Present 2 InvalidJSON) (fun _ => 100%Q) "Work" 31).
  right. right. exists 2%Q. reflexivity.
Defined.

(** C10 (counterexample).  The configuration file holds bytes that are
    not text: reading it raises [UnicodeDecodeError], which [load_rules]
    does not catch.  The evaluation of 31 seconds of Work raises that
    exception; it does not use the built-in defaults, under which the
    session would have fired a rule. *)
Lemma C10_undecodable_file_raises :
  (evaluate_current_session (mk ∅ 0 DEFAULT_RULES)
     (Present 1 (Raises UnicodeDecodeError)) (fun _ => 100%Q) "Work" 31).1.1
  = Raise UnicodeDecodeError
  /\ (scan (fun _ => 100%Q) 0 "Work" 31 ∅ DEFAULT_RULES).1
     = Some ("short_work_session", "Work", 31%Z).
Proof. split; reflexivity. Qed.

(** C10 (amended).  Every call of [evaluate_current_session] reads the
    configuration file and evaluates what the file holds now: its rules
    when they load, the built-in defaults when the file is missing or
    [json.load] raises [JSONDecodeError]; when reading the file raises
    anything else the call raises it and the engine keeps its rules and
    its debounce state.  Neither the file's modification time nor the
    time remembered by the engine nor the rules the engine held before
    enter the result: the comparison of the two times decides only
    whether the reload message is printed (and which time is
    remembered). *)
Theorem C10_every_evaluation_rereads_the_file
    self f time_time category duration :
  let '(r, self', ev) :=
    evaluate_current_session self f time_time category duration in
  In ReadConfig ev
  /\ (In (Print RulesFileModified) ev <->
      exists m c, f = Present m c /\ (last_modified_time self < m)%Q)
  /\ match f with
     | Present _ (RulesJSON rs) =>
         r = Ret (scan time_time 0 category duration
                    (last_nudged_time self) rs).1
         /\ rules self' = rs
         /\ last_nudged_time self'
            = (scan time_time 0 category duration
                 (last_nudged_time self) rs).2
     | Present _ InvalidJSON | Present _ Removed | Missing =>
         r = Ret (scan time_time 0 category duration
                    (last_nudged_time self) DEFAULT_RULES).1
         /\ rules self' = DEFAULT_RULES
         /\ last_nudged_time self'
            = (scan time_time 0 category duration
                 (last_nudged_time self) DEFAULT_RULES).2
     | Present _ (Raises e) =>
         r = Raise e
         /\ rules self' = rules self
         /\ last_nudged_time self' = last_nudged_time self
     end.
Proof.
  destruct (load_rules self f) as [[r0 self1] ev0] eqn:E.
  pose proof (load_rules_reads self f) as Hread.
  pose proof (load_rules_modified self f) as Hmod.
  pose proof (load_rules_result self f) as Hres.
  pose proof (load_rules_state _ _ _ _ _ E) as [Hlast Hrules].
  rewrite E in Hread, Hmod, Hres. simpl in Hread, Hmod, Hres.
  destruct r0 as [rs|e].
  - rewrite (evaluate_unfold _ _ time_time category duration _ _ _ E).
    split; [exact Hread|]. split; [exact Hmod|].
    destruct f as [|m [| |e'|rs']]; simpl; try discriminate;
      injection Hres as ->; auto.
  - unfold evaluate_current_session. rewrite E.
    split; [exact Hread|]. split; [exact Hmod|].
    destruct f as [|m [| |e'|rs']]; try discriminate.
    injection Hres as ->. auto.
Qed.

End Reload.

(** ** The classification cache *)

Section Cache.

Import AIAgent Spec.

Lemma valid_categories_spec c :
  bool_decide (c ∈ valid_categories) = true <-> closed_category c.
Proof.
  rewrite bool_decide_eq_true. unfold valid_categories, closed_category.
  rewrite !elem_of_cons, elem_of_nil. tauto.
Qed.

(** A key in the cache is answered from the cache. *)
Lemma categorize_app_hit self llm disk d v :
  category_cache self !! cache_key d = Some v ->
  categorize_app self llm disk d = (Ret v, self, []).
Proof. intros H. unfold categorize_app. rewrite H. reflexivity. Qed.

(** The cache after a miss, whatever the write to disk does: the entry is
    made before the write. *)
Lemma categorize_app_miss self llm disk d :
  category_cache self !! cache_key d = None ->
  forall r self' ev, categorize_app self llm disk d = (r, self', ev) ->
  (exists e, llm = Raise e /\ is_Exception e = false
             /\ r = Raise e /\ self' = self)
  \/ (exists c, closed_category c
        /\ category_cache self' = <[cache_key d := c]> (category_cache self)
        /\ (forall x, llm = Ret x -> closed_category x -> c = x)
        /\ (forall x, llm = Ret x -> ~ closed_category x -> c = "Other")
        /\ (forall e, llm = Raise e -> c = "Other")
        /\ (r = Ret c \/ exists e, r = Raise e /\ raised disk = Raise e)
        /\ (disk = Written -> r = Ret c)).
Proof.
  intros Hmiss r self' ev. unfold categorize_app. rewrite Hmiss.
  assert (Hother : closed_category "Other")
    by (unfold closed_category; tauto).
  destruct llm as [x|e].
  - destruct (bool_decide (x ∈ valid_categories)) eqn:Ev.
    + apply valid_categories_spec in Ev.
      destruct disk as [|e' []]; simpl; intros [= <- <- <-]; right;
        exists x; repeat split; auto; try congruence; eauto;
        intros y [= <-] Hn; contradiction.
    + assert (Hn : ~ closed_category x).
      { intros H. apply valid_categories_spec in H. congruence. }
      destruct disk as [|e' []]; simpl; intros [= <- <- <-]; right;
        exists "Other"; repeat split; auto; try congruence; eauto;
        intros y [= <-] Hy; contradiction.
  - destruct (is_Exception e) eqn:Ee.
    + destruct disk as [|e' []]; simpl; intros [= <- <- <-]; right;
        exists "Other"; repeat split; auto; try congruence; eauto.
    + intros [= <- <- <-]. left. exists e. auto.
Qed.

(** Entries are never overwritten or removed. *)
Lemma categorize_app_keeps self llm disk d k v :
  category_cache self !! k = Some v ->
  category_cache (categorize_app self llm disk d).1.2 !! k = Some v.
Proof.
  intros Hk.
  destruct (category_cache self !! cache_key d) as [v'|] eqn:E.
  - rewrite (categorize_app_hit _ llm disk _ _ E). exact Hk.
  - destruct (categorize_app self llm disk d) as [[r self'] ev] eqn:Ec.
    destruct (categorize_app_miss _ _ _ _ E _ _ _ Ec)
      as [(e & _ & _ & _ & ->) | (c & _ & Hc & _)]; simpl.
    + exact Hk.
    + rewrite Hc. rewrite lookup_insert_ne; [exact Hk|]. congruence.
Qed.

Lemma after_calls_keeps calls : forall self k v,
  category_cache self !! k = Some v ->
  category_cache (after_calls self calls) !! k = Some v.
Proof.
  induction calls as [|[[llm disk] d] calls IH]; intros self k v Hk.
  - exact Hk.
  - simpl. apply IH. apply categorize_app_keeps. exact Hk.
Qed.

(** C2.  A key that is in the cache is answered with the cached value,
    the agent is unchanged and nothing happens outside (no query to the
    model, no write to disk).  When the key is not in the cache and the
    query to the model fails, ["Other"] is entered in the cache under the
    key (and returned when the write to disk succeeds); after any further
    calls of [categorize_app], a call for the same key returns ["Other"],
    changes nothing and does nothing outside. *)
Theorem C2_cache_hit_and_idempotent_fallback self llm disk d :
  (forall v, category_cache self !! cache_key d = Some v ->
     categorize_app self llm disk d = (Ret v, self, []))
  /\ (forall e, category_cache self !! cache_key d = None ->
        llm = Raise e -> is_Exception e = true ->
        let self1 := (categorize_app self llm disk d).1.2 in
        category_cache self1 !! cache_key d = Some "Other"
        /\ (disk = Written ->
            (categorize_app self llm disk d).1.1 = Ret "Other")
        /\ forall calls llm' disk',
             let self2 := after_calls self1 calls in
             categorize_app self2 llm' disk' d = (Ret "Other", self2, [])).
Proof.
  split.
  - intros v. apply categorize_app_hit.
  - intros e Hmiss Hllm He self1. subst self1.
    destruct (categorize_app self llm disk d) as [[r self'] ev] eqn:Ec.
    simpl.
    destruct (categorize_app_miss _ _ _ _ Hmiss _ _ _ Ec)
      as [(e' & Hl & He' & _) | (c & _ & Hc & _ & _ & Hf & _ & Hd)].
    + congruence.
    + rewrite (Hf e Hllm) in *.
      assert (Hin : category_cache self' !! cache_key d = Some "Other")
        by (rewrite Hc; apply lookup_insert_eq).
      split; [exact Hin|]. split; [exact Hd|].
      intros calls llm' disk'.
      apply categorize_app_hit. apply after_calls_keeps. exact Hin.
Qed.

(** C2 at an agent that knows "Code", and at a fresh agent whose model
    is unreachable. *)
Lemma C2_cache_hit_and_idempotent_fallback_witness :
  (categorize_app (init (Some {["Code" := "Work"]})) (Raise OSError)
     (Fails OSError Truncated) (Str "Code")
   = (Ret "Work", init (Some {["Code" := "Work"]}), []))
  /\ (let self1 :=
        (categorize_app (init None) (Raise OSError) Written
           (Str "Code")).1.2 in
      category_cache self1 !! "Code" = Some "Other"
      /\ (Written = Written ->
          (categorize_app (init None) (Raise OSError) Written
             (Str "Code")).1.1 = Ret "Other")
      /\ forall calls llm' disk',
           let self2 := after_calls self1 calls in
           categorize_app self2 llm' disk' (Str "Code")
           = (Ret "Other", self2, [])).
Proof.
  split.
  - apply (proj1 (C2_cache_hit_and_idempotent_fallback
                    (init (Some {["Code" := "Work"]})) (Raise OSError)
                    (Fails OSError Truncated) (Str "Code")) "Work").
    reflexivity.
  - apply (proj2 (C2_cache_hit_and_idempotent_fallback
                    (init None) (Raise OSError) Written (Str "Code"))
             OSError); reflexivity.
Defined.

End Cache.

Section Closure.

Import AIAgent Spec.

(** C3 (counterexample).  The cache file holds the value "work" for the
    key "Code"; [categorize_app] returns it as it is, and "work" is not
    one of the six categories. *)
Lemma C3_cached_value_returned_unvalidated :
  categorize_app (init (Some {["Code" := "work"]})) (Ret "Work") Written
    (Str "Code")
  = (Ret "work", init (Some {["Code" := "work"]}), [])
  /\ ~ closed_category "work".
Proof.
  split; [reflexivity|].
  unfold closed_category. intros H.
  repeat (destruct H as [H|H]; [discriminate|]). discriminate.
Qed.

(** C3 (amended).  A value [categorize_app] returns for a key that is not
    in the cache is one of the six categories and is what it enters in the
    cache: a reply of the model outside the set becomes ["Other"].  A
    value returned for a key in the cache is the cached value, unchecked.
    So the returned value is one of the six categories whenever every
    value in the cache is, and the cache keeps that property. *)
Theorem C3_fresh_category_closed self llm disk d c self' ev :
  categorize_app self llm disk d = (Ret c, self', ev) ->
  (category_cache self !! cache_key d = None ->
     closed_category c
     /\ category_cache self' !! cache_key d = Some c
     /\ (forall x, llm = Ret x -> ~ closed_category x -> c = "Other"))
  /\ (forall v, category_cache self !! cache_key d = Some v ->
        c = v /\ self' = self)
  /\ ((forall k v, category_cache self !! k = Some v -> closed_category v) ->
      closed_category c
      /\ forall k v, category_cache self' !! k = Some v -> closed_category v).
Proof.
  intros H.
  destruct (category_cache self !! cache_key d) as [v0|] eqn:E.
  - rewrite (categorize_app_hit _ llm disk _ _ E) in H.
    injection H as <- <- <-.
    split; [discriminate|]. split.
    + intros v [= <-]. auto.
    + intros Hall. split; [exact (Hall _ _ E) | exact Hall].
  - destruct (categorize_app_miss _ _ _ _ E _ _ _ H)
      as [(e & _ & _ & Hr & _) | (c0 & Hcl & Hc & _ & Hout & _ & Hr & _)].
    + discriminate.
    + assert (c0 = c) as ->.
      { destruct Hr as [Hr | (e & Hr & _)]; congruence. }
      split; [|split].
      * intros _. split; [exact Hcl|]. split; [|exact Hout].
        rewrite Hc. apply lookup_insert_eq.
      * discriminate.
      * intros Hall. split; [exact Hcl|].
        intros k v. rewrite Hc.
        destruct (decide (cache_key d = k)) as [<-|Hne].
        -- rewrite lookup_insert_eq. intros [= <-]. exact Hcl.
        -- rewrite lookup_insert_ne by exact Hne. apply Hall.
Qed.

(** C3 at the reply "WORK " for a key that is not in the cache. *)
Lemma C3_fresh_category_closed_witness :
  let self := init None in
  let self' := mk (<["Code" := "Other"]> ∅) (<["Code" := "Other"]> ∅) in
  (category_cache self !! cache_key (Str "Code") = None ->
     closed_category "Other"
     /\ category_cache self' !! cache_key (Str "Code") = Some "Other"
     /\ (forall x, Ret "WORK " = Ret x -> ~ closed_category x ->
         "Other" = "Other"))
  /\ (forall v, category_cache self !! cache_key (Str "Code") = Some v ->
        "Other" = v /\ self' = self)
  /\ ((forall k v, category_cache self !! k = Some v -> closed_category v) ->
      closed_category "Other"
      /\ forall k v, category_cache self' !! k = Some v -> closed_category v).
Proof.
  apply (C3_fresh_category_closed (init None) (Ret "WORK ") Written
           (Str "Code") "Other"
           (mk (<["Code" := "Other"]> ∅) (<["Code" := "Other"]> ∅))
           [QueryLLM (categorize_prompt (Str "Code")); WriteCacheFile]).
  reflexivity.
Defined.

End Closure.

(** ** The session log *)

Section SessionLog.

Import datetime DataManager Spec.

Lemma length_append (a b : string) :
  String.length (a ++ b) = (String.length a + String.length b)%nat.
Proof.
  induction a as [|c a IH]; [reflexivity|].
  cbn [String.length]. change (String c a ++ b) with (String c (a ++ b)).
  cbn [String.length]. rewrite IH. reflexivity.
Qed.

(** Normalising a [timedelta] keeps the time it stands for. *)
Lemma new_timedelta_total d s us :
  ((days (new_timedelta d s us) * 86400 + seconds (new_timedelta d s us))
   * 1000000 + microseconds (new_timedelta d s us)
   = (d * 86400 + s) * 1000000 + us)%Z.
Proof.
  unfold new_timedelta. simpl.
  pose proof (Z.div_mod us 1000000 ltac:(lia)) as Hu.
  pose proof (Z.div_mod (s + us / 1000000) 86400 ltac:(lia)) as Hs.
  lia.
Qed.

Lemma new_timedelta_normal d s us :
  (0 <= seconds (new_timedelta d s us) < 86400
   /\ 0 <= microseconds (new_timedelta d s us) < 1000000)%Z.
Proof.
  unfold new_timedelta. simpl.
  split; apply Z.mod_pos_bound; lia.
Qed.

(** The seconds of [a - b] are the microseconds between the two instants
    over a million. *)
Lemma total_seconds_sub a b :
  total_seconds (sub a b)
  = Qmake (to_microseconds a - to_microseconds b) 1000000.
Proof.
  unfold total_seconds, sub. rewrite new_timedelta_total.
  unfold to_microseconds. f_equal. lia.
Qed.

(** *** The calendar arithmetic of [toordinal] against the count of days *)

Lemma is_leap_leap_year y : _is_leap y = leap_year y.
Proof.
  unfold _is_leap, leap_year.
  destruct (Z.eqb_spec (y mod 4) 0) as [H4|H4];
    destruct (Z.eqb_spec (y mod 100) 0) as [H100|H100];
    destruct (Z.eqb_spec (y mod 400) 0) as [H400|H400];
    try reflexivity; exfalso;
    revert H4 H100 H400; Z.div_mod_to_equations; lia.
Qed.

(** The closed formula of [_days_before_year] counts the days of the
    years before [y] one year after the other. *)
Lemma days_before_year_count n :
  _days_before_year (Z.of_nat n + 1) = days_in_years n.
Proof.
  induction n as [|n IH]; [reflexivity|].
  cbn [days_in_years]. rewrite <- IH.
  unfold _days_before_year, year_length, leap_year.
  rewrite Nat2Z.inj_succ.
  replace (Z.succ (Z.of_nat n) + 1 - 1)%Z with (Z.of_nat n + 1)%Z by lia.
  replace (Z.of_nat n + 1 - 1)%Z with (Z.of_nat n) by lia.
  replace (Z.succ (Z.of_nat n)) with (Z.of_nat n + 1)%Z by lia.
  generalize (Z.of_nat n) (Nat2Z.is_nonneg n). intros y Hy.
  cbv zeta.
  destruct (Z.eqb_spec ((y + 1) mod 400) 0) as [H400|H400];
    [|destruct (Z.eqb_spec ((y + 1) mod 100) 0) as [H100|H100];
      [|destruct (Z.eqb_spec ((y + 1) mod 4) 0) as [H4|H4]]];
    revert H400; try revert H100; try revert H4;
    Z.div_mod_to_equations; lia.
Qed.

Lemma days_before_year_spec y :
  (1 <= y)%Z -> _days_before_year y = days_in_years (Z.to_nat (y - 1)).
Proof.
  intros Hy. rewrite <- days_before_year_count. f_equal. lia.
Qed.

(** The sum of the lengths of the months before [m] is the entry of the
    table for [m], one more after February of a leap year. *)
Lemma days_before_month_spec y m :
  (1 <= m <= 12)%Z ->
  _days_before_month y m
  = (nth (Z.to_nat (m - 1)) common_year_days_before 0
     + (if leap_year y && (2 <? m) then 1 else 0))%Z.
Proof.
  intros Hm.
  assert (H : (m = 1 \/ m = 2 \/ m = 3 \/ m = 4 \/ m = 5 \/ m = 6 \/ m = 7
               \/ m = 8 \/ m = 9 \/ m = 10 \/ m = 11 \/ m = 12)%Z) by lia.
  rewrite <- is_leap_leap_year.
  repeat (destruct H as [->|H]); try subst m;
    unfold _days_before_month, _days_in_month; simpl;
    destruct (_is_leap y); reflexivity.
Qed.

(** [toordinal] is the number of the day, and the microseconds the model
    of [a - b] works with are those of the instant. *)
Lemma toordinal_day_number d : valid d -> toordinal d = day_number d.
Proof.
  intros (Hy & Hm & _). unfold toordinal, day_number.
  rewrite days_before_year_spec by lia.
  rewrite days_before_month_spec by lia. lia.
Qed.

Lemma to_microseconds_instant d : valid d -> to_microseconds d = instant d.
Proof.
  intros H. unfold to_microseconds, instant.
  rewrite (toordinal_day_number d H). lia.
Qed.

Lemma total_seconds_elapsed a b :
  valid a -> valid b -> total_seconds (sub b a) = elapsed_seconds a b.
Proof.
  intros Ha Hb. rewrite total_seconds_sub. unfold elapsed_seconds.
  rewrite (to_microseconds_instant a Ha), (to_microseconds_instant b Hb).
  reflexivity.
Qed.

(** *** The digits written by [isoformat] *)

Lemma is_digit_digit z : is_digit (digit z) = true.
Proof.
  unfold is_digit, digit.
  pose proof (Z.mod_pos_bound z 10 ltac:(lia)) as Hz.
  rewrite nat_ascii_embedding by lia.
  apply andb_true_iff. split; apply Nat.leb_le; lia.
Qed.

(** [isoformat] writes a date, ["T"], a time of day and, when the
    microseconds are not 0, a fraction of six digits. *)
Lemma isoformat_iso8601 d : iso8601 (isoformat d) = true.
Proof.
  unfold iso8601, isoformat.
  destruct (microsecond d =? 0)%Z;
    cbv [zfill String.append];
    cbn [has_shape Ascii.eqb Bool.eqb];
    rewrite !is_digit_digit; reflexivity.
Qed.

Lemma read_digits_append s c : forall acc,
  read_digits acc (s ++ String c EmptyString)
  = (10 * read_digits acc s + Z.of_nat (nat_of_ascii c) - 48)%Z.
Proof.
  induction s as [|c' s IH]; intros acc; [reflexivity|].
  change (String c' s ++ String c EmptyString)
    with (String c' (s ++ String c EmptyString)).
  cbn [read_digits]. apply IH.
Qed.

Lemma digit_value z : (Z.of_nat (nat_of_ascii (digit z)) - 48 = z mod 10)%Z.
Proof.
  unfold digit.
  pose proof (Z.mod_pos_bound z 10 ltac:(lia)) as Hz.
  rewrite nat_ascii_embedding by lia. lia.
Qed.

(** [zfill] writes [width] digits, and they read back as the number when
    it fits the width. *)
Lemma zfill_length width : forall z, String.length (zfill width z) = width.
Proof.
  induction width as [|w IH]; intros z; [reflexivity|].
  cbn [zfill]. rewrite length_append, IH. simpl. lia.
Qed.

Lemma read_zfill width : forall z,
  (0 <= z < 10 ^ Z.of_nat width)%Z ->
  read_digits 0 (zfill width z) = z.
Proof.
  induction width as [|w IH]; intros z Hz.
  - simpl in *. lia.
  - cbn [zfill]. rewrite read_digits_append.
    rewrite Nat2Z.inj_succ, Z.pow_succ_r in Hz by lia.
    rewrite IH.
    + pose proof (digit_value z) as Hd.
      pose proof (Z.div_mod z 10 ltac:(lia)). lia.
    + split; [apply Z.div_pos; lia|].
      apply Z.div_lt_upper_bound; lia.
Qed.

(** Each field of the string is the field of the [datetime] written with
    its width. *)
Lemma isoformat_fields d :
  read_iso8601 (isoformat d)
  = datetime.mk
      (read_digits 0 (zfill 4 (year d))) (read_digits 0 (zfill 2 (month d)))
      (read_digits 0 (zfill 2 (day d))) (read_digits 0 (zfill 2 (hour d)))
      (read_digits 0 (zfill 2 (minute d)))
      (read_digits 0 (zfill 2 (second d)))
      (if (microsecond d =? 0)%Z then 0%Z
       else read_digits 0 (zfill 6 (microsecond d))).
Proof.
  unfold read_iso8601, read_field, isoformat.
  destruct (microsecond d =? 0)%Z;
    cbv [zfill String.append substring]; reflexivity.
Qed.

(** Reading the string [isoformat] writes gives the [datetime] back. *)
Lemma read_iso8601_isoformat d : valid d -> read_iso8601 (isoformat d) = d.
Proof.
  intros (Hy & Hm & Hd & Hh & Hmi & Hs & Hus).
  rewrite isoformat_fields.
  assert (Hday : (day d <= 31)%Z).
  { revert Hd. unfold _days_in_month.
    destruct (month d =? 2)%Z; [destruct (_is_leap (year d))|];
      [| |destruct ((month d =? 4) || (month d =? 6) || (month d =? 9)
                    || (month d =? 11))%Z]; lia. }
  rewrite !read_zfill by (simpl; lia).
  destruct (Z.eqb_spec (microsecond d) 0) as [E|E].
  - rewrite <- E. destruct d; reflexivity.
  - destruct d; reflexivity.
Qed.

(** C8 (counterexample).  The log file holds one record.  The next
    session is saved while the disk is full: the file is opened, which
    empties it, and the dump fails.  The record of the new session is not
    in the file, and the record the file held is not there either: a
    restart loads an empty log. *)
Lemma C8_write_cut_short_empties_the_file :
  let stored :=
    mk_entry "2025-08-20T09:00:00" "2025-08-20T09:30:00" "Mail"
      (Some "Communication") 1800 in
  let self := init (Some [stored]) in
  let '(r, self', ev) :=
    save_session self (Fails OSError Truncated) "Code" (Some "Work")
      (datetime.mk 2025 8 20 10 0 0 0) (datetime.mk 2025 8 20 10 0 31 0) in
  file self = [stored]
  /\ r = Raise OSError
  /\ file self' = []
  /\ init (Some (file self')) = DataManager.mk [] [].
Proof. repeat split; reflexivity. Qed.

(** C8 (amended).  [save_session] appends exactly one record to the log
    held in memory: the record holds the application name, the category,
    the start and the end time as ISO-8601 strings that read back as the
    two times, and, as [duration_seconds], the seconds from start to end;
    the records already in the list stay where they are, unchanged.  The
    whole file is then written again from the list.  When the write
    returns, the file holds the list.  When it raises, [save_session]
    raises the same exception, the record stays in the list, and the file
    is as it was if it could not be opened, loads as an empty log if the
    dump was cut short, and holds the list if the dump was complete. *)
Theorem C8_save_session_appends
    self disk app_name category start_time end_time :
  valid start_time -> valid end_time ->
  let '(r, self', ev) :=
    save_session self disk app_name category start_time end_time in
  exists entry,
    data self' = (data self ++ [entry])%list
    /\ length (data self') = S (length (data self))
    /\ take (length (data self)) (data self') = data self
    /\ DataManager.app_name entry = app_name
    /\ DataManager.category entry = category
    /\ iso8601 (DataManager.start_time entry) = true
    /\ read_iso8601 (DataManager.start_time entry) = start_time
    /\ iso8601 (DataManager.end_time entry) = true
    /\ read_iso8601 (DataManager.end_time entry) = end_time
    /\ duration_seconds entry = elapsed_seconds start_time end_time
    /\ r = raised disk
    /\ file self'
       = match disk with
         | Written | Fails _ Complete => data self'
         | Fails _ Truncated => []
         | Fails _ Untouched => file self
         end.
Proof.
  intros Hs He. unfold save_session, _save_data.
  destruct disk as [|e []]; simpl;
    (eexists; split; [reflexivity|]);
    (split; [rewrite length_app; simpl; lia|]);
    (split; [apply take_app_length|]);
    cbn [DataManager.app_name DataManager.category DataManager.start_time
         DataManager.end_time duration_seconds];
    (split; [reflexivity|]); (split; [reflexivity|]);
    (split; [apply isoformat_iso8601|]);
    (split; [apply read_iso8601_isoformat; exact Hs|]);
    (split; [apply isoformat_iso8601|]);
    (split; [apply read_iso8601_isoformat; exact He|]);
    (split; [apply total_seconds_elapsed; assumption|]);
    split; reflexivity.
Qed.

(** C8 at a session of 31.5 seconds that ends a fresh log, the write
    returning. *)
Lemma C8_save_session_appends_witness :
  valid (datetime.mk 2025 8 20 10 0 0 0)
  /\ valid (datetime.mk 2025 8 20 10 0 31 500000)
  /\ let '(r, self', ev) :=
       save_session (DataManager.mk [] []) Written "Code" (Some "Work")
         (datetime.mk 2025 8 20 10 0 0 0)
         (datetime.mk 2025 8 20 10 0 31 500000) in
     exists entry,
       data self' = (data (DataManager.mk [] []) ++ [entry])%list
       /\ length (data self') = S (length (data (DataManager.mk [] [])))
       /\ take (length (data (DataManager.mk [] []))) (data self')
          = data (DataManager.mk [] [])
       /\ DataManager.app_name entry = "Code"
       /\ DataManager.category entry = Some "Work"
       /\ iso8601 (DataManager.start_time entry) = true
       /\ read_iso8601 (DataManager.start_time entry)
          = datetime.mk 2025 8 20 10 0 0 0
       /\ iso8601 (DataManager.end_time entry) = true
       /\ read_iso8601 (DataManager.end_time entry)
          = datetime.mk 2025 8 20 10 0 31 500000
       /\ duration_seconds entry
          = elapsed_seconds (datetime.mk 2025 8 20 10 0 0 0)
              (datetime.mk 2025 8 20 10 0 31 500000)
       /\ r = raised Written
       /\ file self' = data self'.
Proof.
  assert (H1 : valid (datetime.mk 2025 8 20 10 0 0 0))
    by (unfold valid, _days_in_month; simpl; lia).
  assert (H2 : valid (datetime.mk 2025 8 20 10 0 31 500000))
    by (unfold valid, _days_in_month; simpl; lia).
  split; [exact H1|]. split; [exact H2|].
  exact (C8_save_session_appends (DataManager.mk [] []) Written "Code"
           (Some "Work") (datetime.mk 2025 8 20 10 0 0 0)
           (datetime.mk 2025 8 20 10 0 31 500000) H1 H2).
Defined.

(** The record of that session, and a session across the leap day of
    2024 and one across the end of 2023, in numbers. *)
Example save_session_record :
  data (save_session (DataManager.mk [] []) Written "Code" (Some "Work")
          (datetime.mk 2025 8 20 10 0 0 0)
          (datetime.mk 2025 8 20 10 0 31 500000)).1.2
  = [mk_entry "2025-08-20T10:00:00" "2025-08-20T10:00:31.500000" "Code"
       (Some "Work") (31500000 # 1000000)].
Proof. reflexivity. Qed.

Example elapsed_across_leap_day :
  elapsed_seconds (datetime.mk 2024 2 28 23 59 59 0)
    (datetime.mk 2024 3 1 0 0 1 0)
  = (86402000000 # 1000000)%Q.
Proof. reflexivity. Qed.

Example elapsed_across_new_year :
  elapsed_seconds (datetime.mk 2023 12 31 23 59 59 0)
    (datetime.mk 2024 1 1 0 0 0 250000)
  = (1250000 # 1000000)%Q.
Proof. reflexivity. Qed.

End SessionLog.

(** ** The main loop *)

Section Events.

Import Spec.

Lemma session_events_app a b :
  session_events (a ++ b) = (session_events a ++ session_events b)%list.
Proof. apply List.filter_app. Qed.

Lemma session_events_none evs :
  Forall (fun ev => is_session_event ev = false) evs ->
  session_events evs = [].
Proof.
  induction 1 as [|ev evs H _ IH]; [reflexivity|].
  unfold session_events in *. simpl. rewrite H. exact IH.
Qed.

Lemma quiet_session_events evs : quiet evs -> session_events evs = [].
Proof.
  intros H. apply session_events_none.
  eapply Forall_impl; [exact H|]. simpl. tauto.
Qed.

Lemma quiet_app a b : quiet a -> quiet b -> quiet (a ++ b).
Proof. apply Forall_app_2. Qed.

Lemma categorize_app_quiet self llm disk d :
  quiet (AIAgent.categorize_app self llm disk d).2.
Proof.
  unfold AIAgent.categorize_app.
  destruct (AIAgent.category_cache self !! AIAgent.cache_key d);
    [constructor|].
  destruct llm as [x|e]; [|destruct (is_Exception e)];
    destruct disk as [|e' []]; simpl; repeat constructor.
Qed.

Lemma generate_nudge_quiet llm category duration :
  quiet (AIAgent.generate_nudge llm category duration).2.
Proof.
  unfold AIAgent.generate_nudge.
  destruct llm as [x|e]; [|destruct (is_Exception e)];
    simpl; repeat constructor.
Qed.

Lemma save_session_quiet self disk name category start_time end_time :
  quiet (DataManager.save_session self disk name category
           start_time end_time).2.
Proof. destruct disk as [|e []]; simpl; repeat constructor. Qed.

Lemma load_rules_no_session_event self f :
  Forall (fun ev => is_session_event ev = false)
    (RulesEngine.load_rules self f).2.
Proof.
  destruct f as [|m c]; simpl; [repeat constructor|].
  destruct (py_gt m (RulesEngine.last_modified_time self)); destruct c;
    simpl; repeat constructor.
Qed.

Lemma sessions_started_app a b :
  sessions_started (a ++ b)
  = (sessions_started a + sessions_started b)%nat.
Proof.
  unfold sessions_started. rewrite List.filter_app, length_app. reflexivity.
Qed.

Lemma sessions_started_none ev :
  session_events ev = [] -> sessions_started ev = 0%nat.
Proof.
  unfold session_events, sessions_started.
  induction ev as [|e ev IH]; [reflexivity|]. simpl.
  destruct e as [m| | | | | |]; simpl; try exact IH.
  destruct m; simpl; try exact IH; discriminate.
Qed.

Lemma sessions_started_session_events ev :
  sessions_started (session_events ev) = sessions_started ev.
Proof.
  unfold sessions_started, session_events.
  induction ev as [|x l IH]; [reflexivity|]. simpl.
  destruct x as [m| | | | | |]; simpl; try exact IH.
  destruct m; simpl; try exact IH; rewrite IH; reflexivity.
Qed.

End Events.

Section Tracker.

Import BilgeApp Spec.

(** The rule engine's events are those of [load_rules]. *)
Lemma evaluate_events re f time_time category duration :
  (evaluate re f time_time category duration).2
  = (RulesEngine.load_rules re f).2.
Proof.
  unfold evaluate, RulesEngine.evaluate_current_session.
  destruct category as [c|];
    destruct (RulesEngine.load_rules re f) as [[[rs|e] re1] ev];
    try reflexivity.
  destruct (RulesEngine.scan time_time 0 c duration
              (RulesEngine.last_nudged_time re1) rs).
  reflexivity.
Qed.

(** Step 3 changes the rule engine and the nudge flag only, and prints
    nothing about sessions. *)
Lemma nudge_frame self w :
  let self' := (nudge self w).1.2 in
  data_manager self' = data_manager self
  /\ ai_agent self' = ai_agent self
  /\ current_session_start_time self' = current_session_start_time self
  /\ current_session_category self' = current_session_category self
  /\ current_session_app_name self' = current_session_app_name self
  /\ last_app_data self' = last_app_data self
  /\ session_events (nudge self w).2 = [].
Proof.
  unfold nudge.
  destruct (nudged_for_session self); simpl; [tauto|].
  pose proof (evaluate_events (rules_engine self) (rules_config w)
                (time_time w) (current_session_category self)
                (datetime.total_seconds
                   (datetime.sub (now_duration w)
                      (current_session_start_time self)))) as Hev.
  pose proof (load_rules_no_session_event (rules_engine self)
                (rules_config w)) as Hq.
  rewrite <- Hev in Hq. clear Hev.
  destruct (evaluate _ _ _ _ _) as [[[[[[rn c] n]|]|e] re] ev];
    simpl in *; try (repeat split; apply session_events_none; exact Hq).
  pose proof (generate_nudge_quiet (query_llm_nudge w) c n) as Hg.
  destruct (AIAgent.generate_nudge (query_llm_nudge w) c n)
    as [[text|e] ev2]; simpl in *.
  - unfold Notifier.send_notification.
    destruct (plyer_notify w) as [[]|e]; [|destruct (is_Exception e)];
      simpl; repeat split;
      rewrite !session_events_app, (session_events_none _ Hq),
        (quiet_session_events _ Hg); reflexivity.
  - repeat split.
    rewrite !session_events_app, (session_events_none _ Hq),
      (quiet_session_events _ Hg). reflexivity.
Qed.

Lemma boundary_spec self d c :
  boundary self d c = true <->
  (Some d <> last_app_data self \/ Some c <> current_session_category self).
Proof.
  unfold boundary. rewrite orb_true_iff, !bool_decide_eq_true. reflexivity.
Qed.

End Tracker.

Section Boundary.

Import BilgeApp Spec.

(** Closing the open session: the record is appended in memory whatever
    the disk does, and nothing else of the object changes. *)
Lemma end_session_spec self end_time disk announce :
  let '(r, self', ev) := end_session self end_time disk announce in
  DataManager.data (data_manager self')
  = (DataManager.data (data_manager self)
     ++ closing_entries self end_time)%list
  /\ rules_engine self' = rules_engine self
  /\ ai_agent self' = ai_agent self
  /\ current_session_start_time self' = current_session_start_time self
  /\ current_session_category self' = current_session_category self
  /\ current_session_app_name self' = current_session_app_name self
  /\ last_app_data self' = last_app_data self
  /\ nudged_for_session self' = nudged_for_session self
  /\ session_events ev = (if announce then closing_events self else [])
  /\ Forall (fun e => is_nudge_event e = false) ev
  /\ (session_open self = false -> r = Ret tt)
  /\ (session_open self = true -> r = raised disk).
Proof.
  unfold end_session, closing_entries, closing_events, session_open.
  destruct (current_session_app_name self) as [name|] eqn:En;
    [destruct (str_truthy name)|].
  - destruct disk as [|e []]; destruct announce; simpl;
      repeat split; auto; try discriminate; repeat constructor.
  - simpl. rewrite app_nil_r. destruct announce;
      repeat split; auto; discriminate.
  - simpl. rewrite app_nil_r. destruct announce;
      repeat split; auto; discriminate.
Qed.

(** What closing the open session leaves in the log file: the whole log
    when the write returns, and what the failed write left otherwise;
    without an open session the file is not touched. *)
Lemma end_session_file self end_time disk announce :
  let self' := (end_session self end_time disk announce).1.2 in
  DataManager.file (data_manager self')
  = if session_open self then
      match disk with
      | Written | Fails _ Complete => DataManager.data (data_manager self')
      | Fails _ Truncated => []
      | Fails _ Untouched => DataManager.file (data_manager self)
      end
    else DataManager.file (data_manager self).
Proof.
  unfold end_session, session_open.
  destruct (current_session_app_name self) as [name|];
    [destruct (str_truthy name)|]; try reflexivity.
  destruct disk as [|e []]; reflexivity.
Qed.

(** C1 (amended).  Take a tick in which the monitor returns a value [d]
    that counts as an activity (it is true in Python's sense: not [None]
    and not the empty string), the categorisation returns [c] and, when a
    session is open, the write of the log returns.  A new session is
    started in this tick exactly when [d] differs from the last identity
    or [c] from the category of the current session.  In that case the
    open session, if there is one, is announced as ended, its record,
    ending at the time read for it, is appended to the log and the log
    file holds the whole log; then the new session has the start time
    read for it, category [c] and the log label of [d], and [d] becomes
    the last identity.  Otherwise the log, its file and the session are
    as before.  For the first observation (no last identity, no session)
    a session is started, nothing is appended to the log and the file is
    not written. *)
Theorem C1_session_boundary self w d c ai ev1 :
  get_active_window w = Ret (Some d) ->
  truthy (Some d) = true ->
  AIAgent.categorize_app (ai_agent self) (query_llm_category w)
    (save_cache w) (Str (_get_app_info d).1) = (Ret c, ai, ev1) ->
  (session_open self = true -> save_data w = Written) ->
  let differs :=
    Some d <> last_app_data self
    \/ Some c <> current_session_category self in
  let '(r, self', ev) := body self w in
  (differs ->
     session_events ev
     = (closing_events self
        ++ [Print (SessionStarted (_get_app_info d).2 c)])%list
     /\ DataManager.data (data_manager self')
        = (DataManager.data (data_manager self)
           ++ closing_entries self (now_end w))%list
     /\ DataManager.file (data_manager self')
        = (if session_open self
           then DataManager.data (data_manager self')
           else DataManager.file (data_manager self))
     /\ current_session_start_time self' = now_start w
     /\ current_session_category self' = Some c
     /\ current_session_app_name self' = Some (_get_app_info d).2
     /\ last_app_data self' = Some d)
  /\ (~ differs ->
      session_events ev = []
      /\ data_manager self' = data_manager self
      /\ current_session_start_time self' = current_session_start_time self
      /\ current_session_category self' = current_session_category self
      /\ current_session_app_name self' = current_session_app_name self
      /\ last_app_data self' = last_app_data self)
  /\ (last_app_data self = None -> current_session_app_name self = None ->
      differs
      /\ data_manager self' = data_manager self).
Proof.
  intros Hobs Htrue Hcat Hdisk differs.
  assert (Hq1 : session_events ev1 = []).
  { pose proof (categorize_app_quiet (ai_agent self) (query_llm_category w)
                  (save_cache w) (Str (_get_app_info d).1)) as Hq.
    rewrite Hcat in Hq. apply quiet_session_events. exact Hq. }
  unfold body. rewrite Hobs, Htrue. unfold track.
  destruct (_get_app_info d) as [subject label] eqn:Einfo.
  simpl in Hcat. rewrite Hcat. unfold switch, sleep.
  pose proof (boundary_spec (with_ai_agent self ai) d c) as Hb.
  simpl in Hb. fold differs in Hb.
  destruct (boundary (with_ai_agent self ai) d c) eqn:Eb.
  - assert (Hdiff : differs) by (apply Hb; reflexivity).
    pose proof (end_session_spec (with_ai_agent self ai) (now_end w)
                  (save_data w) true) as Hend.
    pose proof (end_session_file (with_ai_agent self ai) (now_end w)
                  (save_data w) true) as Hfile.
    destruct (end_session (with_ai_agent self ai) (now_end w)
                (save_data w) true) as [[r1 self1] ev2] eqn:Eend.
    cbn [fst snd] in Hfile.
    change (session_open (with_ai_agent self ai)) with (session_open self)
      in Hfile.
    change (data_manager (with_ai_agent self ai)) with (data_manager self)
      in Hfile.
    destruct Hend as (Hdata & _ & _ & _ & _ & _ & _ & _ & Hev2 & _
                      & Hclosed & Hopen).
    assert (Hr1 : r1 = Ret tt).
    { destruct (session_open self) eqn:Eo.
      - rewrite (Hopen Eo), (Hdisk eq_refl). reflexivity.
      - apply Hclosed. exact Eo. }
    subst r1.
    assert (Hfile' :
      DataManager.file (data_manager self1)
      = (if session_open self
         then DataManager.data (data_manager self1)
         else DataManager.file (data_manager self))).
    { rewrite Hfile. destruct (session_open self); [|reflexivity].
      rewrite (Hdisk eq_refl). reflexivity. }
    match goal with
    | |- context [nudge ?s w] =>
        pose proof (nudge_frame s w) as Hn; destruct (nudge s w)
          as [[r2 self2] ev3]
    end.
    simpl in Hn.
    destruct Hn as (Hdm & _ & Hst & Hc & Hname & Hlast & Hev3).
    assert (Hmain :
      session_events (ev1 ++ (ev2 ++ [Print (SessionStarted label c)])
                      ++ ev3)
      = (closing_events self ++ [Print (SessionStarted label c)])%list).
    { rewrite !session_events_app, Hq1, Hev2, Hev3. simpl.
      rewrite app_nil_r. reflexivity. }
    assert (Hgoal :
      forall evs, session_events evs
        = (closing_events self ++ [Print (SessionStarted label c)])%list ->
      (differs ->
       session_events evs
       = (closing_events self ++ [Print (SessionStarted label c)])%list
       /\ DataManager.data (data_manager self2)
          = (DataManager.data (data_manager self)
             ++ closing_entries self (now_end w))%list
       /\ DataManager.file (data_manager self2)
          = (if session_open self
             then DataManager.data (data_manager self2)
             else DataManager.file (data_manager self))
       /\ current_session_start_time self2 = now_start w
       /\ current_session_category self2 = Some c
       /\ current_session_app_name self2 = Some label
       /\ last_app_data self2 = Some d)
      /\ (~ differs ->
          session_events evs = []
          /\ data_manager self2 = data_manager self
          /\ current_session_start_time self2
             = current_session_start_time self
          /\ current_session_category self2 = current_session_category self
          /\ current_session_app_name self2 = current_session_app_name self
          /\ last_app_data self2 = last_app_data self)
      /\ (last_app_data self = None -> current_session_app_name self = None ->
          differs
          /\ data_manager self2 = data_manager self)).
    { intros evs Hevs. split; [|split].
      - intros _. rewrite Hdm. simpl. repeat split; auto.
      - intros Hn. contradiction.
      - intros _ Hnone. split; [exact Hdiff|].
        rewrite Hdm. simpl.
        revert Eend. unfold end_session. simpl. rewrite Hnone.
        intros [= <- _]. reflexivity. }
    destruct r2 as [[]|e]; simpl.
    + apply Hgoal.
      rewrite session_events_app. simpl. rewrite app_nil_r. exact Hmain.
    + apply Hgoal. exact Hmain.
  - assert (Hnd : ~ differs).
    { intros H. apply Hb in H. discriminate. }
    pose proof (nudge_frame (with_ai_agent self ai) w) as Hn.
    destruct (nudge (with_ai_agent self ai) w) as [[r2 self2] ev3].
    simpl in Hn.
    destruct Hn as (Hdm & _ & Hst & Hc & Hname & Hlast & Hev3).
    assert (Hnone : last_app_data self = None -> ~ differs -> False).
    { intros H Hn. apply Hn. left. rewrite H. discriminate. }
    destruct r2 as [[]|e]; simpl;
      (split; [intros H; contradiction|]);
      (split; [intros _|intros H; exfalso; exact (Hnone H Hnd)]);
      rewrite ?session_events_app, Hq1, Hev3; simpl; repeat split; auto.
Qed.

End Boundary.

Section BoundaryWitness.

Import BilgeApp Spec Examples.

(** C1 (counterexample).  Two ticks that observe a value other than
    [None] which differs from the last identity, and in which no session
    is started.  In the first, a session on "Code" is open, "Safari" is
    observed and the write of the log fails: the tick ends with the
    exception after the old session has been announced as ended; the
    session on "Code" stays the current one with its start time, and its
    record is not in the file.  In the second, the monitor returns the
    empty string, which the loop takes for no activity. *)
Lemma C1_tick_without_new_session :
  (let self := coding in
   let w := disk_full (Str "Safari") "Browsing" 31 in
   let '(r, self', ev) := body self w in
   get_active_window w = Ret (Some (Str "Safari"))
   /\ Some (Str "Safari") <> last_app_data self
   /\ r = Raise OSError
   /\ session_events ev = [Print (SessionEnded "Code" (Some "Work"))]
   /\ current_session_app_name self' = Some "Code"
   /\ current_session_start_time self' = current_session_start_time self
   /\ last_app_data self' = Some (Str "Code")
   /\ DataManager.file (data_manager self') = [])
  /\ (let self := coding in
      let w := calm (Str EmptyString) "Browsing" 31 in
      let '(r, self', ev) := body self w in
      get_active_window w = Ret (Some (Str EmptyString))
      /\ Some (Str EmptyString) <> last_app_data self
      /\ r = Ret tt
      /\ session_events ev = []
      /\ self' = self).
Proof.
  split; vm_compute; repeat split; discriminate.
Qed.

(** C1 at the tick in which "Safari" replaces "Code". *)
Lemma C1_session_boundary_witness :
  let self := coding in
  let w := calm (Str "Safari") "Browsing" 31 in
  let d := Str "Safari" in
  let c := "Browsing" in
  let differs :=
    Some d <> last_app_data self
    \/ Some c <> current_session_category self in
  let '(r, self', ev) := body self w in
  (differs ->
     session_events ev
     = (closing_events self
        ++ [Print (SessionStarted (_get_app_info d).2 c)])%list
     /\ DataManager.data (data_manager self')
        = (DataManager.data (data_manager self)
           ++ closing_entries self (now_end w))%list
     /\ DataManager.file (data_manager self')
        = (if session_open self
           then DataManager.data (data_manager self')
           else DataManager.file (data_manager self))
     /\ current_session_start_time self' = now_start w
     /\ current_session_category self' = Some c
     /\ current_session_app_name self' = Some (_get_app_info d).2
     /\ last_app_data self' = Some d)
  /\ (~ differs ->
      session_events ev = []
      /\ data_manager self' = data_manager self
      /\ current_session_start_time self' = current_session_start_time self
      /\ current_session_category self' = current_session_category self
      /\ current_session_app_name self' = current_session_app_name self
      /\ last_app_data self' = last_app_data self)
  /\ (last_app_data self = None -> current_session_app_name self = None ->
      differs
      /\ data_manager self' = data_manager self).
Proof.
  apply (C1_session_boundary coding (calm (Str "Safari") "Browsing" 31)
           (Str "Safari") "Browsing"
           (AIAgent.categorize_app (ai_agent coding) (Ret "Browsing")
              Written (Str "Safari")).1.2
           (AIAgent.categorize_app (ai_agent coding) (Ret "Browsing")
              Written (Str "Safari")).2).
  - reflexivity.
  - reflexivity.
  - reflexivity.
  - intros _. reflexivity.
Defined.

End BoundaryWitness.

(** ** One nudge per session *)

Section OneNudge.

Import BilgeApp Spec.

Lemma steps_nil st : steps st [] st.
Proof. intros rest. reflexivity. Qed.

Lemma steps_app st1 st2 st3 a b :
  steps st1 a st2 -> steps st2 b st3 -> steps st1 (a ++ b) st3.
Proof.
  intros Ha Hb rest. rewrite <- app_assoc. rewrite Ha. apply Hb.
Qed.

Lemma steps_check st ev st' :
  steps st ev st' -> one_nudge_per_session st ev = Some st'.
Proof. intros H. specialize (H []). rewrite app_nil_r in H. exact H. Qed.

Lemma steps_silent st ev :
  Forall (fun e => is_nudge_event e = false) ev -> steps st ev st.
Proof.
  induction 1 as [|e ev He _ IH]; [apply steps_nil|].
  intros rest. simpl.
  destruct e as [m| | | | | |]; try discriminate He; try apply IH.
  destruct m; try discriminate He; apply IH.
Qed.

Lemma steps_quiet st ev : quiet ev -> steps st ev st.
Proof.
  intros H. apply steps_silent.
  eapply Forall_impl; [exact H|]. simpl. tauto.
Qed.

(** Reading the rules is allowed as long as no rule has triggered. *)
Lemma steps_load_rules re f n :
  steps (false, n) (RulesEngine.load_rules re f).2 (false, n).
Proof.
  destruct f as [|m c]; simpl; [intros rest; reflexivity|].
  destruct (py_gt m (RulesEngine.last_modified_time re)); destruct c;
    intros rest; reflexivity.
Qed.

Lemma nudge_steps self w st :
  agrees st self ->
  let '(r, self', ev) := nudge self w in
  exists st', steps st ev st'
    /\ match r with
       | Ret _ => agrees st' self'
       | Raise e => is_Exception e = true -> agrees st' self'
       end.
Proof.
  intros [Hflag Hnot]. unfold nudge.
  destruct (nudged_for_session self) eqn:En; simpl.
  { exists st. split; [apply steps_nil|].
    unfold agrees. rewrite En. split; assumption. }
  destruct st as [f n]. simpl in *. subst f.
  assert (n = false) as -> by (destruct n; [discriminate (Hnot eq_refl)|reflexivity]).
  pose proof (evaluate_events (rules_engine self) (rules_config w)
                (time_time w) (current_session_category self)
                (datetime.total_seconds
                   (datetime.sub (now_duration w)
                      (current_session_start_time self)))) as Hev.
  pose proof (steps_load_rules (rules_engine self) (rules_config w) false)
    as Hl.
  rewrite <- Hev in Hl. clear Hev.
  destruct (evaluate _ _ _ _ _) as [[[[[[rn c] d]|]|e] re] ev]; simpl in *.
  - pose proof (generate_nudge_quiet (query_llm_nudge w) c d) as Hg.
    assert (Hg' : forall e0, (AIAgent.generate_nudge (query_llm_nudge w) c d).1
                             = Raise e0 -> is_Exception e0 = false).
    { unfold AIAgent.generate_nudge. intros e0.
      destruct (query_llm_nudge w) as [x|e1]; [discriminate|].
      destruct (is_Exception e1) eqn:E1; [discriminate|].
      simpl. intros [= <-]. exact E1. }
    destruct (AIAgent.generate_nudge (query_llm_nudge w) c d)
      as [[text|e] ev2]; simpl in *.
    + assert (Ht : steps (false, false)
                     (ev ++ [Print (TriggeredRule rn c d)]) (true, false)).
      { eapply steps_app; [exact Hl|]. intros rest. reflexivity. }
      unfold Notifier.send_notification.
      destruct (plyer_notify w) as [[]|e]; [|destruct (is_Exception e) eqn:Ee].
      * exists (true, true). split; [|split; auto].
        eapply steps_app; [exact Ht|].
        eapply steps_app; [apply steps_quiet; exact Hg|].
        intros rest. reflexivity.
      * exists (true, false). split; [|split; simpl; auto; discriminate].
        eapply steps_app; [exact Ht|].
        eapply steps_app; [apply steps_quiet; exact Hg|].
        intros rest. reflexivity.
      * exists (true, false). split; [|intros H; congruence].
        eapply steps_app; [exact Ht|].
        eapply steps_app; [apply steps_quiet; exact Hg|].
        apply steps_nil.
    + exists (true, false). split.
      * eapply steps_app; [|apply steps_quiet; exact Hg].
        eapply steps_app; [exact Hl|]. intros rest. reflexivity.
      * intros H. rewrite (Hg' e eq_refl) in H. discriminate.
  - exists (false, false). split; [exact Hl|]. split; simpl; auto.
  - exists (false, false). split; [exact Hl|]. intros _. split; simpl; auto.
Qed.

End OneNudge.

Section OneNudgeRun.

Import BilgeApp Spec.

Lemma switch_steps self w d c label st :
  agrees st self ->
  let '(r, self', ev) := switch self w d c label in
  exists st', steps st ev st' /\ agrees st' self'.
Proof.
  intros Hag. unfold switch.
  destruct (boundary self d c).
  - pose proof (end_session_spec self (now_end w) (save_data w) true) as H.
    destruct (end_session self (now_end w) (save_data w) true)
      as [[[[]|e] self1] ev1];
      destruct H as (_ & _ & _ & _ & _ & _ & _ & Hn & _ & Hs & _).
    + exists (false, false). split.
      * eapply steps_app; [apply steps_silent; exact Hs|].
        intros rest. reflexivity.
      * split; simpl; auto.
    + exists st. split; [apply steps_silent; exact Hs|].
      destruct Hag as [H1 H2]. split; [rewrite Hn; exact H1 | exact H2].
  - exists st. split; [apply steps_nil | exact Hag].
Qed.

Lemma agrees_with_ai_agent st self ai :
  agrees st self -> agrees st (with_ai_agent self ai).
Proof. intros H. exact H. Qed.

Lemma track_steps self w d st :
  agrees st self ->
  let '(r, self', ev) := track self w d in
  exists st', steps st ev st'
    /\ match r with
       | Ret _ => agrees st' self'
       | Raise e => is_Exception e = true -> agrees st' self'
       end.
Proof.
  intros Hag. unfold track.
  destruct (_get_app_info d) as [subject label].
  pose proof (categorize_app_quiet (ai_agent self) (query_llm_category w)
                (save_cache w) (Str subject)) as Hq.
  destruct (AIAgent.categorize_app (ai_agent self) (query_llm_category w)
              (save_cache w) (Str subject)) as [[[c|e] ai] ev1];
    simpl in Hq.
  - pose proof (switch_steps (with_ai_agent self ai) w d c label st
                  (agrees_with_ai_agent _ _ ai Hag)) as Hsw.
    destruct (switch (with_ai_agent self ai) w d c label)
      as [[[[]|e] self1] ev2]; destruct Hsw as (st1 & Hs1 & Hag1).
    + pose proof (nudge_steps self1 w st1 Hag1) as Hn.
      destruct (nudge self1 w) as [[r2 self2] ev3].
      destruct Hn as (st2 & Hs2 & Hag2).
      exists st2. split; [|exact Hag2].
      eapply steps_app; [apply steps_quiet; exact Hq|].
      eapply steps_app; [exact Hs1 | exact Hs2].
    + exists st1. split; [|intros _; exact Hag1].
      eapply steps_app; [apply steps_quiet; exact Hq | exact Hs1].
  - exists st. split; [apply steps_quiet; exact Hq|].
    intros _. exact Hag.
Qed.

Lemma body_steps self w st :
  agrees st self ->
  let '(r, self', ev) := body self w in
  exists st', steps st ev st'
    /\ match r with
       | Ret _ => agrees st' self'
       | Raise e => is_Exception e = true -> agrees st' self'
       end.
Proof.
  intros Hag. unfold body, sleep.
  destruct (get_active_window w) as [v|e].
  2: { exists st. split; [apply steps_nil | intros _; exact Hag]. }
  assert (Hidle :
    let '(r, self', ev) :=
      match sleep_1 w with
      | Ret a => (Ret a, self, ([] ++ [Sleep 1])%list)
      | Raise e => (Raise e, self, ([] ++ [Sleep 1])%list)
      end in
    exists st', steps st ev st'
      /\ match r with
         | Ret _ => agrees st' self'
         | Raise e => is_Exception e = true -> agrees st' self'
         end).
  { destruct (sleep_1 w); exists st;
      (split; [intros rest; reflexivity | auto]). }
  destruct v as [d|]; [destruct (truthy (Some d))|];
    try (destruct (sleep_1 w); exact Hidle).
  pose proof (track_steps self w d st Hag) as Ht.
  destruct (track self w d) as [[[[]|e] self1] ev1];
    destruct Ht as (st1 & Hs1 & Hag1).
  - destruct (sleep_1 w) as [[]|e]; exists st1;
      (split; [eapply steps_app; [exact Hs1 | intros rest; reflexivity]|]);
      auto.
  - exists st1. split; [exact Hs1 | exact Hag1].
Qed.

Lemma iteration_steps self w st :
  agrees st self ->
  let '(s, self', ev) := iteration self w in
  exists st', steps st ev st' /\ (s = Continue -> agrees st' self').
Proof.
  intros Hag. unfold iteration, sleep.
  pose proof (body_steps self w st Hag) as Hb.
  destruct (body self w) as [[[[]|e] self1] ev1];
    destruct Hb as (st1 & Hs1 & Hag1).
  - exists st1. split; [exact Hs1 | intros _; exact Hag1].
  - assert (Hint :
      let '(s, self', ev) :=
        match end_session self1 (now_exit w) (save_data_exit w) false with
        | (Ret _, self2, ev2) =>
            (Break, self2, (ev1 ++ Print Exiting :: ev2)%list)
        | (Raise e0, self2, ev2) =>
            (Uncaught e0, self2, (ev1 ++ Print Exiting :: ev2)%list)
        end in
      exists st', steps st ev st' /\ (s = Continue -> agrees st' self')).
    { pose proof (end_session_spec self1 (now_exit w) (save_data_exit w)
                    false) as He.
      destruct (end_session self1 (now_exit w) (save_data_exit w) false)
        as [[[[]|e0] self2] ev2];
        destruct He as (_ & _ & _ & _ & _ & _ & _ & _ & _ & Hs & _);
        exists st1;
        (split; [|discriminate]);
        (eapply steps_app; [exact Hs1|]);
        apply steps_silent; (constructor; [reflexivity | exact Hs]). }
    assert (Herr :
      let '(s, self', ev) :=
        match sleep_5 w with
        | Ret _ =>
            (Continue, self1,
             (ev1 ++ Print (AnErrorOccurred e) :: [Sleep 5])%list)
        | Raise e' =>
            (Uncaught e', self1,
             (ev1 ++ Print (AnErrorOccurred e) :: [Sleep 5])%list)
        end in
      is_Exception e = true ->
      exists st', steps st ev st' /\ (s = Continue -> agrees st' self')).
    { destruct (sleep_5 w) as [[]|e']; intros He; exists st1;
        (split; [|intros _; exact (Hag1 He)]);
        (eapply steps_app; [exact Hs1|]);
        apply steps_silent; repeat constructor. }
    destruct e; try exact Hint;
      (destruct (sleep_5 w); apply Herr; reflexivity).
Qed.

(** C5.  In every run of the loop, from any state, the events obey the
    rule checked by [one_nudge_per_session], started with the
    application's own flag: after a rule has triggered (or with the flag
    already set) and until the next session is started, the rules are not
    read again, no rule triggers and no notification is sent; so a
    session sees at most one nudge.  While the loop is running, the flag
    of the application is set exactly when a rule has triggered since the
    last session was started. *)
Theorem C5_one_nudge_per_session self ws :
  let '(x, self', ev) := run self ws in
  exists st',
    one_nudge_per_session
      (nudged_for_session self, nudged_for_session self) ev = Some st'
    /\ match x with
       | Running => st'.1 = nudged_for_session self'
       | _ => True
       end.
Proof.
  assert (H : forall ws self st, agrees st self ->
    let '(x, self', ev) := run self ws in
    exists st', steps st ev st' /\ (x = Running -> agrees st' self')).
  { clear. induction ws as [|w ws IH]; intros self st Hag; simpl.
    - exists st. split; [apply steps_nil | intros _; exact Hag].
    - pose proof (iteration_steps self w st Hag) as Hi.
      destruct (iteration self w) as [[[| |e] self1] ev];
        destruct Hi as (st1 & Hs1 & Hag1).
      + specialize (IH self1 st1 (Hag1 eq_refl)).
        destruct (run self1 ws) as [[x self2] ev1].
        destruct IH as (st2 & Hs2 & Hag2).
        exists st2. split; [eapply steps_app; eassumption | exact Hag2].
      + exists st1. split; [exact Hs1 | discriminate].
      + exists st1. split; [exact Hs1 | discriminate]. }
  specialize (H ws self (nudged_for_session self, nudged_for_session self)).
  destruct (run self ws) as [[x self'] ev].
  destruct H as (st' & Hs & Hag); [split; simpl; auto|].
  exists st'. split; [apply steps_check; exact Hs|].
  destruct x; [apply Hag; reflexivity | exact I | exact I].
Qed.

End OneNudgeRun.

(** ** The cache key of a browser tab *)

Section BrowserKey.

Import BilgeApp Spec Examples.

(** The key built by [categorize_app] for a dictionary is never the
    string the main loop passes for it. *)
Lemma chrome_key_differs window title url :
  AIAgent.cache_key (Dict window title url)
  <> (_get_app_info (Dict window title url)).1.
Proof.
  simpl. intros H. apply (f_equal String.length) in H.
  rewrite !length_append in H. simpl in H. lia.
Qed.

(** A call of [categorize_app] touches the entry of its own key only. *)
Lemma categorize_app_other self llm disk d k :
  k <> AIAgent.cache_key d ->
  AIAgent.category_cache (AIAgent.categorize_app self llm disk d).1.2 !! k
  = AIAgent.category_cache self !! k.
Proof.
  intros Hk.
  destruct (AIAgent.category_cache self !! AIAgent.cache_key d)
    as [v|] eqn:E.
  - rewrite (categorize_app_hit _ llm disk _ _ E). reflexivity.
  - destruct (AIAgent.categorize_app self llm disk d) as [[r self'] ev] eqn:Ec.
    destruct (categorize_app_miss _ _ _ _ E _ _ _ Ec)
      as [(e & _ & _ & _ & ->) | (c & _ & Hc & _)]; simpl.
    + reflexivity.
    + rewrite Hc. apply lookup_insert_ne. congruence.
Qed.

(** A call that returns leaves its key in the cache with the value
    returned. *)
Lemma categorize_app_returns self llm disk d c self' ev :
  AIAgent.categorize_app self llm disk d = (Ret c, self', ev) ->
  AIAgent.category_cache self' !! AIAgent.cache_key d = Some c.
Proof.
  intros H.
  destruct (AIAgent.category_cache self !! AIAgent.cache_key d)
    as [v|] eqn:E.
  - rewrite (categorize_app_hit _ llm disk _ _ E) in H.
    injection H as <- <- <-. exact E.
  - destruct (categorize_app_miss _ _ _ _ E _ _ _ H)
      as [(e & _ & _ & Hr & _) | (c0 & _ & Hc & _ & _ & _ & Hr & _)].
    + discriminate.
    + assert (c0 = c) as ->
        by (destruct Hr as [Hr | (e & Hr & _)]; congruence).
      rewrite Hc. apply lookup_insert_eq.
Qed.

Lemma switch_ai_agent self w d c label :
  ai_agent (switch self w d c label).1.2 = ai_agent self.
Proof.
  unfold switch. destruct (boundary self d c); [|reflexivity].
  pose proof (end_session_spec self (now_end w) (save_data w) true) as H.
  destruct (end_session self (now_end w) (save_data w) true)
    as [[[[]|e] self1] ev1];
    destruct H as (_ & _ & Hai & _); exact Hai.
Qed.

(** C7.  For a browser activity the main loop builds the log label
    ["{window_name} | {tab_title}"] and the classification subject
    ["{tab_title} | {tab_url}"], and hands the subject, a string, to
    [categorize_app].  The cache is therefore consulted and filled under
    the subject itself; the entry under ["chrome|{tab_title}|{tab_url}"],
    the key [categorize_app] builds when it is given the dictionary, is
    never touched by a tick. *)
Theorem C7_browser_cache_key self w window title url :
  let d := Dict window title url in
  let subject := (title ++ " | " ++ fmt url)%string in
  let chrome_key := ("chrome|" ++ title ++ "|" ++ fmt url)%string in
  let '(r, self', ev) := track self w d in
  _get_app_info d = (subject, (window ++ " | " ++ title)%string)
  /\ AIAgent.cache_key d = chrome_key
  /\ chrome_key <> subject
  /\ AIAgent.category_cache (ai_agent self') !! chrome_key
     = AIAgent.category_cache (ai_agent self) !! chrome_key
  /\ match r with
     | Ret _ =>
         is_Some (AIAgent.category_cache (ai_agent self') !! subject)
     | Raise _ => True
     end
  /\ match AIAgent.category_cache (ai_agent self) !! subject with
     | None => In (QueryLLM (AIAgent.categorize_prompt (Str subject))) ev
     | Some _ => True
     end.
Proof.
  intros d subject chrome_key.
  pose proof (chrome_key_differs window title url) as Hne.
  change (chrome_key <> subject) in Hne.
  unfold track. change (_get_app_info d) with
    (subject, (window ++ " | " ++ title)%string).
  cbv beta iota.
  pose proof (categorize_app_other (ai_agent self) (query_llm_category w)
                (save_cache w) (Str subject) chrome_key Hne) as Hother.
  pose proof (categorize_app_returns (ai_agent self) (query_llm_category w)
                (save_cache w) (Str subject)) as Hret.
  assert (Hask : AIAgent.category_cache (ai_agent self) !! subject = None ->
    In (QueryLLM (AIAgent.categorize_prompt (Str subject)))
       (AIAgent.categorize_app (ai_agent self) (query_llm_category w)
          (save_cache w) (Str subject)).2).
  { intros Hm. unfold AIAgent.categorize_app.
    change (AIAgent.cache_key (Str subject)) with subject. rewrite Hm.
    destruct (query_llm_category w) as [x|e]; [|destruct (is_Exception e)];
      destruct (save_cache w) as [|e' []]; simpl; auto. }
  destruct (AIAgent.categorize_app (ai_agent self) (query_llm_category w)
              (save_cache w) (Str subject)) as [[[c|e] ai] ev1];
    simpl in Hother, Hask.
  - specialize (Hret c ai ev1 eq_refl). simpl in Hret.
    pose proof (switch_ai_agent (with_ai_agent self ai) w d c
                  (window ++ " | " ++ title)%string) as Hsw.
    destruct (switch (with_ai_agent self ai) w d c
                (window ++ " | " ++ title)%string) as [[[[]|e] self1] ev2];
      simpl in Hsw.
    + pose proof (nudge_frame self1 w) as Hn.
      destruct (nudge self1 w) as [[r2 self2] ev3]. simpl in Hn.
      destruct Hn as (_ & Hai & _). cbv beta iota zeta.
      rewrite Hai, Hsw.
      repeat split; auto.
      * destruct r2; [rewrite Hret; eauto | exact I].
      * destruct (AIAgent.category_cache (ai_agent self) !! subject);
          [exact I|]. apply in_or_app. left. auto.
    + cbv beta iota zeta. rewrite Hsw. repeat split; auto.
      destruct (AIAgent.category_cache (ai_agent self) !! subject);
        [exact I|]. apply in_or_app. left. auto.
  - cbv beta iota zeta. repeat split; auto.
    destruct (AIAgent.category_cache (ai_agent self) !! subject);
      [exact I | auto].
Qed.

(** C7 at one tab: a first tick on the GitHub tab leaves one entry in
    the cache, under the subject and not under the [chrome] key, and the
    model was asked about an application of that name. *)
Example C7_github_tab :
  let '(r, self', ev) := track fresh (calm github "Work" 0) github in
  AIAgent.category_cache (ai_agent self')
  = {["GitHub | https://github.com" := "Work"]}
  /\ AIAgent.category_cache (ai_agent self')
       !! "chrome|GitHub|https://github.com" = None
  /\ current_session_app_name self' = Some "Google Chrome | GitHub"
  /\ head ev
     = Some (QueryLLM
         ("Categorize the application 'GitHub | https://github.com' into one of the following categories: Work, Gaming, Browsing, Communication, Media, or Other. Respond with only the category name.")).
Proof. vm_compute. repeat split; reflexivity. Qed.

End BrowserKey.

(** ** Ctrl-C *)

Section Interrupt.

Import BilgeApp Spec Examples.

(** An interrupt that arrives while the body of the [try] runs (in the
    monitor, in a query to the model, in [time.sleep(1)]) reaches the
    handler: the open session is closed as at a boundary, with the time
    read in the handler as its end, and when the write of the log returns
    the loop is left and [run] returns. *)
Lemma interrupt_in_try_saves_session self w ws self1 ev1 :
  body self w = (Raise KeyboardInterrupt, self1, ev1) ->
  save_data_exit w = Written ->
  exists self2 ev,
    run self (w :: ws) = (ExitSuccess, self2, ev)
    /\ DataManager.data (data_manager self2)
       = (DataManager.data (data_manager self1)
          ++ closing_entries self1 (now_exit w))%list
    /\ (session_open self1 = true ->
        DataManager.file (data_manager self2)
        = DataManager.data (data_manager self2)).
Proof.
  intros Hb Hd. simpl. unfold iteration. rewrite Hb.
  unfold end_session, closing_entries, session_open. rewrite Hd.
  destruct (current_session_app_name self1) as [name|];
    [destruct (str_truthy name)|]; simpl;
    eexists _, _; (split; [reflexivity|]); simpl;
    rewrite ?app_nil_r; split; auto; discriminate.
Qed.

(** C9 (the code at the failing input, in general).  When the body of the
    [try] raises an exception, the handler of [Exception] prints it and
    sleeps five seconds.  An interrupt that arrives during that sleep is
    raised inside the handler, where the handler of [KeyboardInterrupt]
    does not apply: it leaves [run], the application is as the failed
    body left it (no session is closed, nothing is written) and the
    process ends with a traceback instead of status 0. *)
Theorem C9_interrupt_during_backoff_loses_session self w ws e self1 ev1 :
  body self w = (Raise e, self1, ev1) ->
  is_Exception e = true ->
  sleep_5 w = Raise KeyboardInterrupt ->
  run self (w :: ws)
  = (ExitFailure KeyboardInterrupt, self1,
     (ev1 ++ [Print (AnErrorOccurred e); Sleep 5])%list).
Proof.
  intros Hb He Hs. simpl. unfold iteration, sleep. rewrite Hb, Hs.
  destruct e; try discriminate He; reflexivity.
Qed.

(** The failing input: "Code" is being tracked, the rules file is valid
    JSON without the key "rules" (every evaluation raises [KeyError]),
    and Ctrl-C is pressed during the five seconds that follow. *)
Lemma C9_interrupt_during_backoff_loses_session_witness :
  session_open coding = true
  /\ DataManager.data (data_manager coding) = []
  /\ exists self1 ev1,
       body coding (broken_rules (Str "Code") "Work" 5)
       = (Raise KeyError, self1, ev1)
       /\ session_open self1 = true
       /\ DataManager.data (data_manager self1) = []
       /\ run coding [broken_rules (Str "Code") "Work" 5]
          = (ExitFailure KeyboardInterrupt, self1,
             (ev1 ++ [Print (AnErrorOccurred KeyError); Sleep 5])%list).
Proof.
  split; [reflexivity|]. split; [reflexivity|].
  eexists _, _. split; [reflexivity|].
  split; [reflexivity|]. split; [reflexivity|].
  apply (C9_interrupt_during_backoff_loses_session coding
           (broken_rules (Str "Code") "Work" 5) [] KeyError);
    reflexivity.
Defined.

End Interrupt.

(** ** A run of four ticks *)

Section Scenario.

Import BilgeApp Spec Examples.

(** "Code" is in front at 0 s, 31 s and 32 s, then "Safari" at 33 s; the
    model says Work, then Browsing; the default rules apply.  One nudge
    is sent (at 31 s), one record is logged (Code, Work, 33 seconds), the
    session on Safari is open and the loop is running. *)
Example code_then_safari :
  let '(x, self', ev) :=
    run fresh [calm (Str "Code") "Work" 0; calm (Str "Code") "Work" 31;
               calm (Str "Code") "Work" 32; calm (Str "Safari") "Browsing" 33] in
  x = Running
  /\ List.filter is_nudge_event ev
     = [Print (SessionStarted "Code" "Work"); ReadConfig;
        ReadConfig; Print (TriggeredRule "short_work_session" "Work" 31);
        Notify "bilge" "Time to stretch.";
        Print (SessionStarted "Safari" "Browsing"); ReadConfig]
  /\ DataManager.data (data_manager self')
     = [DataManager.mk_entry "2025-08-20T10:00:00" "2025-08-20T10:00:33"
          "Code" (Some "Work") (33000000 # 1000000)]
  /\ current_session_app_name self' = Some "Safari"
  /\ nudged_for_session self' = false.
Proof. vm_compute. repeat split; reflexivity. Qed.

End Scenario.

(** ** The digits written by [isoformat] *)

Section Digits.

Import datetime Spec.

Example isoformat_with_fraction :
  isoformat (mk 2025 8 20 9 5 31 500000) = "2025-08-20T09:05:31.500000".
Proof. reflexivity. Qed.

Example isoformat_whole_second :
  isoformat (mk 2025 8 20 9 5 31 0) = "2025-08-20T09:05:31".
Proof. reflexivity. Qed.

Example toordinal_epoch : toordinal (mk 1970 1 1 0 0 0 0) = 719163%Z.
Proof. reflexivity. Qed.

Example sub_across_midnight :
  total_seconds (sub (mk 2024 3 1 0 0 1 0) (mk 2024 2 29 23 59 59 500000))
  = (1500000 # 1000000)%Q.
Proof. reflexivity. Qed.

End Digits.

(** * Further properties of the code *)

(** ** data_manager.py: the latest session of each category *)

Section LatestSessions.

Import DataManager.

Lemma fold_keep_first l : forall (latest : gmap (option string) (Q * string)) c,
  fold_left
    (fun latest_sessions entry =>
       match latest_sessions !! category entry with
       | Some _ => latest_sessions
       | None =>
           <[category entry := (duration_seconds entry, start_time entry)]>
             latest_sessions
       end) l latest !! c
  = match latest !! c with
    | Some v => Some v
    | None =>
        (fun e => (duration_seconds e, start_time e))
          <$> head (filter (fun e => category e = c) l)
    end.
Proof.
  induction l as [|e l IH]; intros latest c; simpl.
  - destruct (latest !! c); reflexivity.
  - rewrite IH. rewrite filter_cons.
    destruct (latest !! category e) as [v|] eqn:E.
    + destruct (decide (category e = c)) as [<-|Hne]; [|reflexivity].
      rewrite E. reflexivity.
    + destruct (decide (category e = c)) as [<-|Hne].
      * rewrite lookup_insert_eq, E. reflexivity.
      * rewrite lookup_insert_ne by exact Hne. reflexivity.
Qed.

Lemma rev_is_reverse {A} (l : list A) : rev l = reverse l.
Proof. unfold reverse. apply rev_alt. Qed.

(** X1.  [get_latest_sessions] maps a category to the duration and start
    time of the last record of that category in the log, and has no entry
    for a category that no record carries. *)
Theorem X1_get_latest_sessions_is_last_record self c :
  get_latest_sessions self !! c
  = (fun e => (duration_seconds e, start_time e))
      <$> last (filter (fun e => category e = c) (data self)).
Proof.
  unfold get_latest_sessions.
  rewrite fold_keep_first, lookup_empty.
  rewrite rev_is_reverse, filter_reverse, head_reverse. reflexivity.
Qed.

(** X2.  After [save_session], whatever the disk does, the session just
    saved is the latest of its category, and the latest session of every
    other category is the one it was before. *)
Theorem X2_saved_session_is_latest
    self disk app_name c start_time end_time c' :
  let self' :=
    (save_session self disk app_name c start_time end_time).1.2 in
  get_latest_sessions self' !! c'
  = if decide (c = c')
    then Some (datetime.total_seconds (datetime.sub end_time start_time),
               datetime.isoformat start_time)
    else get_latest_sessions self !! c'.
Proof.
  intros self'. rewrite !X1_get_latest_sessions_is_last_record.
  assert (Hd : data self'
    = (data self
       ++ [mk_entry (datetime.isoformat start_time)
             (datetime.isoformat end_time) app_name c
             (datetime.total_seconds (datetime.sub end_time start_time))])%list).
  { subst self'. unfold save_session, _save_data.
    destruct disk as [|e []]; reflexivity. }
  rewrite Hd, filter_app, filter_cons, filter_nil. simpl.
  destruct (decide (c = c')) as [->|Hne].
  - rewrite last_snoc. reflexivity.
  - rewrite app_nil_r. reflexivity.
Qed.

(** X3.  A record whose write failed is not lost while the program runs,
    however far the failed write got.  After the failure the record is in
    the list in memory, and the file is as it was, loads as an empty log
    or holds the list, as the write left it.  The next [save_session]
    whose write returns puts both records in the file, after everything
    the log held, and a restart from that file loads them all. *)
Theorem X3_next_write_stores_pending_record
    self e p name1 c1 s1 t1 name2 c2 s2 t2 :
  let entry1 :=
    mk_entry (datetime.isoformat s1) (datetime.isoformat t1) name1 c1
      (datetime.total_seconds (datetime.sub t1 s1)) in
  let entry2 :=
    mk_entry (datetime.isoformat s2) (datetime.isoformat t2) name2 c2
      (datetime.total_seconds (datetime.sub t2 s2)) in
  let self1 := (save_session self (Fails e p) name1 c1 s1 t1).1.2 in
  let self2 := (save_session self1 Written name2 c2 s2 t2).1.2 in
  data self1 = (data self ++ [entry1])%list
  /\ file self1
     = match p with
       | Untouched => file self
       | Truncated => []
       | Complete => (data self ++ [entry1])%list
       end
  /\ file self2 = (data self ++ [entry1; entry2])%list
  /\ data (init (Some (file self2))) = (data self ++ [entry1; entry2])%list.
Proof.
  destruct p; simpl; rewrite <- !app_assoc; simpl; repeat split; reflexivity.
Qed.

End LatestSessions.

(** ** rules_engine.py: debounce, reset and the remembered time *)

Section Debounce.

Import RulesEngine Spec.

(** The scan changes the time of the action it fires and nothing else. *)
Lemma scan_frame time_time category duration rs b : forall reads last,
  (scan time_time reads category duration last rs).2 !! b = last !! b
  \/ exists c n,
       (scan time_time reads category duration last rs).1 = Some (b, c, n).
Proof.
  induction rs as [|[[rc rd] a] rs IH]; intros reads last; simpl; [auto|].
  destruct (bool_decide (rc = category) && py_ge duration rd);
    [|apply IH].
  destruct (last !! a) as [fired|] eqn:E.
  - destruct (py_gt (time_time reads - fired) rd); [|apply IH].
    simpl. destruct (decide (a = b)) as [->|Hne]; [right; eauto|].
    left. apply lookup_insert_ne. exact Hne.
  - simpl. destruct (decide (a = b)) as [->|Hne]; [right; eauto|].
    left. apply lookup_insert_ne. exact Hne.
Qed.

(** With no debounce state the first rule that matches fires, at the
    first clock reading. *)
Lemma scan_empty time_time category duration rs : forall reads,
  scan time_time reads category duration ∅ rs
  = match List.find (matchesb category duration) rs with
    | Some r =>
        (Some (r.2, category, py_int duration),
         {[r.2 := time_time reads]})
    | None => (None, ∅)
    end.
Proof.
  induction rs as [|[[rc rd] a] rs IH]; intros reads; simpl; [reflexivity|].
  unfold matchesb at 1. simpl.
  destruct (bool_decide (rc = category) && py_ge duration rd); [|apply IH].
  rewrite lookup_empty. reflexivity.
Qed.

(** X4.  An action that has fired does not fire again while every rule
    that names it is inside its own threshold counted from the recorded
    time, whatever the session's category and duration; its recorded time
    stays as it is. *)
Theorem X4_action_debounced_within_threshold
    self f time_time category duration rs self1 ev a t :
  load_rules self f = (Ret rs, self1, ev) ->
  last_nudged_time self !! a = Some t ->
  (forall rc thr k, In (rc, thr, a) rs -> (time_time k - t <= thr)%Q) ->
  let '(r, self', _) :=
    evaluate_current_session self f time_time category duration in
  (forall c n, r <> Ret (Some (a, c, n)))
  /\ last_nudged_time self' !! a = Some t.
Proof.
  intros Hload Ha Hwin.
  rewrite (evaluate_unfold _ _ time_time category duration _ _ _ Hload).
  pose proof (scan_spec time_time category duration rs 0
                (last_nudged_time self)) as S.
  pose proof (scan_frame time_time category duration rs a 0
                (last_nudged_time self)) as F.
  assert (Hno : forall c n,
    (scan time_time 0 category duration (last_nudged_time self) rs).1
    <> Some (a, c, n)).
  { intros c n Hr.
    destruct (scan time_time 0 category duration (last_nudged_time self) rs)
      as [[[[a' c'] n']|] last']; simpl in Hr; [|discriminate].
    injection Hr as -> -> ->.
    destruct S as (p & thr & q & Hrs & _ & _ & _ & _ & Hk).
    assert (Hin : In (category, thr, a) rs)
      by (rewrite Hrs; apply in_or_app; right; left; reflexivity).
    destruct Hk as [[Hn _] | (t' & Ht' & Hlt & _)]; [congruence|].
    assert (t' = t) by congruence. subst t'.
    exact (Qlt_not_le _ _ Hlt (Hwin _ _ _ Hin)). }
  split.
  - intros c n [= Hr]. exact (Hno c n Hr).
  - simpl. destruct F as [-> | (c & n & Hr)]; [exact Ha|].
    exfalso. exact (Hno c n Hr).
Qed.

(** X4 at a rule for Work with threshold 30 that fired at time 100: at
    time 120 it does not fire, though the session has lasted 45 s. *)
Lemma X4_action_debounced_within_threshold_witness :
  let '(r, self', _) :=
    evaluate_current_session
      (mk {["short_work_session" := 100%Q]} 0 DEFAULT_RULES) Missing
      (fun _ => 120%Q) "Work" 45 in
  (forall c n, r <> Ret (Some ("short_work_session", c, n)))
  /\ last_nudged_time self' !! "short_work_session" = Some 100%Q.
Proof.
  apply (X4_action_debounced_within_threshold
           (mk {["short_work_session" := 100%Q]} 0 DEFAULT_RULES) Missing
           (fun _ => 120%Q) "Work" 45 DEFAULT_RULES
           (mk {["short_work_session" := 100%Q]} 0 DEFAULT_RULES)
           [ReadConfig; Print RulesFileNotFound]
           "short_work_session" 100%Q).
  - reflexivity.
  - reflexivity.
  - intros rc thr k Hin. simpl in Hin.
    repeat (destruct Hin as [Hin|Hin]; [try discriminate Hin|]);
      try contradiction.
    injection Hin as <- <-. unfold Qle. simpl. lia.
Defined.

(** X5.  After [reset_rules] the engine has forgotten every nudge: the
    next evaluation returns the first rule of the loaded list whose
    category is the session's and whose threshold the duration has
    reached, whenever the actions fired last, and returns [None] only
    when the list has no such rule. *)
Theorem X5_reset_rules_clears_debounce
    self f time_time category duration :
  let '(r, self', _) :=
    evaluate_current_session (reset_rules self) f time_time category
      duration in
  match (load_rules self f).1.1 with
  | Ret rs =>
      match List.find (matchesb category duration) rs with
      | Some rule =>
          r = Ret (Some (rule.2, category, py_int duration))
          /\ last_nudged_time self' = {[rule.2 := time_time O]}
      | None => r = Ret None /\ last_nudged_time self' = ∅
      end
  | Raise e => r = Raise e
  end.
Proof.
  pose proof (load_rules_result self f) as R1.
  pose proof (load_rules_result (reset_rules self) f) as R2.
  rewrite R1. clear R1.
  destruct (load_rules (reset_rules self) f) as [[r0 self1] ev0] eqn:E.
  simpl in R2.
  assert (Hl : last_nudged_time self1 = ∅).
  { destruct (load_rules_state _ _ _ _ _ E) as [-> _]. reflexivity. }
  assert (Hcase : forall rs, r0 = Ret rs ->
    let '(r, self', _) :=
      evaluate_current_session (reset_rules self) f time_time category
        duration in
    match List.find (matchesb category duration) rs with
    | Some rule =>
        r = Ret (Some (rule.2, category, py_int duration))
        /\ last_nudged_time self' = {[rule.2 := time_time O]}
    | None => r = Ret None /\ last_nudged_time self' = ∅
    end).
  { intros rs ->.
    rewrite (evaluate_unfold _ _ time_time category duration _ _ _ E).
    change (last_nudged_time (reset_rules self)) with (∅ : gmap string Q).
    rewrite scan_empty.
    destruct (List.find (matchesb category duration) rs); simpl; auto. }
  destruct f as [|m [| |e|rs]]; try (apply Hcase; exact R2).
  unfold evaluate_current_session. rewrite E. rewrite R2. reflexivity.
Qed.

(** The time [load_rules] remembers: the later of the remembered one and
    the file's. *)
Lemma load_rules_time self f :
  last_modified_time (load_rules self f).1.2
  = match f with
    | Missing => last_modified_time self
    | Present m _ =>
        if py_gt m (last_modified_time self) then m
        else last_modified_time self
    end.
Proof.
  destruct f as [|m c]; simpl; [reflexivity|].
  destruct (py_gt m (last_modified_time self)); destruct c; reflexivity.
Qed.

(** An evaluation remembers and prints what its [load_rules] does. *)
Lemma evaluate_load self f time_time category duration :
  last_modified_time
    (evaluate_current_session self f time_time category duration).1.2
  = last_modified_time (load_rules self f).1.2
  /\ (evaluate_current_session self f time_time category duration).2
     = (load_rules self f).2.
Proof.
  unfold evaluate_current_session.
  destruct (load_rules self f) as [[[rs|e] s1] ev]; [|auto].
  destruct (scan time_time 0 category duration (last_nudged_time s1) rs).
  auto.
Qed.

(** X6.  The time the engine remembers never goes back, and the reload
    message is printed at most once for one state of the file: a second
    evaluation against the same file does not print it, whatever the
    first one did. *)
Theorem X6_reload_message_not_repeated
    self f time_time category duration time_time' category' duration' :
  let self1 :=
    (evaluate_current_session self f time_time category duration).1.2 in
  (last_modified_time self <= last_modified_time self1)%Q
  /\ ~ In (Print RulesFileModified)
         (evaluate_current_session self1 f time_time' category'
            duration').2.
Proof.
  intros self1.
  assert (H1 : last_modified_time self1
               = last_modified_time (load_rules self f).1.2)
    by apply evaluate_load.
  destruct (evaluate_load self1 f time_time' category' duration')
    as [_ ->].
  rewrite load_rules_modified, H1, load_rules_time. clear H1.
  destruct f as [|m c].
  - split; [apply Qle_refl|]. intros (m & c & H & _). discriminate.
  - destruct (py_gt m (last_modified_time self)) eqn:Eg.
    + apply py_gt_spec in Eg. split; [apply Qlt_le_weak; exact Eg|].
      intros (m' & c' & [= <- <-] & Hlt). exact (Qlt_irrefl _ Hlt).
    + apply py_gt_false in Eg. split; [apply Qle_refl|].
      intros (m' & c' & [= <- <-] & Hlt). contradiction.
Qed.

(** X7.  An evaluation changes the recorded time of at most one action,
    the one it returns, and removes none. *)
Theorem X7_evaluation_touches_one_action
    self f time_time category duration b :
  let '(r, self', _) :=
    evaluate_current_session self f time_time category duration in
  last_nudged_time self' !! b = last_nudged_time self !! b
  \/ (exists c n, r = Ret (Some (b, c, n))
        /\ is_Some (last_nudged_time self' !! b)).
Proof.
  unfold evaluate_current_session.
  destruct (load_rules self f) as [[[rs|e] self1] ev] eqn:E.
  - destruct (load_rules_state _ _ _ _ _ E) as [Hl _].
    pose proof (scan_frame time_time category duration rs b 0
                  (last_nudged_time self1)) as F.
    pose proof (scan_spec time_time category duration rs 0
                  (last_nudged_time self1)) as S.
    destruct (scan time_time 0 category duration (last_nudged_time self1) rs)
      as [r last'].
    simpl in *. rewrite <- Hl.
    destruct F as [F | (c & n & ->)]; [left; exact F|].
    right. exists c, n. split; [reflexivity|].
    destruct S as (p & thr & q & _ & _ & _ & _ & _ & Hk).
    destruct Hk as [[_ ->] | (t & _ & _ & ->)];
      rewrite lookup_insert_eq; eauto.
  - left. destruct (load_rules_state _ _ _ _ _ E) as [-> _]. reflexivity.
Qed.

End Debounce.

(** ** ai.py: the cache file *)

Section CacheFile.

Import AIAgent Spec.

(** X8.  When the write of the cache file returns, the file holds the
    whole cache, whatever it held before (entries whose earlier write
    failed included), and an agent started from that file is the agent in
    memory: it answers every key known so far without asking the model. *)
Theorem X8_cache_write_stores_whole_cache self llm d :
  category_cache self !! cache_key d = None ->
  interrupted llm = false ->
  let '(r, self', ev) := categorize_app self llm Written d in
  file self' = category_cache self'
  /\ init (Some (file self')) = self'
  /\ (forall k v, category_cache self !! k = Some v -> file self' !! k = Some v)
  /\ exists c, r = Ret c /\ file self' !! cache_key d = Some c.
Proof.
  intros Hmiss Hint.
  destruct (categorize_app self llm Written d) as [[r self'] ev] eqn:E.
  pose proof (categorize_app_keeps self llm Written d) as Hkeep.
  rewrite E in Hkeep. simpl in Hkeep.
  destruct (categorize_app_miss _ _ _ _ Hmiss _ _ _ E)
    as [(e & -> & He & _) | (c & _ & Hc & _ & _ & _ & _ & Hr)].
  { destruct e; discriminate. }
  assert (Hf : file self' = category_cache self').
  { revert E. unfold categorize_app. rewrite Hmiss.
    destruct llm as [x|e]; [|destruct e; try discriminate Hint];
      simpl; intros [= <- <- <-]; reflexivity. }
  split; [exact Hf|]. split; [|split].
  - destruct self' as [m1 m2]. simpl in *. subst m2. reflexivity.
  - intros k v Hk. rewrite Hf. apply Hkeep. exact Hk.
  - exists c. split; [apply Hr; reflexivity|].
    rewrite Hf, Hc. apply lookup_insert_eq.
Qed.

(** X8 at a memory that already holds an entry the file lacks. *)
Lemma X8_cache_write_stores_whole_cache_witness :
  let '(r, self', ev) :=
    categorize_app (mk {["Code" := "Work"]} ∅) (Ret "Browsing") Written
      (Str "Safari") in
  file self' = category_cache self'
  /\ init (Some (file self')) = self'
  /\ (forall k v,
        category_cache (mk {["Code" := "Work"]} ∅) !! k = Some v ->
        file self' !! k = Some v)
  /\ exists c, r = Ret c /\ file self' !! cache_key (Str "Safari") = Some c.
Proof.
  apply (X8_cache_write_stores_whole_cache (mk {["Code" := "Work"]} ∅)
           (Ret "Browsing") (Str "Safari")); reflexivity.
Defined.

(** X9.  When the write of the cache file fails, the exception leaves
    [categorize_app] although the category was obtained.  The category is
    in the cache in memory.  The file is as the failed write left it: as
    it was if it could not be opened, loading as an empty cache if the
    dump was cut short, holding the whole cache if the exception came
    after the dump.  Every later call for the key returns the category
    from memory without a query and without a write, so these calls leave
    the file as it is. *)
Theorem X9_cache_write_failure self llm e p d :
  category_cache self !! cache_key d = None ->
  interrupted llm = false ->
  let '(r, self', ev) := categorize_app self llm (Fails e p) d in
  r = Raise e
  /\ file self'
     = match p with
       | Untouched => file self
       | Truncated => ∅
       | Complete => category_cache self'
       end
  /\ exists c,
       closed_category c
       /\ category_cache self' !! cache_key d = Some c
       /\ forall llm' disk',
            categorize_app self' llm' disk' d = (Ret c, self', []).
Proof.
  intros Hmiss Hint.
  destruct (categorize_app self llm (Fails e p) d) as [[r self'] ev] eqn:E.
  assert (Hf : r = Raise e
               /\ file self'
                  = match p with
                    | Untouched => file self
                    | Truncated => ∅
                    | Complete => category_cache self'
                    end).
  { revert E. unfold categorize_app. rewrite Hmiss.
    destruct llm as [x|e0]; [|destruct e0; try discriminate Hint];
      destruct p; simpl; intros [= <- <- <-]; auto. }
  destruct Hf as [-> Hf]. split; [reflexivity|]. split; [exact Hf|].
  destruct (categorize_app_miss _ _ _ _ Hmiss _ _ _ E)
    as [(e0 & -> & He & _) | (c & Hcl & Hc & _)].
  { destruct e0; discriminate. }
  exists c. split; [exact Hcl|].
  assert (Hin : category_cache self' !! cache_key d = Some c)
    by (rewrite Hc; apply lookup_insert_eq).
  split; [exact Hin|].
  intros llm' disk'. apply categorize_app_hit. exact Hin.
Qed.

(** X9 at a cache file that holds "Mail" and a disk that is full when
    "Code" is first classified: the file is emptied. *)
Lemma X9_cache_write_failure_witness :
  let '(r, self', ev) :=
    categorize_app (init (Some {["Mail" := "Communication"]})) (Ret "Work")
      (Fails OSError Truncated) (Str "Code") in
  r = Raise OSError
  /\ file self' = ∅
  /\ exists c,
       closed_category c
       /\ category_cache self' !! cache_key (Str "Code") = Some c
       /\ forall llm' disk',
            categorize_app self' llm' disk' (Str "Code")
            = (Ret c, self', []).
Proof.
  apply (X9_cache_write_failure (init (Some {["Mail" := "Communication"]}))
           (Ret "Work") OSError Truncated (Str "Code")); reflexivity.
Defined.

End CacheFile.

(** ** macos.py: what the Chrome script's output is taken for *)

Section ChromeActivity.

Import MacOSMonitor Spec.

Lemma append_snoc (a : string) c (b : string) :
  ((a ++ String c EmptyString) ++ b = a ++ String c b)%string.
Proof.
  induction a as [|x a IH]; [reflexivity|].
  change ((String x a ++ String c EmptyString) ++ b)%string
    with (String x ((a ++ String c EmptyString) ++ b)).
  rewrite IH. reflexivity.
Qed.

Lemma append_empty (a : string) : (a ++ EmptyString)%string = a.
Proof.
  induction a as [|x a IH]; [reflexivity|].
  change (String x a ++ EmptyString)%string with (String x (a ++ EmptyString)).
  rewrite IH. reflexivity.
Qed.

Lemma prefix_separator rest :
  String.prefix "|||" (String "|" (String "|" (String "|" rest))) = true.
Proof.
  cbn [String.prefix].
  destruct (ascii_dec "|" "|") as [_|n]; [|contradiction n; reflexivity].
  destruct rest; reflexivity.
Qed.

Lemma prefix_first_differs c (rest : string) :
  Ascii.eqb c "|" = false ->
  String.prefix "|||" (String c rest) = false.
Proof.
  intros H. cbn [String.prefix].
  destruct (ascii_dec "|" c) as [<-|_]; [discriminate H | reflexivity].
Qed.

(** Without the separator there is one part: the string itself. *)
Lemma split_go_whole s : forall cur,
  occurs "|||" s = false ->
  split_go "|||" 0 cur s = [(cur ++ s)%string].
Proof.
  induction s as [|c s IH]; intros cur H.
  - simpl. rewrite append_empty. reflexivity.
  - cbn [occurs] in H. apply orb_false_iff in H. destruct H as [Hp Ho].
    cbn [split_go]. rewrite Hp. rewrite IH by exact Ho.
    rewrite append_snoc. reflexivity.
Qed.

(** A separable string followed by the separator is the first part. *)
Lemma split_go_first title rest : forall cur,
  separable title = true ->
  split_go "|||" 0 cur (title ++ "|||" ++ rest)
  = (cur ++ title)%string :: split "|||" rest.
Proof.
  induction title as [|c t IH]; intros cur H.
  - rewrite append_empty.
    change (EmptyString ++ "|||" ++ rest)%string
      with (String "|" (String "|" (String "|" rest))).
    cbn [split_go].
    rewrite prefix_separator. reflexivity.
  - change (String c t ++ "|||" ++ rest)%string
      with (String c (t ++ "|||" ++ rest)).
    cbn [separable] in H. apply andb_true_iff in H. destruct H as [Hc Ht].
    cbn [split_go].
    assert (Hp : String.prefix "|||" (String c (t ++ "|||" ++ rest)) = false).
    { destruct (Ascii.eqb c "|") eqn:Ec.
      - apply Ascii.eqb_eq in Ec. subst c.
        destruct t as [|c' t']; [discriminate Hc|].
        apply negb_true_iff in Hc.
        change (String c' t' ++ "|||" ++ rest)%string
          with (String c' (t' ++ "|||" ++ rest)).
        cbn [String.prefix].
        destruct (ascii_dec "|" "|") as [_|Hn]; [|reflexivity].
        destruct (ascii_dec "|" c') as [<-|_]; [discriminate Hc|reflexivity].
      - apply prefix_first_differs. exact Ec. }
    rewrite Hp. rewrite IH by exact Ht.
    rewrite append_snoc. reflexivity.
Qed.

(** X10.  The argument of [get_chrome_activity] is the output of the
    script after [strip()] has removed the white space around it.  When
    that string reads [first|||second], every ["|"] of [first] being
    followed by a character other than ["|"] and [second] not containing
    ["|||"], the activity has [first] as its title and [second] as its
    URL.  These are the tab's title and URL only up to the white space
    that [strip()] removed from the start of the one and the end of the
    other. *)
Theorem X10_chrome_output_round_trip first second :
  separable first = true ->
  occurs "|||" second = false ->
  get_chrome_activity (first ++ "|||" ++ second)
  = Dict "Google Chrome" first (Some second).
Proof.
  intros Ht Hu. unfold get_chrome_activity, split at 1.
  rewrite split_go_first by exact Ht.
  unfold split. rewrite split_go_whole by exact Hu. reflexivity.
Qed.

(** X10 at a stripped output whose first part holds a single ["|"]. *)
Lemma X10_chrome_output_round_trip_witness :
  get_chrome_activity
    ("Pull requests | GitHub" ++ "|||" ++ "https://github.com/pulls")
  = Dict "Google Chrome" "Pull requests | GitHub"
      (Some "https://github.com/pulls").
Proof.
  apply (X10_chrome_output_round_trip "Pull requests | GitHub"
           "https://github.com/pulls"); reflexivity.
Defined.

(** X11.  An output without the separator (an empty output when the
    script fails, for one) still yields an activity: the whole output is
    the title and the URL is [None], which the main loop renders as the
    text ["None"] in the classification subject. *)
Theorem X11_chrome_output_without_separator raw_output :
  occurs "|||" raw_output = false ->
  get_chrome_activity raw_output = Dict "Google Chrome" raw_output None
  /\ truthy (Some (get_chrome_activity raw_output)) = true
  /\ BilgeApp._get_app_info (get_chrome_activity raw_output)
     = ((raw_output ++ " | None")%string,
        ("Google Chrome | " ++ raw_output)%string).
Proof.
  intros H.
  assert (E : get_chrome_activity raw_output
              = Dict "Google Chrome" raw_output None).
  { unfold get_chrome_activity, split.
    rewrite split_go_whole by exact H. reflexivity. }
  rewrite E. repeat split; reflexivity.
Qed.

Lemma X11_chrome_output_without_separator_witness :
  get_chrome_activity EmptyString = Dict "Google Chrome" EmptyString None
  /\ truthy (Some (get_chrome_activity EmptyString)) = true
  /\ BilgeApp._get_app_info (get_chrome_activity EmptyString)
     = ((EmptyString ++ " | None")%string,
        ("Google Chrome | " ++ EmptyString)%string).
Proof.
  apply (X11_chrome_output_without_separator EmptyString). reflexivity.
Defined.

(** X12.  A title that itself contains ["|||"] is cut at its first
    occurrence and the text up to the next separator is taken for the
    URL: the tab's real URL is dropped. *)
Theorem X12_separator_in_title_drops_url head tail url :
  separable head = true ->
  separable tail = true ->
  get_chrome_activity ((head ++ "|||" ++ tail) ++ "|||" ++ url)
  = Dict "Google Chrome" head (Some tail).
Proof.
  intros Hh Ht. unfold get_chrome_activity, split at 1.
  replace ((head ++ "|||" ++ tail) ++ "|||" ++ url)%string
    with (head ++ "|||" ++ (tail ++ "|||" ++ url))%string.
  - rewrite split_go_first by exact Hh.
    unfold split. rewrite split_go_first by exact Ht. reflexivity.
  - clear. induction head as [|c h IH]; [reflexivity|].
    change (String c h ++ "|||" ++ tail ++ "|||" ++ url)%string
      with (String c (h ++ "|||" ++ tail ++ "|||" ++ url)).
    change ((String c h ++ "|||" ++ tail) ++ "|||" ++ url)%string
      with (String c ((h ++ "|||" ++ tail) ++ "|||" ++ url)).
    rewrite IH. reflexivity.
Qed.

Lemma X12_separator_in_title_drops_url_witness :
  get_chrome_activity
    (("Pipes" ++ "|||" ++ "explained") ++ "|||" ++ "https://example.org")
  = Dict "Google Chrome" "Pipes" (Some "explained").
Proof.
  apply (X12_separator_in_title_drops_url "Pipes" "explained"
           "https://example.org"); reflexivity.
Defined.

End ChromeActivity.

(** ** run.py: what the tracker keeps true *)

Section TrackerInvariant.

Import BilgeApp Spec.

(** The log label of an activity is never empty. *)
Lemma label_truthy d :
  truthy (Some d) = true -> str_truthy (_get_app_info d).2 = true.
Proof.
  destruct d as [s|window title url]; simpl; [auto|]. intros _.
  unfold str_truthy. apply negb_true_iff, bool_decide_eq_false.
  intros H. apply (f_equal String.length) in H.
  rewrite !length_append in H. simpl in H. lia.
Qed.

Lemma tracking_frame self self' :
  tracking self ->
  last_app_data self' = last_app_data self ->
  current_session_app_name self' = current_session_app_name self ->
  current_session_category self' = current_session_category self ->
  (forall k v,
     AIAgent.category_cache (ai_agent self) !! k = Some v ->
     AIAgent.category_cache (ai_agent self') !! k = Some v) ->
  tracking self'.
Proof.
  unfold tracking, session_open. intros H Hl Hn Hc Hk.
  rewrite Hl, Hn, Hc.
  destruct (last_app_data self) as [d|]; [|exact H].
  destruct H as (Ht & Ho & c & Hcat & Hcache).
  split; [exact Ht|]. split; [exact Ho|].
  exists c. split; [exact Hcat | apply Hk; exact Hcache].
Qed.

Lemma categorize_app_extends a llm disk d r ai ev :
  AIAgent.categorize_app a llm disk d = (r, ai, ev) ->
  forall k v,
    AIAgent.category_cache a !! k = Some v ->
    AIAgent.category_cache ai !! k = Some v.
Proof.
  intros E k v Hk.
  pose proof (categorize_app_keeps a llm disk d k v Hk) as H.
  rewrite E in H. exact H.
Qed.

Lemma nudge_tracking self w : tracking self -> tracking (nudge self w).1.2.
Proof.
  intros H. pose proof (nudge_frame self w) as F. simpl in F.
  destruct F as (_ & Hai & _ & Hc & Hn & Hl & _).
  apply (tracking_frame self); auto. rewrite Hai. auto.
Qed.

Lemma end_session_tracking self t disk announce :
  tracking self -> tracking (end_session self t disk announce).1.2.
Proof.
  intros H. pose proof (end_session_spec self t disk announce) as F.
  destruct (end_session self t disk announce) as [[r self1] ev].
  destruct F as (_ & _ & Hai & _ & Hc & Hn & Hl & _). simpl.
  apply (tracking_frame self); auto. rewrite Hai. auto.
Qed.

Lemma track_tracking self w d :
  tracking self -> truthy (Some d) = true -> tracking (track self w d).1.2.
Proof.
  intros H Ht. unfold track.
  pose proof (label_truthy d Ht) as Hlabel.
  destruct (_get_app_info d) as [subject label] eqn:Einfo. simpl in Hlabel.
  destruct (AIAgent.categorize_app (ai_agent self) (query_llm_category w)
              (save_cache w) (Str subject)) as [[[c|e] ai] ev1] eqn:Ec.
  - pose proof (categorize_app_extends _ _ _ _ _ _ _ Ec) as Hext.
    pose proof (categorize_app_returns _ _ _ _ _ _ _ Ec) as Hin.
    simpl in Hin.
    assert (H1 : tracking (with_ai_agent self ai))
      by (apply (tracking_frame self); auto).
    unfold switch.
    destruct (boundary (with_ai_agent self ai) d c).
    + pose proof (end_session_tracking (with_ai_agent self ai) (now_end w)
                    (save_data w) true H1) as H2.
      pose proof (end_session_spec (with_ai_agent self ai) (now_end w)
                    (save_data w) true) as F.
      destruct (end_session (with_ai_agent self ai) (now_end w)
                  (save_data w) true) as [[[[]|e] self1] ev2];
        simpl in H2.
      * destruct F as (_ & _ & Hai & _).
        match goal with
        | |- context [nudge ?s w] =>
            pose proof (nudge_tracking s w) as Hn;
              destruct (nudge s w) as [[r2 self2] ev3]
        end.
        simpl in *. apply Hn.
        unfold tracking, session_open. simpl. rewrite Einfo. simpl.
        split; [exact Ht|]. split; [exact Hlabel|].
        exists c. split; [reflexivity|]. rewrite Hai. exact Hin.
      * exact H2.
    + pose proof (nudge_tracking (with_ai_agent self ai) w H1) as Hn.
      destruct (nudge (with_ai_agent self ai) w) as [[r2 self2] ev3].
      exact Hn.
  - apply (tracking_frame self); auto.
    exact (categorize_app_extends _ _ _ _ _ _ _ Ec).
Qed.

Lemma body_tracking self w : tracking self -> tracking (body self w).1.2.
Proof.
  intros H. unfold body, sleep.
  destruct (get_active_window w) as [[d|]|e]; [| |exact H].
  - destruct (truthy (Some d)) eqn:Ht.
    + pose proof (track_tracking self w d H Ht) as Hk.
      destruct (track self w d) as [[[[]|e] self1] ev]; exact Hk.
    + destruct (sleep_1 w); exact H.
  - destruct (sleep_1 w); exact H.
Qed.

Lemma iteration_tracking self w :
  tracking self -> tracking (iteration self w).1.2.
Proof.
  intros H. unfold iteration, sleep.
  pose proof (body_tracking self w H) as Hb.
  destruct (body self w) as [[[[]|e] self1] ev]; simpl in Hb; [exact Hb|].
  pose proof (end_session_tracking self1 (now_exit w) (save_data_exit w)
                false Hb) as He.
  destruct e;
    try (destruct (sleep_5 w) as [[]|e']; exact Hb).
  destruct (end_session self1 (now_exit w) (save_data_exit w) false)
    as [[[[]|e] self2] ev1]; exact He.
Qed.

Lemma run_tracking ws : forall self,
  tracking self -> tracking (run self ws).1.2.
Proof.
  induction ws as [|w ws IH]; intros self H; simpl; [exact H|].
  pose proof (iteration_tracking self w H) as Hi.
  destruct (iteration self w) as [[[| |e] self1] ev]; simpl in Hi;
    try exact Hi.
  specialize (IH self1 Hi).
  destruct (run self1 ws) as [[x self2] ev1]. exact IH.
Qed.

(** X13.  At every point of every run started by [__init__], between two
    ticks: either nothing has been tracked yet and there is no session,
    or the identity last seen is an activity, a session with a (non-null)
    category is open, and the cache holds that category for the identity's
    subject.  So once a session has been opened there is always one. *)
Theorem X13_tracker_invariant dm re ai now ws :
  let self' := (run (init dm re ai now) ws).1.2 in
  match last_app_data self' with
  | None => current_session_app_name self' = None
  | Some d =>
      truthy (Some d) = true
      /\ session_open self' = true
      /\ exists c,
           current_session_category self' = Some c
           /\ AIAgent.category_cache (ai_agent self')
                !! (_get_app_info d).1 = Some c
  end.
Proof.
  apply (run_tracking ws (init dm re ai now)). reflexivity.
Qed.

End TrackerInvariant.

Section SameIdentity.

Import BilgeApp Spec Examples.

(** A tick on the identity being tracked reduces to step 3. *)
Lemma track_tracked_identity self w d :
  tracking self ->
  last_app_data self = Some d ->
  track self w d = nudge self w.
Proof.
  intros H Hl.
  unfold tracking in H. rewrite Hl in H.
  destruct H as (_ & _ & c & Hc & Hcache).
  unfold track. destruct (_get_app_info d) as [subject label].
  simpl in Hcache.
  rewrite (categorize_app_hit (ai_agent self) (query_llm_category w)
             (save_cache w) (Str subject) c Hcache).
  unfold switch, boundary. simpl. rewrite Hl, Hc.
  rewrite !bool_decide_eq_false_2 by (intros Hn; apply Hn; reflexivity).
  simpl.
  replace (with_ai_agent self (ai_agent self)) with self
    by (destruct self; reflexivity).
  destruct (nudge self w) as [[r self2] ev2]. reflexivity.
Qed.

(** X14.  A tick that sees again the identity being tracked does step 3
    and nothing else: the category comes from the cache (the model is not
    asked to classify, whatever it would answer, and no file is written),
    no session is ended or started, and the log and the cache stay as
    they are.  So the category of a tracked identity cannot change while
    the identity stays in front. *)
Theorem X14_same_identity_no_boundary self w d :
  tracking self ->
  last_app_data self = Some d ->
  track self w d = nudge self w
  /\ (let '(r, self', ev) := track self w d in
      session_events ev = []
      /\ data_manager self' = data_manager self
      /\ ai_agent self' = ai_agent self
      /\ current_session_start_time self' = current_session_start_time self
      /\ current_session_category self' = current_session_category self
      /\ last_app_data self' = Some d).
Proof.
  intros H Hl.
  pose proof (track_tracked_identity self w d H Hl) as E.
  split; [exact E|]. rewrite E.
  pose proof (nudge_frame self w) as F.
  destruct (nudge self w) as [[r self'] ev]. simpl in F.
  destruct F as (Hd & Ha & Hs & Hc & _ & Hl' & He).
  rewrite Hl'. repeat split; assumption.
Qed.

(** X14 at "Code" seen again, with a model that would now say Gaming. *)
Lemma X14_same_identity_no_boundary_witness :
  track coding (calm (Str "Code") "Gaming" 5) (Str "Code")
  = nudge coding (calm (Str "Code") "Gaming" 5)
  /\ (let '(r, self', ev) :=
        track coding (calm (Str "Code") "Gaming" 5) (Str "Code") in
      session_events ev = []
      /\ data_manager self' = data_manager coding
      /\ ai_agent self' = ai_agent coding
      /\ current_session_start_time self' = current_session_start_time coding
      /\ current_session_category self' = current_session_category coding
      /\ last_app_data self' = Some (Str "Code")).
Proof.
  apply (X14_same_identity_no_boundary coding
           (calm (Str "Code") "Gaming" 5) (Str "Code")).
  - repeat split; try reflexivity. exists "Work". split; reflexivity.
  - reflexivity.
Defined.

(** X15.  When the write of the log fails at a boundary, the exception
    ends the tick: the record of the session is in the log in memory, the
    file is as the failed write left it, no session is started, and the
    session is still the open one, with its start time.  So the next tick
    that sees the same activity meets the boundary again: when its write
    returns, a second record of the same session, with the later end
    time, follows the first in the log and in the file, and only then is
    the new session started. *)
Theorem X15_failed_log_write_keeps_session_open
    self w w2 d c ai ev1 e p :
  get_active_window w = Ret (Some d) ->
  truthy (Some d) = true ->
  AIAgent.categorize_app (ai_agent self) (query_llm_category w)
    (save_cache w) (Str (_get_app_info d).1) = (Ret c, ai, ev1) ->
  Some d <> last_app_data self
  \/ Some c <> current_session_category self ->
  session_open self = true ->
  save_data w = Fails e p ->
  get_active_window w2 = Ret (Some d) ->
  save_data w2 = Written ->
  let '(r, self1, ev) := body self w in
  let '(r2, self2, ev2) := body self1 w2 in
  r = Raise e
  /\ DataManager.data (data_manager self1)
     = (DataManager.data (data_manager self)
        ++ closing_entries self (now_end w))%list
  /\ length (closing_entries self (now_end w)) = 1%nat
  /\ DataManager.file (data_manager self1)
     = match p with
       | Untouched => DataManager.file (data_manager self)
       | Truncated => []
       | Complete => DataManager.data (data_manager self1)
       end
  /\ current_session_start_time self1 = current_session_start_time self
  /\ current_session_category self1 = current_session_category self
  /\ current_session_app_name self1 = current_session_app_name self
  /\ last_app_data self1 = last_app_data self
  /\ sessions_started ev = 0%nat
  /\ DataManager.data (data_manager self2)
     = (DataManager.data (data_manager self)
        ++ closing_entries self (now_end w)
        ++ closing_entries self (now_end w2))%list
  /\ length (closing_entries self (now_end w2)) = 1%nat
  /\ DataManager.file (data_manager self2)
     = DataManager.data (data_manager self2)
  /\ current_session_start_time self2 = now_start w2
  /\ current_session_app_name self2 = Some (_get_app_info d).2
  /\ last_app_data self2 = Some d
  /\ sessions_started ev2 = 1%nat.
Proof.
  intros Hobs Ht Hcat Hdiff Hopen Hdisk Hobs2 Hdisk2.
  assert (Hq : quiet ev1).
  { pose proof (categorize_app_quiet (ai_agent self) (query_llm_category w)
                  (save_cache w) (Str (_get_app_info d).1)) as Hq.
    rewrite Hcat in Hq. exact Hq. }
  pose proof (categorize_app_returns _ _ _ _ _ _ _ Hcat) as Hkey.
  assert (Hb : boundary (with_ai_agent self ai) d c = true)
    by (apply boundary_spec; exact Hdiff).
  assert (Hlen : forall t, length (closing_entries self t) = 1%nat).
  { intros t. unfold closing_entries. unfold session_open in Hopen.
    destruct (current_session_app_name self); [|discriminate].
    rewrite Hopen. reflexivity. }
  (* the first tick *)
  assert (H1 : exists dm,
    body self w
    = (Raise e,
       with_data_manager (with_ai_agent self ai) dm,
       (ev1 ++ Print (SessionEnded
                        (default EmptyString (current_session_app_name self))
                        (current_session_category self))
        :: [WriteLogFile])%list)
    /\ DataManager.data dm
       = (DataManager.data (data_manager self)
          ++ closing_entries self (now_end w))%list
    /\ DataManager.file dm
       = match p with
         | Untouched => DataManager.file (data_manager self)
         | Truncated => []
         | Complete => DataManager.data dm
         end).
  { unfold body. rewrite Hobs, Ht. unfold track.
    destruct (_get_app_info d) as [subject label]. simpl in Hcat.
    rewrite Hcat. unfold switch. rewrite Hb.
    unfold end_session, closing_entries. simpl.
    unfold session_open in Hopen.
    destruct (current_session_app_name self) as [name|]; [|discriminate].
    rewrite Hopen, Hdisk. unfold DataManager.save_session.
    destruct p; simpl; eexists; (split; [reflexivity|]); split; reflexivity. }
  destruct H1 as (dm & -> & Hdata & Hfile).
  set (self1 := with_data_manager (with_ai_agent self ai) dm).
  (* the second tick *)
  assert (Hb2 : boundary self1 d c = true)
    by (apply boundary_spec; exact Hdiff).
  assert (H2 : exists r2 self2 ev3,
    body self1 w2 = (r2, self2, ev3)
    /\ data_manager self2
       = DataManager.mk
           (DataManager.data dm ++ closing_entries self (now_end w2))
           (DataManager.data dm ++ closing_entries self (now_end w2))
    /\ current_session_start_time self2 = now_start w2
    /\ current_session_app_name self2 = Some (_get_app_info d).2
    /\ last_app_data self2 = Some d
    /\ sessions_started ev3 = 1%nat).
  { unfold body. rewrite Hobs2, Ht. unfold track.
    destruct (_get_app_info d) as [subject label]. simpl in Hkey.
    rewrite (categorize_app_hit (ai_agent self1) (query_llm_category w2)
               (save_cache w2) (Str subject) c Hkey).
    replace (with_ai_agent self1 (ai_agent self1)) with self1
      by reflexivity.
    unfold switch. rewrite Hb2.
    unfold end_session, closing_entries. simpl.
    unfold session_open in Hopen.
    destruct (current_session_app_name self) as [name|]; [|discriminate].
    rewrite Hopen, Hdisk2. unfold DataManager.save_session. simpl.
    match goal with
    | |- context [nudge ?s w2] =>
        pose proof (nudge_frame s w2) as Hn; destruct (nudge s w2)
          as [[r3 self3] ev4]
    end.
    simpl in Hn. destruct Hn as (Hdm & _ & Hst & _ & Hname & Hlast & Hev).
    apply sessions_started_none in Hev. unfold sessions_started in *.
    destruct r3 as [[]|e3]; simpl; eexists _, _, _;
      (split; [reflexivity|]);
      rewrite Hdm, Hst, Hname, Hlast;
      repeat split;
      cbn [List.filter is_session_started length];
      rewrite ?List.filter_app, ?length_app, ?Hev; reflexivity. }
  destruct H2 as (r2 & self2 & ev3 & -> & Hdm2 & Hst2 & Hname2 & Hlast2 & Hn2).
  split; [reflexivity|]. split; [exact Hdata|]. split; [apply Hlen|].
  split; [exact Hfile|].
  repeat (split; [reflexivity|]).
  split.
  { rewrite !sessions_started_app.
    rewrite (sessions_started_none ev1 (quiet_session_events _ Hq)).
    reflexivity. }
  rewrite Hdm2. simpl. rewrite Hdata, <- app_assoc.
  repeat split; auto.
Qed.

(** X15 at a full disk when "Safari" replaces "Code": the session on
    "Code" is logged twice, once ending at 31 s and once ending at
    32 s. *)
Lemma X15_failed_log_write_keeps_session_open_witness :
  let self := coding in
  let w := disk_full (Str "Safari") "Browsing" 31 in
  let w2 := calm (Str "Safari") "Browsing" 32 in
  let '(r, self1, ev) := body self w in
  let '(r2, self2, ev2) := body self1 w2 in
  r = Raise OSError
  /\ DataManager.data (data_manager self1)
     = (DataManager.data (data_manager self)
        ++ closing_entries self (now_end w))%list
  /\ length (closing_entries self (now_end w)) = 1%nat
  /\ DataManager.file (data_manager self1) = []
  /\ current_session_start_time self1 = current_session_start_time self
  /\ current_session_category self1 = current_session_category self
  /\ current_session_app_name self1 = current_session_app_name self
  /\ last_app_data self1 = last_app_data self
  /\ sessions_started ev = 0%nat
  /\ DataManager.data (data_manager self2)
     = (DataManager.data (data_manager self)
        ++ closing_entries self (now_end w)
        ++ closing_entries self (now_end w2))%list
  /\ length (closing_entries self (now_end w2)) = 1%nat
  /\ DataManager.file (data_manager self2)
     = DataManager.data (data_manager self2)
  /\ current_session_start_time self2 = now_start w2
  /\ current_session_app_name self2 = Some "Safari"
  /\ last_app_data self2 = Some (Str "Safari")
  /\ sessions_started ev2 = 1%nat.
Proof.
  apply (X15_failed_log_write_keeps_session_open coding
           (disk_full (Str "Safari") "Browsing" 31)
           (calm (Str "Safari") "Browsing" 32) (Str "Safari")
           "Browsing"
           (AIAgent.categorize_app (ai_agent coding) (Ret "Browsing")
              Written (Str "Safari")).1.2
           (AIAgent.categorize_app (ai_agent coding) (Ret "Browsing")
              Written (Str "Safari")).2 OSError Truncated);
    try reflexivity.
  left. discriminate.
Defined.

(** The two records of that run, as the file holds them after the second
    tick. *)
Example session_logged_twice_after_failed_write :
  let '(x, self', ev) :=
    run coding [disk_full (Str "Safari") "Browsing" 31;
                calm (Str "Safari") "Browsing" 32] in
  DataManager.file (data_manager self')
  = [DataManager.mk_entry "2025-08-20T10:00:00" "2025-08-20T10:00:31"
       "Code" (Some "Work") (31000000 # 1000000);
     DataManager.mk_entry "2025-08-20T10:00:00" "2025-08-20T10:00:32"
       "Code" (Some "Work") (32000000 # 1000000)].
Proof. vm_compute. reflexivity. Qed.

End SameIdentity.

(** ** run.py: the log and the cache over a whole run *)

Section WholeRun.

Import BilgeApp Spec Examples.

Lemma log_writes_app a b :
  log_writes (a ++ b) = (log_writes a + log_writes b)%nat.
Proof. unfold log_writes. rewrite List.filter_app, length_app. reflexivity. Qed.

Lemma log_writes_none ev :
  Forall (fun e => is_log_write e = false) ev -> log_writes ev = 0%nat.
Proof.
  induction 1 as [|e ev He _ IH]; [reflexivity|].
  unfold log_writes in *. simpl. rewrite He. exact IH.
Qed.

Lemma categorize_app_no_log_write a llm disk d :
  log_writes (AIAgent.categorize_app a llm disk d).2 = 0%nat.
Proof.
  unfold AIAgent.categorize_app.
  destruct (AIAgent.category_cache a !! AIAgent.cache_key d);
    [reflexivity|].
  destruct llm as [x|e]; [|destruct (is_Exception e)];
    destruct disk as [|e' []]; reflexivity.
Qed.

Lemma load_rules_no_log_write re f :
  log_writes (RulesEngine.load_rules re f).2 = 0%nat.
Proof.
  destruct f as [|m c]; simpl; [reflexivity|].
  destruct (py_gt m (RulesEngine.last_modified_time re)); destruct c;
    reflexivity.
Qed.

Lemma nudge_no_log_write self w : log_writes (nudge self w).2 = 0%nat.
Proof.
  unfold nudge.
  destruct (nudged_for_session self); simpl; [reflexivity|].
  pose proof (evaluate_events (rules_engine self) (rules_config w)
                (time_time w) (current_session_category self)
                (datetime.total_seconds
                   (datetime.sub (now_duration w)
                      (current_session_start_time self)))) as Hev.
  pose proof (load_rules_no_log_write (rules_engine self) (rules_config w))
    as Hq.
  rewrite <- Hev in Hq. clear Hev.
  destruct (evaluate _ _ _ _ _) as [[[[[[rn c] n]|]|e] re] ev];
    simpl in *; try exact Hq.
  unfold AIAgent.generate_nudge, Notifier.send_notification.
  destruct (query_llm_nudge w) as [x|e]; [|destruct (is_Exception e)];
    try (destruct (plyer_notify w) as [[]|e']; [|destruct (is_Exception e')]);
    simpl; rewrite !log_writes_app, Hq; reflexivity.
Qed.

(** Closing a session appends its record and attempts one write. *)
Lemma end_session_log self t disk announce :
  let '(r, self', ev) := end_session self t disk announce in
  DataManager.data (data_manager self')
  = (DataManager.data (data_manager self) ++ closing_entries self t)%list
  /\ length (closing_entries self t) = log_writes ev.
Proof.
  unfold end_session, closing_entries.
  destruct (current_session_app_name self) as [name|];
    [destruct (str_truthy name)|]; simpl; rewrite ?app_nil_r; auto.
  destruct disk as [|e []]; destruct announce; simpl; auto.
Qed.

Lemma log_grows_refl self : log_grows self self [].
Proof. exists []. rewrite app_nil_r. auto. Qed.

Lemma log_grows_trans s1 s2 s3 a b :
  log_grows s1 s2 a -> log_grows s2 s3 b -> log_grows s1 s3 (a ++ b).
Proof.
  intros (x & Hx & Lx) (y & Hy & Ly). exists (x ++ y)%list.
  rewrite Hy, Hx, <- app_assoc, length_app, log_writes_app, Lx, Ly. auto.
Qed.

Lemma log_grows_same self self' ev :
  data_manager self' = data_manager self -> log_writes ev = 0%nat ->
  log_grows self self' ev.
Proof.
  intros Hd He. exists []. rewrite Hd, He, app_nil_r. auto.
Qed.

Lemma end_session_log_grows self t disk announce :
  log_grows self (end_session self t disk announce).1.2
    (end_session self t disk announce).2.
Proof.
  pose proof (end_session_log self t disk announce) as H.
  destruct (end_session self t disk announce) as [[r self'] ev].
  destruct H as [Hd Hl]. exists (closing_entries self t). auto.
Qed.

Lemma track_log_grows self w d :
  log_grows self (track self w d).1.2 (track self w d).2.
Proof.
  unfold track. destruct (_get_app_info d) as [subject label].
  pose proof (categorize_app_no_log_write (ai_agent self)
                (query_llm_category w) (save_cache w) (Str subject)) as Hc.
  destruct (AIAgent.categorize_app (ai_agent self) (query_llm_category w)
              (save_cache w) (Str subject)) as [[[c|e] ai] ev1];
    simpl in Hc.
  2: { apply log_grows_same; [reflexivity | exact Hc]. }
  assert (H0 : log_grows self (with_ai_agent self ai) ev1)
    by (apply log_grows_same; [reflexivity | exact Hc]).
  unfold switch.
  destruct (boundary (with_ai_agent self ai) d c).
  - pose proof (end_session_log_grows (with_ai_agent self ai) (now_end w)
                  (save_data w) true) as He.
    destruct (end_session (with_ai_agent self ai) (now_end w)
                (save_data w) true) as [[[[]|e] self1] ev2]; simpl in He.
    + match goal with
      | |- context [nudge ?s w] =>
          pose proof (nudge_frame s w) as Hn;
            pose proof (nudge_no_log_write s w) as Hw;
            destruct (nudge s w) as [[r2 self2] ev3]
      end.
      simpl in Hn, Hw. destruct Hn as (Hdm & _). simpl.
      eapply log_grows_trans; [exact H0|].
      eapply log_grows_trans; [|apply log_grows_same; [exact Hdm|exact Hw]].
      destruct He as (added & Hd & Hl). exists added. split; [exact Hd|].
      rewrite log_writes_app, Hl. unfold log_writes. simpl. lia.
    + simpl. eapply log_grows_trans; [exact H0 | exact He].
  - pose proof (nudge_frame (with_ai_agent self ai) w) as Hn.
    pose proof (nudge_no_log_write (with_ai_agent self ai) w) as Hw.
    destruct (nudge (with_ai_agent self ai) w) as [[r2 self2] ev3].
    simpl in Hn, Hw. destruct Hn as (Hdm & _). simpl.
    eapply log_grows_trans; [exact H0|].
    apply log_grows_same; [exact Hdm | exact Hw].
Qed.

Lemma body_log_grows self w :
  log_grows self (body self w).1.2 (body self w).2.
Proof.
  unfold body, sleep.
  destruct (get_active_window w) as [[d|]|e]; [| |apply log_grows_refl].
  - destruct (truthy (Some d)).
    + pose proof (track_log_grows self w d) as H.
      destruct (track self w d) as [[[[]|e] self1] ev]; simpl in *;
        [|exact H].
      rewrite <- (app_nil_r ev) in H.
      destruct H as (added & Hd & Hl). exists added. split; [exact Hd|].
      destruct (sleep_1 w); simpl;
        rewrite log_writes_app in *; unfold log_writes in *; simpl in *; lia.
    + destruct (sleep_1 w); apply log_grows_same; reflexivity.
  - destruct (sleep_1 w); apply log_grows_same; reflexivity.
Qed.

Lemma iteration_log_grows self w :
  log_grows self (iteration self w).1.2 (iteration self w).2.
Proof.
  unfold iteration, sleep.
  pose proof (body_log_grows self w) as Hb.
  destruct (body self w) as [[[[]|e] self1] ev]; simpl in Hb; [exact Hb|].
  assert (Herr : forall (s : status) e0,
    log_grows self (s, self1, (ev ++ [Print (AnErrorOccurred e0); Sleep 5])%list).1.2
      (s, self1, (ev ++ [Print (AnErrorOccurred e0); Sleep 5])%list).2).
  { intros s e0. simpl. rewrite <- (app_nil_r ev) in Hb at 1.
    destruct Hb as (added & Hd & Hl). exists added. split; [exact Hd|].
    rewrite log_writes_app in *. unfold log_writes in *. simpl in *. lia. }
  destruct e; try (destruct (sleep_5 w) as [[]|e']; apply Herr).
  pose proof (end_session_log_grows self1 (now_exit w) (save_data_exit w)
                false) as He.
  destruct (end_session self1 (now_exit w) (save_data_exit w) false)
    as [[[[]|e] self2] ev1]; simpl in *;
    (eapply log_grows_trans; [exact Hb|]);
    destruct He as (added & Hd & Hl); exists added; (split; [exact Hd|]);
    unfold log_writes in *; simpl; exact Hl.
Qed.

(** X16.  Over any run the log in memory only grows: the records it held
    stay at the front, unchanged, and exactly one record is appended for
    each write of the log file the run makes (or attempts). *)
Theorem X16_log_grows_by_one_per_write self ws :
  let '(x, self', ev) := run self ws in
  exists added,
    DataManager.data (data_manager self')
    = (DataManager.data (data_manager self) ++ added)%list
    /\ length added = log_writes ev.
Proof.
  revert self. induction ws as [|w ws IH]; intros self; simpl.
  - exists []. rewrite app_nil_r. auto.
  - pose proof (iteration_log_grows self w) as Hi.
    destruct (iteration self w) as [[[| |e] self1] ev]; simpl in Hi;
      try exact Hi.
    specialize (IH self1). destruct (run self1 ws) as [[x self2] ev1].
    exact (log_grows_trans _ _ _ _ _ Hi IH).
Qed.

End WholeRun.

Section CacheOverRun.

Import BilgeApp Spec Examples.

(** Only the classification of step 1 touches the agent. *)
Lemma track_ai_agent self w d :
  ai_agent (track self w d).1.2
  = (AIAgent.categorize_app (ai_agent self) (query_llm_category w)
       (save_cache w) (Str (_get_app_info d).1)).1.2.
Proof.
  unfold track. destruct (_get_app_info d) as [subject label]. simpl.
  destruct (AIAgent.categorize_app (ai_agent self) (query_llm_category w)
              (save_cache w) (Str subject)) as [[[c|e] ai] ev1];
    [|reflexivity].
  pose proof (switch_ai_agent (with_ai_agent self ai) w d c label) as Hs.
  destruct (switch (with_ai_agent self ai) w d c label)
    as [[[[]|e] self1] ev2]; simpl in Hs; [|exact Hs].
  pose proof (nudge_frame self1 w) as Hn.
  destruct (nudge self1 w) as [[r2 self2] ev3]. simpl in Hn.
  destruct Hn as (_ & Hai & _). simpl. rewrite Hai. exact Hs.
Qed.

Lemma body_keeps_cache self w k v :
  AIAgent.category_cache (ai_agent self) !! k = Some v ->
  AIAgent.category_cache (ai_agent (body self w).1.2) !! k = Some v.
Proof.
  intros H. unfold body, sleep.
  destruct (get_active_window w) as [[d|]|e]; [| |exact H].
  - destruct (truthy (Some d)).
    + pose proof (track_ai_agent self w d) as Ht.
      pose proof (categorize_app_keeps (ai_agent self) (query_llm_category w)
                    (save_cache w) (Str (_get_app_info d).1) k v H) as Hk.
      rewrite <- Ht in Hk.
      destruct (track self w d) as [[[[]|e] self1] ev]; exact Hk.
    + destruct (sleep_1 w); exact H.
  - destruct (sleep_1 w); exact H.
Qed.

Lemma iteration_keeps_cache self w k v :
  AIAgent.category_cache (ai_agent self) !! k = Some v ->
  AIAgent.category_cache (ai_agent (iteration self w).1.2) !! k = Some v.
Proof.
  intros H. unfold iteration, sleep.
  pose proof (body_keeps_cache self w k v H) as Hb.
  destruct (body self w) as [[[[]|e] self1] ev]; simpl in Hb; [exact Hb|].
  destruct e; try (destruct (sleep_5 w) as [[]|e']; exact Hb).
  pose proof (end_session_spec self1 (now_exit w) (save_data_exit w) false)
    as He.
  destruct (end_session self1 (now_exit w) (save_data_exit w) false)
    as [[[[]|e] self2] ev1]; destruct He as (_ & _ & Hai & _);
    simpl; rewrite Hai; exact Hb.
Qed.

(** X17.  Over any run an entry of the classification cache is never
    removed and never changed: once a key has a category, it has that
    category until the process ends. *)
Theorem X17_cache_entries_are_permanent self ws k :
  match AIAgent.category_cache (ai_agent self) !! k with
  | Some v =>
      AIAgent.category_cache (ai_agent (run self ws).1.2) !! k = Some v
  | None => True
  end.
Proof.
  destruct (AIAgent.category_cache (ai_agent self) !! k) as [v|] eqn:E;
    [|exact I].
  revert self E. induction ws as [|w ws IH]; intros self E; simpl;
    [exact E|].
  pose proof (iteration_keeps_cache self w k v E) as Hi.
  destruct (iteration self w) as [[[| |e] self1] ev]; simpl in Hi;
    try exact Hi.
  specialize (IH self1 Hi). destruct (run self1 ws) as [[x self2] ev1].
  exact IH.
Qed.

End CacheOverRun.

Section NeverStops.

Import BilgeApp Spec Examples.

Lemma not_interrupted_Exception {A} (e : exn) :
  interrupted (@Raise A e) = false -> is_Exception e = true.
Proof. destruct e; [discriminate|reflexivity..]. Qed.

Lemma categorize_app_not_interrupted a llm disk d :
  interrupted llm = false -> interrupted (raised disk) = false ->
  interrupted (AIAgent.categorize_app a llm disk d).1.1 = false.
Proof.
  intros Hl Hd. unfold AIAgent.categorize_app.
  destruct (AIAgent.category_cache a !! AIAgent.cache_key d);
    [reflexivity|].
  destruct llm as [x|e].
  - destruct disk as [|e' []]; solve [reflexivity | exact Hd].
  - rewrite (not_interrupted_Exception e Hl).
    destruct disk as [|e' []]; solve [reflexivity | exact Hd].
Qed.

Lemma end_session_not_interrupted self t disk announce :
  interrupted (raised disk) = false ->
  interrupted (end_session self t disk announce).1.1 = false.
Proof.
  intros Hd. unfold end_session.
  destruct (current_session_app_name self) as [name|]; [|reflexivity].
  destruct (str_truthy name); [|reflexivity].
  destruct disk as [|e []]; solve [reflexivity | exact Hd].
Qed.

Lemma evaluate_not_interrupted re f time_time category duration :
  interrupted (rules_read f) = false ->
  interrupted (evaluate re f time_time category duration).1.1 = false.
Proof.
  intros Hf.
  unfold evaluate, RulesEngine.evaluate_current_session.
  pose proof (load_rules_result re f) as R.
  destruct (RulesEngine.load_rules re f) as [[[rs|e] re1] ev];
    simpl in R.
  - destruct category as [c|]; [|reflexivity].
    destruct (RulesEngine.scan time_time 0 c duration
                (RulesEngine.last_nudged_time re1) rs). reflexivity.
  - assert (He : interrupted (@Raise unit e) = false).
    { destruct f as [|m [| |e'|rs]]; try discriminate R.
      injection R as ->. exact Hf. }
    destruct category; exact He.
Qed.

Lemma nudge_not_interrupted self w :
  interrupted (rules_read (rules_config w)) = false ->
  interrupted (query_llm_nudge w) = false ->
  interrupted (plyer_notify w) = false ->
  interrupted (nudge self w).1.1 = false.
Proof.
  intros Hf Hl Hp. unfold nudge.
  destruct (nudged_for_session self); [reflexivity|]. simpl.
  pose proof (evaluate_not_interrupted (rules_engine self) (rules_config w)
                (time_time w) (current_session_category self)
                (datetime.total_seconds
                   (datetime.sub (now_duration w)
                      (current_session_start_time self))) Hf) as He.
  destruct (evaluate _ _ _ _ _) as [[[[[[rn c] n]|]|e] re] ev];
    simpl in *; try reflexivity; try exact He.
  unfold AIAgent.generate_nudge, Notifier.send_notification.
  destruct (query_llm_nudge w) as [x|e];
    [|rewrite (not_interrupted_Exception e Hl)];
    (destruct (plyer_notify w) as [[]|e'];
     [|rewrite (not_interrupted_Exception e' Hp)]); reflexivity.
Qed.

Lemma body_not_interrupted self w :
  uninterrupted w -> interrupted (body self w).1.1 = false.
Proof.
  intros (Hm & Hl & Hc & Hd & Hf & Hn & Hp & Hs & _). unfold body, sleep.
  destruct (get_active_window w) as [[d|]|e]; [| |exact Hm].
  2: { destruct (sleep_1 w); exact Hs. }
  destruct (truthy (Some d)); [|destruct (sleep_1 w); exact Hs].
  assert (Ht : interrupted (track self w d).1.1 = false).
  { unfold track. destruct (_get_app_info d) as [subject label].
    pose proof (categorize_app_not_interrupted (ai_agent self)
                  (query_llm_category w) (save_cache w) (Str subject) Hl Hc)
      as H1.
    destruct (AIAgent.categorize_app (ai_agent self) (query_llm_category w)
                (save_cache w) (Str subject)) as [[[c|e] ai] ev1];
      [|exact H1].
    unfold switch.
    destruct (boundary (with_ai_agent self ai) d c).
    - pose proof (end_session_not_interrupted (with_ai_agent self ai)
                    (now_end w) (save_data w) true Hd) as H2.
      destruct (end_session (with_ai_agent self ai) (now_end w)
                  (save_data w) true) as [[[[]|e] self1] ev2]; [|exact H2].
      match goal with
      | |- context [nudge ?s w] =>
          pose proof (nudge_not_interrupted s w Hf Hn Hp) as H3;
            destruct (nudge s w) as [[r2 self2] ev3]
      end.
      exact H3.
    - pose proof (nudge_not_interrupted (with_ai_agent self ai) w Hf Hn Hp)
        as H3.
      destruct (nudge (with_ai_agent self ai) w) as [[r2 self2] ev3].
      exact H3. }
  destruct (track self w d) as [[[[]|e] self1] ev]; [|exact Ht].
  destruct (sleep_1 w); exact Hs.
Qed.

(** X18.  Nothing but an interrupt ends the loop: when no call is
    interrupted, whatever else fails (the monitor, the model, the cache
    file, the log file, the rules file, the notification), every
    iteration ends by going on to the next one. *)
Theorem X18_only_an_interrupt_ends_the_loop self ws :
  Forall uninterrupted ws -> (run self ws).1.1 = Running.
Proof.
  intros H. revert self. induction H as [|w ws Hw _ IH]; intros self;
    [reflexivity|].
  simpl. unfold iteration, sleep.
  pose proof (body_not_interrupted self w Hw) as Hb.
  destruct Hw as (_ & _ & _ & _ & _ & _ & _ & _ & H5).
  destruct (body self w) as [[[[]|e] self1] ev].
  - specialize (IH self1). destruct (run self1 ws) as [[x self2] ev1].
    exact IH.
  - rewrite H5. destruct e; try discriminate Hb;
      specialize (IH self1); destruct (run self1 ws) as [[x self2] ev1];
      exact IH.
Qed.

(** X18 at a run in which the rules are evaluated and the disk then
    fails. *)
Lemma X18_only_an_interrupt_ends_the_loop_witness :
  (run fresh [calm (Str "Code") "Work" 0;
              disk_full (Str "Safari") "Browsing" 31]).1.1 = Running.
Proof.
  apply (X18_only_an_interrupt_ends_the_loop fresh
           [calm (Str "Code") "Work" 0;
            disk_full (Str "Safari") "Browsing" 31]).
  repeat constructor.
Defined.

(** [interrupt_in_try_saves_session] at Ctrl-C during the sleep that ends
    a tick on "Code". *)
Lemma interrupt_in_try_saves_session_witness :
  exists self2 ev,
    run coding [ctrl_c_asleep (Str "Code") "Work" 5]
    = (ExitSuccess, self2, ev)
    /\ DataManager.data (data_manager self2)
       = (DataManager.data
            (data_manager
               (body coding (ctrl_c_asleep (Str "Code") "Work" 5)).1.2)
          ++ closing_entries
               (body coding (ctrl_c_asleep (Str "Code") "Work" 5)).1.2
               (now_exit (ctrl_c_asleep (Str "Code") "Work" 5)))%list
    /\ (session_open
          (body coding (ctrl_c_asleep (Str "Code") "Work" 5)).1.2 = true ->
        DataManager.file (data_manager self2)
        = DataManager.data (data_manager self2)).
Proof.
  apply (interrupt_in_try_saves_session coding
           (ctrl_c_asleep (Str "Code") "Work" 5) []
           (body coding (ctrl_c_asleep (Str "Code") "Work" 5)).1.2
           (body coding (ctrl_c_asleep (Str "Code") "Work" 5)).2);
    reflexivity.
Defined.

End NeverStops.

(** ** monitor.py and run.py: an identity that never changes *)

Section OneIdentity.

Import BilgeApp Spec Examples.

(** A tick either leaves the identity last seen and starts no session, or
    starts one session on the identity it saw. *)
Lemma track_starts self w d :
  (last_app_data (track self w d).1.2 = last_app_data self
   /\ sessions_started (track self w d).2 = 0%nat)
  \/ (last_app_data (track self w d).1.2 = Some d
      /\ sessions_started (track self w d).2
         = S (sessions_started (closing_events self))).
Proof.
  unfold track. destruct (_get_app_info d) as [subject label].
  pose proof (categorize_app_quiet (ai_agent self) (query_llm_category w)
                (save_cache w) (Str subject)) as Hq.
  apply quiet_session_events, sessions_started_none in Hq.
  destruct (AIAgent.categorize_app (ai_agent self) (query_llm_category w)
              (save_cache w) (Str subject)) as [[[c|e] ai] ev1];
    simpl in Hq; [|left; auto].
  unfold switch.
  destruct (boundary (with_ai_agent self ai) d c).
  - pose proof (end_session_spec (with_ai_agent self ai) (now_end w)
                  (save_data w) true) as He.
    destruct (end_session (with_ai_agent self ai) (now_end w)
                (save_data w) true) as [[[[]|e] self1] ev2];
      destruct He as (_ & _ & _ & _ & _ & _ & Hl & _ & Hev & _).
    + match goal with
      | |- context [nudge ?s w] =>
          pose proof (nudge_frame s w) as Hn;
            destruct (nudge s w) as [[r2 self2] ev3]
      end.
      simpl in Hn. destruct Hn as (_ & _ & _ & _ & _ & Hl2 & Hev3).
      apply sessions_started_none in Hev3.
      right. cbn [fst snd]. split; [exact Hl2|].
      rewrite !sessions_started_app, Hq, Hev3.
      assert (Hc : sessions_started ev2 = sessions_started (closing_events self)).
      { rewrite <- sessions_started_session_events, Hev. reflexivity. }
      rewrite Hc. unfold sessions_started at 2. simpl. lia.
    + left. cbn [fst snd]. split; [exact Hl|].
      rewrite sessions_started_app, Hq. cbn [Nat.add].
      assert (Hc : sessions_started ev2 = 0%nat).
      { change (closing_events (with_ai_agent self ai))
          with (closing_events self) in Hev.
        assert (Hcl : sessions_started (closing_events self) = 0%nat).
        { unfold closing_events.
          destruct (current_session_app_name self) as [name|];
            [destruct (str_truthy name)|]; reflexivity. }
        rewrite <- sessions_started_session_events, Hev. exact Hcl. }
      exact Hc.
  - pose proof (nudge_frame (with_ai_agent self ai) w) as Hn.
    destruct (nudge (with_ai_agent self ai) w) as [[r2 self2] ev3].
    simpl in Hn. destruct Hn as (_ & _ & _ & _ & _ & Hl2 & Hev3).
    apply sessions_started_none in Hev3.
    left. cbn [fst snd]. split; [exact Hl2|].
    rewrite !sessions_started_app, Hq, Hev3. reflexivity.
Qed.

End OneIdentity.

Section OneIdentityRun.

Import BilgeApp Spec Examples.

Lemma track_one_identity self w d :
  tracking self ->
  last_app_data self = None \/ last_app_data self = Some d ->
  (last_app_data (track self w d).1.2 = None
   \/ last_app_data (track self w d).1.2 = Some d)
  /\ (sessions_started (track self w d).2 + pending (track self w d).1.2
      <= pending self)%nat.
Proof.
  intros H [Hl|Hl].
  - destruct (track_starts self w d) as [[Hs He] | [Hs He]].
    + unfold pending. rewrite Hs, He, Hl. auto.
    + unfold pending. rewrite Hs, He, Hl.
      unfold tracking in H. rewrite Hl in H.
      unfold closing_events. rewrite H. simpl. auto.
  - rewrite (track_tracked_identity self w d H Hl).
    pose proof (nudge_frame self w) as F. simpl in F.
    destruct F as (_ & _ & _ & _ & _ & Hl' & He).
    apply sessions_started_none in He.
    unfold pending. rewrite Hl', He, Hl. auto.
Qed.

Lemma body_one_identity self w d :
  tracking self ->
  last_app_data self = None \/ last_app_data self = Some d ->
  sees_only d w ->
  (last_app_data (body self w).1.2 = None
   \/ last_app_data (body self w).1.2 = Some d)
  /\ (sessions_started (body self w).2 + pending (body self w).1.2
      <= pending self)%nat.
Proof.
  intros H Hl Hsee. unfold sees_only in Hsee. unfold body, sleep.
  assert (Hidle : forall ev, sessions_started ev = 0%nat ->
    (last_app_data self = None \/ last_app_data self = Some d)
    /\ (sessions_started ev + pending self <= pending self)%nat).
  { intros ev ->. auto. }
  destruct (get_active_window w) as [[d'|]|e];
    [| destruct (sleep_1 w); apply Hidle; reflexivity
     | apply Hidle; reflexivity].
  destruct (truthy (Some d')) eqn:Ht;
    [|destruct (sleep_1 w); apply Hidle; reflexivity].
  rewrite (Hsee eq_refl).
  pose proof (track_one_identity self w d H Hl) as Hk.
  destruct (track self w d) as [[[[]|e] self1] ev]; cbn [fst snd] in *;
    [|exact Hk].
  destruct Hk as [Hk1 Hk2].
  destruct (sleep_1 w); cbn [fst snd]; (split; [exact Hk1|]);
    rewrite sessions_started_app; unfold sessions_started at 2; simpl; lia.
Qed.

Lemma iteration_one_identity self w d :
  tracking self ->
  last_app_data self = None \/ last_app_data self = Some d ->
  sees_only d w ->
  (last_app_data (iteration self w).1.2 = None
   \/ last_app_data (iteration self w).1.2 = Some d)
  /\ (sessions_started (iteration self w).2 + pending (iteration self w).1.2
      <= pending self)%nat.
Proof.
  intros H Hl Hsee.
  pose proof (body_one_identity self w d H Hl Hsee) as Hb.
  unfold iteration, sleep.
  destruct (body self w) as [[[[]|e] self1] ev]; cbn [fst snd] in *;
    [exact Hb|].
  destruct Hb as [Hb1 Hb2].
  assert (Herr : forall (s : status) e0,
    (last_app_data self1 = None \/ last_app_data self1 = Some d)
    /\ (sessions_started (ev ++ [Print (AnErrorOccurred e0); Sleep 5])
        + pending self1 <= pending self)%nat).
  { intros _ e0. split; [exact Hb1|].
    rewrite sessions_started_app. unfold sessions_started at 2. simpl. lia. }
  destruct e;
    try (destruct (sleep_5 w) as [[]|e']; cbn [fst snd];
         apply (Herr Continue)).
  pose proof (end_session_spec self1 (now_exit w) (save_data_exit w) false)
    as He.
  destruct (end_session self1 (now_exit w) (save_data_exit w) false)
    as [[[[]|e] self2] ev1];
    destruct He as (_ & _ & _ & _ & _ & _ & Hl2 & _ & Hev & _);
    cbn [fst snd]; unfold pending in *; rewrite Hl2;
    (split; [exact Hb1|]);
    rewrite sessions_started_app;
    change (Print Exiting :: ev1) with ([Print Exiting] ++ ev1)%list;
    rewrite sessions_started_app, (sessions_started_none ev1 Hev);
    unfold sessions_started at 2; simpl; lia.
Qed.

Lemma run_one_identity d ws : forall self,
  Forall (sees_only d) ws ->
  tracking self ->
  last_app_data self = None \/ last_app_data self = Some d ->
  (sessions_started (run self ws).2 <= pending self)%nat.
Proof.
  induction ws as [|w ws IH]; intros self Hws H Hl; simpl.
  - unfold sessions_started. simpl. lia.
  - inversion Hws as [|? ? Hw Hws']. subst.
    pose proof (iteration_one_identity self w d H Hl Hw) as Hi.
    pose proof (iteration_tracking self w H) as Ht.
    destruct (iteration self w) as [[[| |e] self1] ev]; cbn [fst snd] in *;
      try lia.
    destruct Hi as [Hi1 Hi2].
    specialize (IH self1 Hws' Ht Hi1).
    destruct (run self1 ws) as [[x self2] ev1]. cbn [fst snd] in *.
    rewrite sessions_started_app. lia.
Qed.

(** X19.  While the monitor returns one identity only (or nothing, or
    fails), at most one session is started, and none when that identity
    is already the one tracked: whatever the model answers, the rules say
    and the disk does, the session is not split. *)
Theorem X19_one_identity_one_session self d ws :
  tracking self ->
  last_app_data self = None \/ last_app_data self = Some d ->
  Forall (sees_only d) ws ->
  (sessions_started (run self ws).2
   <= match last_app_data self with None => 1 | Some _ => 0 end)%nat.
Proof.
  intros H Hl Hws. exact (run_one_identity d ws self Hws H Hl).
Qed.

(** X19 at three ticks on "Code" after start-up, the model changing its
    mind at the third. *)
Lemma X19_one_identity_one_session_witness :
  (sessions_started
     (run fresh [calm (Str "Code") "Work" 0; calm (Str "Code") "Work" 31;
                 calm (Str "Code") "Gaming" 32]).2
   <= match last_app_data fresh with None => 1 | Some _ => 0 end)%nat.
Proof.
  apply (X19_one_identity_one_session fresh (Str "Code")
           [calm (Str "Code") "Work" 0; calm (Str "Code") "Work" 31;
            calm (Str "Code") "Gaming" 32]).
  - reflexivity.
  - left. reflexivity.
  - repeat constructor.
Defined.

(** X20.  On Windows and on every platform other than macOS the monitor
    returns the same name at every tick, so a run of the application
    tracks one session from its first tick to its end. *)
Theorem X20_constant_monitor_one_session p dm re ai now ws :
  p <> Monitor.Darwin ->
  Forall (fun w => exists active_app chrome_output,
            get_active_window w
            = Ret (Monitor.get_active_window p active_app chrome_output))
         ws ->
  (sessions_started (run (init dm re ai now) ws).2 <= 1)%nat.
Proof.
  intros Hp Hws.
  assert (Hd : exists d, forall a o, Monitor.get_active_window p a o = Some d).
  { destruct p; [contradiction|eexists; reflexivity..]. }
  destruct Hd as [d Hd].
  apply (run_one_identity d ws (init dm re ai now)).
  - eapply Forall_impl; [exact Hws|]. simpl.
    intros w (a & o & Hw). unfold sees_only. rewrite Hw, Hd.
    intros _. reflexivity.
  - reflexivity.
  - left. reflexivity.
Qed.

(** X20 at two ticks on a platform without a monitor of its own. *)
Lemma X20_constant_monitor_one_session_witness :
  (sessions_started
     (run fresh [calm (Str "Generic App") "Other" 0;
                 calm (Str "Generic App") "Work" 1]).2 <= 1)%nat.
Proof.
  apply (X20_constant_monitor_one_session Monitor.Other
           (DataManager.mk [] [])
           (RulesEngine.mk ∅ 0 RulesEngine.DEFAULT_RULES)
           (AIAgent.init None) (at_10h 0 0)
           [calm (Str "Generic App") "Other" 0;
            calm (Str "Generic App") "Work" 1]).
  - discriminate.
  - repeat constructor; exists None, EmptyString; reflexivity.
Defined.

End OneIdentityRun.

(** ** run.py: when the model is down *)

Section ModelDown.

Import BilgeApp Spec Examples.

Lemma nudges_app a b : nudges (a ++ b) = (nudges a + nudges b)%nat.
Proof. unfold nudges. rewrite List.filter_app, length_app. reflexivity. Qed.

Lemma nudges_quiet ev : quiet ev -> nudges ev = 0%nat.
Proof.
  induction 1 as [|e ev [_ He] _ IH]; [reflexivity|].
  unfold nudges in *. simpl.
  destruct e as [m| | | | | |]; try exact IH; try discriminate He.
  destruct m; try exact IH; discriminate He.
Qed.

Lemma load_rules_no_nudge re f :
  nudges (RulesEngine.load_rules re f).2 = 0%nat.
Proof.
  destruct f as [|m c]; simpl; [reflexivity|].
  destruct (py_gt m (RulesEngine.last_modified_time re)); destruct c;
    reflexivity.
Qed.

(** No rule fires for a category that no rule names. *)
Lemma scan_no_rule time_time category duration rs : forall reads last,
  Forall (fun r : RulesEngine.rule => r.1.1 <> category) rs ->
  RulesEngine.scan time_time reads category duration last rs = (None, last).
Proof.
  induction rs as [|[[rc rd] a] rs IH]; intros reads last H; [reflexivity|].
  inversion H as [|? ? Hr Hrs]. subst. simpl in *.
  rewrite bool_decide_eq_false_2 by exact Hr. simpl. apply IH. exact Hrs.
Qed.

Lemma evaluate_other re f time_time category duration :
  no_rule_for "Other" f ->
  category = None \/ category = Some "Other" ->
  match (evaluate re f time_time category duration).1.1 with
  | Ret (Some _) => False
  | _ => True
  end.
Proof.
  intros Hf Hc. unfold evaluate, RulesEngine.evaluate_current_session.
  pose proof (load_rules_result re f) as R.
  destruct (RulesEngine.load_rules re f) as [[[rs|e] re1] ev];
    simpl in R.
  2: { destruct category; exact I. }
  destruct Hc as [->| ->]; [exact I|].
  assert (Hrs : Forall (fun r : RulesEngine.rule => r.1.1 <> "Other") rs).
  { destruct f as [|m [| |e'|rs']]; simpl in *; try discriminate R;
      injection R as ->; try exact Hf;
      repeat constructor; discriminate. }
  rewrite (scan_no_rule _ _ _ _ _ _ Hrs). exact I.
Qed.

Lemma nudge_other self w :
  no_rule_for "Other" (rules_config w) ->
  current_session_category self = None
  \/ current_session_category self = Some "Other" ->
  nudges (nudge self w).2 = 0%nat.
Proof.
  intros Hf Hc. unfold nudge.
  destruct (nudged_for_session self); [reflexivity|]. simpl.
  pose proof (evaluate_other (rules_engine self) (rules_config w)
                (time_time w) (current_session_category self)
                (datetime.total_seconds
                   (datetime.sub (now_duration w)
                      (current_session_start_time self))) Hf Hc) as He.
  pose proof (evaluate_events (rules_engine self) (rules_config w)
                (time_time w) (current_session_category self)
                (datetime.total_seconds
                   (datetime.sub (now_duration w)
                      (current_session_start_time self)))) as Hev.
  pose proof (load_rules_no_nudge (rules_engine self) (rules_config w))
    as Hq.
  rewrite <- Hev in Hq.
  destruct (evaluate _ _ _ _ _) as [[[[[[rn c] n]|]|e] re] ev];
    simpl in *; [contradiction | exact Hq | exact Hq].
Qed.

Lemma all_other_frame self self' :
  all_other self ->
  ai_agent self' = ai_agent self ->
  current_session_category self' = current_session_category self ->
  all_other self'.
Proof. unfold all_other. intros H -> ->. exact H. Qed.

Lemma track_model_down self w d :
  all_other self -> model_down w ->
  all_other (track self w d).1.2 /\ nudges (track self w d).2 = 0%nat.
Proof.
  intros [Hcache Hcat] [[e Hllm] Hf]. unfold track.
  destruct (_get_app_info d) as [subject label].
  pose proof (categorize_app_quiet (ai_agent self) (query_llm_category w)
                (save_cache w) (Str subject)) as Hq.
  apply nudges_quiet in Hq.
  destruct (AIAgent.categorize_app (ai_agent self) (query_llm_category w)
              (save_cache w) (Str subject)) as [[r ai] ev1] eqn:Ec.
  assert (Hai : forall k v,
    AIAgent.category_cache ai !! k = Some v -> v = "Other").
  { destruct (AIAgent.category_cache (ai_agent self) !! subject)
      as [v0|] eqn:E.
    - rewrite (categorize_app_hit _ (query_llm_category w) (save_cache w)
                 (Str subject) _ E) in Ec.
      injection Ec as <- <- <-. exact Hcache.
    - destruct (categorize_app_miss (ai_agent self) (query_llm_category w)
                  (save_cache w) (Str subject) E _ _ _ Ec)
        as [(e0 & _ & _ & _ & ->) | (c & _ & Hc & _ & _ & Ho & _)];
        [exact Hcache|].
      rewrite (Ho e Hllm) in Hc. intros k v. rewrite Hc.
      destruct (decide (AIAgent.cache_key (Str subject) = k)) as [<-|Hne].
      + rewrite lookup_insert_eq. intros [= <-]. reflexivity.
      + rewrite lookup_insert_ne by exact Hne. apply Hcache. }
  assert (H1 : all_other (with_ai_agent self ai)) by (split; assumption).
  destruct r as [c|e0]; simpl in Hq; [|split; [exact H1 | exact Hq]].
  assert (Hc : c = "Other").
  { apply (Hai subject).
    exact (categorize_app_returns (ai_agent self) (query_llm_category w)
             (save_cache w) (Str subject) c ai ev1 Ec). }
  subst c. unfold switch.
  destruct (boundary (with_ai_agent self ai) d "Other").
  - pose proof (end_session_spec (with_ai_agent self ai) (now_end w)
                  (save_data w) true) as He.
    destruct (end_session (with_ai_agent self ai) (now_end w)
                (save_data w) true) as [[[[]|e0] self1] ev2];
      destruct He as (_ & _ & Ha & _ & Hc1 & _ & _ & _ & _ & Hs & _).
    + match goal with
      | |- context [nudge ?s w] =>
          pose proof (nudge_frame s w) as Hn;
            pose proof (nudge_other s w Hf (or_intror eq_refl)) as Hz;
            destruct (nudge s w) as [[r2 self2] ev3]
      end.
      cbn [fst snd] in *. destruct Hn as (_ & Ha2 & _ & Hc2 & _).
      split.
      * split; [rewrite Ha2; simpl; rewrite Ha; exact Hai|].
        right. rewrite Hc2. reflexivity.
      * rewrite !nudges_app, Hq, Hz.
        assert (nudges ev2 = 0%nat) as ->.
        { clear - Hs. induction Hs as [|x l Hx _ IH]; [reflexivity|].
          unfold nudges in *. simpl.
          destruct x as [m| | | | | |]; try exact IH; try discriminate Hx.
          destruct m; try exact IH; discriminate Hx. }
        reflexivity.
    + cbn [fst snd]. split.
      * apply (all_other_frame (with_ai_agent self ai)); auto.
      * rewrite nudges_app, Hq.
        clear - Hs. induction Hs as [|x l Hx _ IH]; [reflexivity|].
        unfold nudges in *. simpl.
        destruct x as [m| | | | | |]; try exact IH; try discriminate Hx.
        destruct m; try exact IH; discriminate Hx.
  - pose proof (nudge_frame (with_ai_agent self ai) w) as Hn.
    pose proof (nudge_other (with_ai_agent self ai) w Hf Hcat) as Hz.
    destruct (nudge (with_ai_agent self ai) w) as [[r2 self2] ev3].
    cbn [fst snd] in *. destruct Hn as (_ & Ha2 & _ & Hc2 & _).
    split.
    + apply (all_other_frame (with_ai_agent self ai)); auto.
    + rewrite !nudges_app, Hq, Hz. reflexivity.
Qed.

End ModelDown.

Section ModelDownRun.

Import BilgeApp Spec Examples.

Lemma body_model_down self w :
  all_other self -> model_down w ->
  all_other (body self w).1.2 /\ nudges (body self w).2 = 0%nat.
Proof.
  intros H Hw. unfold body, sleep.
  destruct (get_active_window w) as [[d|]|e]; [| |auto].
  - destruct (truthy (Some d)); [|destruct (sleep_1 w); auto].
    pose proof (track_model_down self w d H Hw) as Ht.
    destruct (track self w d) as [[[[]|e] self1] ev]; cbn [fst snd] in *;
      [|exact Ht].
    destruct Ht as [Ht1 Ht2].
    destruct (sleep_1 w); cbn [fst snd]; (split; [exact Ht1|]);
      rewrite nudges_app, Ht2; reflexivity.
  - destruct (sleep_1 w); auto.
Qed.

Lemma iteration_model_down self w :
  all_other self -> model_down w ->
  all_other (iteration self w).1.2 /\ nudges (iteration self w).2 = 0%nat.
Proof.
  intros H Hw. unfold iteration, sleep.
  pose proof (body_model_down self w H Hw) as Hb.
  destruct (body self w) as [[[[]|e] self1] ev]; cbn [fst snd] in *;
    [exact Hb|].
  destruct Hb as [Hb1 Hb2].
  destruct e;
    try (destruct (sleep_5 w) as [[]|e']; cbn [fst snd];
         (split; [exact Hb1|]); rewrite nudges_app, Hb2; reflexivity).
  pose proof (end_session_spec self1 (now_exit w) (save_data_exit w) false)
    as He.
  destruct (end_session self1 (now_exit w) (save_data_exit w) false)
    as [[[[]|e] self2] ev1];
    destruct He as (_ & _ & Ha & _ & Hc & _ & _ & _ & _ & Hs & _);
    cbn [fst snd];
    (split; [apply (all_other_frame self1); auto|]);
    rewrite nudges_app, Hb2;
    change (Print Exiting :: ev1) with ([Print Exiting] ++ ev1)%list;
    rewrite nudges_app;
    (assert (nudges ev1 = 0%nat) as ->;
     [clear - Hs; induction Hs as [|x l Hx _ IH]; [reflexivity|];
      unfold nudges in *; simpl;
      destruct x as [m| | | | | |]; try exact IH; try discriminate Hx;
      destruct m; try exact IH; discriminate Hx
     |reflexivity]).
Qed.

(** X21.  When the model never answers a classification from start-up on
    (and the cache file was empty), everything is classified ["Other"],
    and with rules that have no rule for ["Other"] (the built-in rules
    are such) no rule ever triggers and no notification is ever sent. *)
Theorem X21_model_down_never_nudges dm re now ws :
  Forall model_down ws ->
  let '(x, self', ev) := run (init dm re (AIAgent.init None) now) ws in
  nudges ev = 0%nat
  /\ (current_session_category self' = None
      \/ current_session_category self' = Some "Other")
  /\ forall k v,
       AIAgent.category_cache (ai_agent self') !! k = Some v -> v = "Other".
Proof.
  intros Hws.
  assert (H : forall ws self, Forall model_down ws -> all_other self ->
    all_other (run self ws).1.2 /\ nudges (run self ws).2 = 0%nat).
  { clear. induction ws as [|w ws IH]; intros self Hws H; simpl; [auto|].
    inversion Hws as [|? ? Hw Hws']. subst.
    pose proof (iteration_model_down self w H Hw) as Hi.
    destruct (iteration self w) as [[[| |e] self1] ev]; cbn [fst snd] in *;
      try exact Hi.
    destruct Hi as [Hi1 Hi2]. specialize (IH self1 Hws' Hi1).
    destruct (run self1 ws) as [[x self2] ev1]. cbn [fst snd] in *.
    destruct IH as [IH1 IH2]. split; [exact IH1|].
    rewrite nudges_app, Hi2, IH2. reflexivity. }
  specialize (H ws (init dm re (AIAgent.init None) now) Hws).
  destruct (run (init dm re (AIAgent.init None) now) ws) as [[x self'] ev].
  destruct H as [[Hc Hk] Hn].
  - split; [|left; reflexivity]. intros k v. simpl.
    rewrite lookup_empty. discriminate.
  - auto.
Qed.

(** X21 at an hour of "Code" with the model unreachable and the rules
    file missing. *)
Lemma X21_model_down_never_nudges_witness :
  let down :=
    mk_world (Ret (Some (Str "Code"))) (Raise OSError) Written
      (at_10h 59 0) Written (at_10h 59 0) (at_10h 59 0)
      RulesEngine.Missing (fun _ => 3540%Q)
      (Ret "Time to stretch.") (Ret tt) (Ret tt) (Ret tt)
      (at_10h 59 0) Written in
  let '(x, self', ev) :=
    run (init (DataManager.mk [] [])
           (RulesEngine.mk ∅ 0 RulesEngine.DEFAULT_RULES)
           (AIAgent.init None) (at_10h 0 0)) [down; down] in
  nudges ev = 0%nat
  /\ (current_session_category self' = None
      \/ current_session_category self' = Some "Other")
  /\ forall k v,
       AIAgent.category_cache (ai_agent self') !! k = Some v -> v = "Other".
Proof.
  intros down.
  apply (X21_model_down_never_nudges (DataManager.mk [] [])
           (RulesEngine.mk ∅ 0 RulesEngine.DEFAULT_RULES) (at_10h 0 0)
           [down; down]).
  repeat constructor; exists OSError; reflexivity.
Defined.

End ModelDownRun.
